(** * LLMNewsParser (NewsAnalyzer.py): news extraction and per-ticker store

    A shallow embedding of the extraction-and-persistence pipeline of
    [NewsAnalyzer.py]: provider selection, the retrying provider call, the
    normalisation of the backend's answer, the per-ticker JSON files with
    duplicate suppression, and the row loop of [parse_csv_file].

    Modelling conventions.
    - A Python [str] is a list of Unicode code points ([pystr]).
    - A Python [float] is an IEEE-754 binary64 value, written with the
      [spec_float] of the standard library (precision 53, [emax] 1024).
    - The Python objects the program handles (what [json.loads] returns,
      what it stores in dictionaries) are the [value]s below; a [dict] is an
      association list in insertion order with distinct keys.
    - Exceptions are results: [Raise e] carries the exception class.
    - The network, the clock and the file system are explicit: a [world]
      holds the regular files, the number of requests sent and clock reads
      made so far, and the list of sleeps; the answers of the backend and of
      the clock, the working directory and the directories that exist are
      given by an environment [Env].
    - The file system is that of Linux: a path is encoded to bytes, cut
      at its slashes and walked from the working directory (or the root)
      through existing directories to a location, so that two paths of
      one file are one location; opening a file for writing can fail
      (a directory that does not exist, a name that cannot be encoded
      or is too long, a directory in the place of the file) and empties
      the file when it succeeds; [json.dump] fails on a string with a
      surrogate code point and leaves a text that cannot be read.
      Symbolic links, permissions and a full disk are not modelled; the
      directories are those that exist once the constructor has made the
      output directory, and the program makes no other.
    - A file holds the value written to it together with the formatting
      options of the write, or a text that [json.load] cannot read.
    - What the program prints is not part of the model. *)

From Stdlib Require Import ZArith NArith List Lia Bool.
From Stdlib Require Import Strings.String Strings.Ascii DecimalString.
From Stdlib Require Import Floats.SpecFloat Sorting.Sorted.
From stdpp Require Import gmap list.

Import ListNotations.
Local Open Scope Z_scope.

(** ** Python runtime values *)

Module Py.

(** A [str]: its code points, in order. *)
Definition pystr : Type := list N.

(** The code points of an ASCII literal. *)
Definition str (s : string) : pystr :=
  List.map N_of_ascii (list_ascii_of_string s).

(** Literal with [']  standing for the double quote, for JSON texts. *)
Definition qstr (s : string) : pystr :=
  List.map (fun c => if N.eqb c 39 then 34%N else c) (str s).

Definition nl : N := 10%N.

Definition pyfloat : Type := spec_float.

#[warnings="-register-all"]
Inductive value : Type :=
| VNone
| VBool (b : bool)
| VInt (z : Z)
| VFloat (f : pyfloat)
| VStr (s : pystr)
| VList (l : list value)
| VDict (d : list (pystr * value)).

Definition dict : Type := list (pystr * value).

Inductive exn : Type :=
| JSONDecodeError
| ValueError
| TypeError
| AttributeError
| KeyError
| IndexError
| OverflowError
| HTTPError
| ConnectionError
| FileNotFoundError
| NotADirectoryError
| IsADirectoryError
| OSError
| UnicodeEncodeError.

Inductive result (A : Type) : Type :=
| Ok (a : A)
| Raise (e : exn).
Arguments Ok {A} a.
Arguments Raise {A} e.

Definition rbind {A B} (r : result A) (k : A -> result B) : result B :=
  match r with
  | Ok a => k a
  | Raise e => Raise e
  end.

(** [a == b] on two [str]. *)
Fixpoint pystr_eqb (a b : pystr) : bool :=
  match a, b with
  | [], [] => true
  | x :: a', y :: b' => (x =? y)%N && pystr_eqb a' b'
  | _, _ => false
  end.

(** [d.get(k)], as an option. *)
Fixpoint dict_get (d : dict) (k : pystr) : option value :=
  match d with
  | [] => None
  | (k', v) :: d' => if pystr_eqb k' k then Some v else dict_get d' k
  end.

(** [d.get(k, default)]. *)
Definition dict_get_default (d : dict) (k : pystr) (default : value) : value :=
  match dict_get d k with
  | Some v => v
  | None => default
  end.

(** [d[k] = v]: an existing key keeps its place, a new key goes last. *)
Fixpoint dict_set (d : dict) (k : pystr) (v : value) : dict :=
  match d with
  | [] => [(k, v)]
  | (k', v') :: d' =>
      if pystr_eqb k' k then (k', v) :: d' else (k', v') :: dict_set d' k v
  end.

(** [str.isspace] on one code point. *)
Definition isspace (c : N) : bool :=
  ((9 <=? c) && (c <=? 13) || (28 <=? c) && (c <=? 32)
   || (c =? 133) || (c =? 160) || (c =? 5760)
   || (8192 <=? c) && (c <=? 8202)
   || (c =? 8232) || (c =? 8233) || (c =? 8239) || (c =? 8287)
   || (c =? 12288))%N.

Fixpoint lstrip (s : pystr) : pystr :=
  match s with
  | c :: s' => if isspace c then lstrip s' else s
  | [] => []
  end.

Definition rstrip (s : pystr) : pystr := rev (lstrip (rev s)).

(** [s.strip()]. *)
Definition strip (s : pystr) : pystr := rstrip (lstrip s).

(** [s.startswith(p)]. *)
Fixpoint startswith (p s : pystr) : bool :=
  match p, s with
  | [], _ => true
  | a :: p', b :: s' => (a =? b)%N && startswith p' s'
  | _ :: _, [] => false
  end.

(** An index of a slice, clamped as Python does: a negative index counts
    from the end. *)
Definition slice_index (n i : Z) : Z :=
  if i <? 0 then Z.max (n + i) 0 else Z.min i n.

(** [s[start:stop]]. *)
Definition slice (s : pystr) (start stop : Z) : pystr :=
  let n := Z.of_nat (length s) in
  drop (Z.to_nat (slice_index n start)) (take (Z.to_nat (slice_index n stop)) s).

(** [s.lower()] on the ASCII letters. *)
Definition lower (s : pystr) : pystr :=
  List.map (fun c => if ((65 <=? c) && (c <=? 90))%N then (c + 32)%N else c) s.

(** Truth value of an object ([not x] is its negation). *)
Definition truthy (v : value) : bool :=
  match v with
  | VNone => false
  | VBool b => b
  | VInt z => negb (z =? 0)
  | VFloat f =>
      match f with
      | S754_zero _ => false
      | _ => true
      end
  | VStr s => negb (Nat.eqb (length s) 0)
  | VList l => negb (Nat.eqb (length l) 0)
  | VDict d => negb (Nat.eqb (length d) 0)
  end.

(** *** Floats *)

Definition prec : Z := 53.
Definition emax : Z := 1024.

(** The binary64 nearest to [m * 10^e] (ties to even), [m >= 0]; this is
    how Python reads a decimal literal. *)
Definition float_of_decimal (neg : bool) (m e : Z) : pyfloat :=
  match m with
  | Zpos p =>
      if 0 <=? e
      then SFdiv prec emax (S754_finite neg (Z.to_pos (m * 10 ^ e)) 0)
                           (S754_finite false 1 0)
      else SFdiv prec emax (S754_finite neg p 0)
                           (S754_finite false (Z.to_pos (10 ^ (- e))) 0)
  | _ => S754_zero neg
  end.

(** [float(n)] for an [int]: nearest binary64, [OverflowError] beyond the
    largest finite one. *)
Definition float_of_int (z : Z) : result pyfloat :=
  match binary_normalize prec emax z 0 false with
  | S754_infinity _ => Raise OverflowError
  | f => Ok f
  end.

Definition isdigit (c : N) : bool := ((48 <=? c) && (c <=? 57))%N.
Definition digit_val (c : N) : Z := Z.of_N c - 48.

(** A run of digits in which single underscores may separate digits:
    returns the digits read (as a number and a count) and the rest. The
    flag tells whether the previous character was a digit. *)
Fixpoint digits_us (s : pystr) (prev_digit : bool) (acc : Z) (n : Z)
  : Z * Z * pystr :=
  match s with
  | c :: s' =>
      if isdigit c then digits_us s' true (acc * 10 + digit_val c) (n + 1)
      else if (c =? 95)%N && prev_digit then
        match s' with
        | c' :: _ => if isdigit c' then digits_us s' false acc n else (acc, n, s)
        | [] => (acc, n, s)
        end
      else (acc, n, s)
  | [] => (acc, n, s)
  end.

Definition take_sign (s : pystr) : bool * pystr :=
  match s with
  | 45%N :: s' => (true, s')
  | 43%N :: s' => (false, s')
  | _ => (false, s)
  end.

(** The first code points of the runs of ten decimal digits (category
    Nd) outside ASCII, in Unicode 14. *)
Definition decimal_zeros : list N :=
  [1632; 1776; 1984; 2406; 2534; 2662; 2790; 2918; 3046; 3174; 3302; 3430;
   3558; 3664; 3792; 3872; 4160; 4240; 6112; 6160; 6470; 6608; 6784; 6800;
   6992; 7088; 7232; 7248; 42528; 43216; 43264; 43472; 43504; 43600; 44016;
   65296; 66720; 68912; 69734; 69872; 69942; 70096; 70384; 70736; 70864;
   71248; 71360; 71472; 71904; 72016; 72784; 73040; 73120; 92768; 92864;
   93008; 120782; 120792; 120802; 120812; 120822; 123200; 123632; 125264;
   130032]%N.

(** What [float] reads in place of a code point: an ASCII character is
    kept; beyond ASCII, white space becomes a space, a decimal digit its
    ASCII digit, and anything else a question mark. *)
Definition float_char (c : N) : N :=
  if (c <? 128)%N then c
  else if isspace c then 32%N
  else match List.find (fun z => (z <=? c) && (c <? z + 10))%N decimal_zeros with
       | Some z => (48 + (c - z))%N
       | None => 63%N
       end.

(** The white space of C, which [float] skips at both ends. *)
Definition is_c_space (c : N) : bool :=
  ((9 <=? c) && (c <=? 13) || (c =? 32))%N.

Fixpoint lstrip_c (s : pystr) : pystr :=
  match s with
  | c :: s' => if is_c_space c then lstrip_c s' else s
  | [] => []
  end.

Definition strip_c (s : pystr) : pystr := rev (lstrip_c (rev (lstrip_c s))).

(** [float(s)] for a [str]: decimal digits and white space beyond ASCII
    are read as their ASCII counterparts; then come surrounding white
    space, a sign, and [inf], [infinity], [nan] in any case or a decimal
    number with optional fraction and exponent. [None] is Python's
    [ValueError]. *)
Definition float_of_str (s : pystr) : option pyfloat :=
  let '(neg, body) := take_sign (strip_c (List.map float_char s)) in
  let word := lower body in
  if pystr_eqb word (str "inf") || pystr_eqb word (str "infinity")
  then Some (S754_infinity neg)
  else if pystr_eqb word (str "nan") then Some S754_nan
  else
    let '(ip, ni, r1) := digits_us body false 0 0 in
    let '(fp, nf, r2) :=
      match r1 with
      | 46%N :: r => digits_us r false ip 0
      | _ => (ip, 0, r1)
      end in
    if (ni + nf =? 0) then None
    else
      match r2 with
      | [] => Some (float_of_decimal neg fp (- nf))
      | c :: r =>
          if (c =? 101)%N || (c =? 69)%N then
            let '(eneg, r3) := take_sign r in
            match digits_us r3 false 0 0 with
            | (ev, ne, []) =>
                if ne =? 0 then None
                else Some (float_of_decimal neg fp
                             ((if eneg then - ev else ev) - nf))
            | _ => None
            end
          else None
      end.

(** [float(x)]. *)
Definition float (v : value) : result pyfloat :=
  match v with
  | VFloat f => Ok f
  | VInt z => float_of_int z
  | VBool b => Ok (if b then float_of_decimal false 1 0 else S754_zero false)
  | VStr s =>
      match float_of_str s with
      | Some f => Ok f
      | None => Raise ValueError
      end
  | VNone | VList _ | VDict _ => Raise TypeError
  end.

(** [a > b] and [a <= b] on floats. *)
Definition float_gt (a b : pyfloat) : bool := SFltb b a.
Definition float_le (a b : pyfloat) : bool := SFleb a b.

End Py.

Import Py.

(** ** The JSON decoder

    [json.loads] on a [str], as CPython's decoder reads it: white space is
    space, tab, line feed and carriage return; [NaN], [Infinity] and
    [-Infinity] are accepted; a number is an [int] unless it has a fraction
    or an exponent; strings are read in strict mode (no raw control
    character) and an escaped surrogate pair is joined; a repeated key keeps
    its first place and its last value; anything after the value is an
    error. The text is first cut into tokens by an automaton that reads one
    character at a time, then the tokens drive a stack of open containers;
    both are total. Limits of the interpreter (recursion depth, the size of
    integer literals) are not modelled. *)

Module Json.

Inductive token : Type :=
| TLBrace | TRBrace | TLBracket | TRBracket | TColon | TComma
| TVal (v : value).

(** Where the automaton is inside a number. *)
Inductive numphase : Type :=
| NSign      (* after the minus sign *)
| NZero      (* integer part is 0 *)
| NInt       (* inside a non-zero integer part *)
| NDot       (* after the point; a digit must follow *)
| NFrac      (* inside the fraction *)
| NE         (* after e or E *)
| NESign     (* after the sign of the exponent *)
| NExp.      (* inside the exponent *)

Record numacc : Type := mkNum {
  n_neg : bool;      (* minus sign read *)
  n_mant : Z;        (* digits of integer part and fraction *)
  n_frac : Z;        (* number of fraction digits *)
  n_eneg : bool;     (* exponent sign *)
  n_exp : Z;         (* exponent digits *)
  n_float : bool     (* a fraction or an exponent was read *)
}.

(** Where the automaton is inside a string. *)
Inductive strphase : Type :=
| SNormal
| SEsc                           (* after a backslash *)
| SUni (digits : nat) (acc : N).  (* inside \uXXXX *)

Inductive lexmode : Type :=
| LIdle
| LLit (rest : pystr) (v : value)     (* the rest of null, true, NaN ... *)
| LNum (ph : numphase) (a : numacc)
| LStr (ph : strphase) (rev_chars : pystr) (high : bool).
  (* [high]: the last character came from an escape and is a high
     surrogate, so an escaped low surrogate right after it joins it *)

Definition num_value (a : numacc) : value :=
  if n_float a
  then VFloat (float_of_decimal (n_neg a) (n_mant a)
                 ((if n_eneg a then - n_exp a else n_exp a) - n_frac a))
  else VInt (if n_neg a then - n_mant a else n_mant a).

Definition hex_val (c : N) : option N :=
  if ((48 <=? c) && (c <=? 57))%N then Some (c - 48)%N
  else if ((97 <=? c) && (c <=? 102))%N then Some (c - 87)%N
  else if ((65 <=? c) && (c <=? 70))%N then Some (c - 55)%N
  else None.

Definition is_high (u : N) : bool := ((55296 <=? u) && (u <=? 56319))%N.
Definition is_low (u : N) : bool := ((56320 <=? u) && (u <=? 57343))%N.

Definition is_ws (c : N) : bool :=
  ((c =? 32) || (c =? 9) || (c =? 10) || (c =? 13))%N.

Definition num0 (neg : bool) (m : Z) : numacc := mkNum neg m 0 false 0 false.

(** A character read while idle. *)
Definition lex_idle (c : N) (toks : list token) : option (lexmode * list token) :=
  if is_ws c then Some (LIdle, toks)
  else if (c =? 123)%N then Some (LIdle, TLBrace :: toks)
  else if (c =? 125)%N then Some (LIdle, TRBrace :: toks)
  else if (c =? 91)%N then Some (LIdle, TLBracket :: toks)
  else if (c =? 93)%N then Some (LIdle, TRBracket :: toks)
  else if (c =? 58)%N then Some (LIdle, TColon :: toks)
  else if (c =? 44)%N then Some (LIdle, TComma :: toks)
  else if (c =? 34)%N then Some (LStr SNormal [] false, toks)
  else if (c =? 110)%N then Some (LLit (str "ull") VNone, toks)
  else if (c =? 116)%N then Some (LLit (str "rue") (VBool true), toks)
  else if (c =? 102)%N then Some (LLit (str "alse") (VBool false), toks)
  else if (c =? 78)%N then Some (LLit (str "aN") (VFloat S754_nan), toks)
  else if (c =? 73)%N
       then Some (LLit (str "nfinity") (VFloat (S754_infinity false)), toks)
  else if (c =? 45)%N then Some (LNum NSign (num0 true 0), toks)
  else if (c =? 48)%N then Some (LNum NZero (num0 false 0), toks)
  else if isdigit c then Some (LNum NInt (num0 false (digit_val c)), toks)
  else None.

Definition add_digit (a : numacc) (c : N) : numacc :=
  mkNum (n_neg a) (n_mant a * 10 + digit_val c) (n_frac a)
        (n_eneg a) (n_exp a) (n_float a).
Definition add_frac (a : numacc) (c : N) : numacc :=
  mkNum (n_neg a) (n_mant a * 10 + digit_val c) (n_frac a + 1)
        (n_eneg a) (n_exp a) true.
Definition add_exp (a : numacc) (c : N) : numacc :=
  mkNum (n_neg a) (n_mant a) (n_frac a)
        (n_eneg a) (n_exp a * 10 + digit_val c) true.
Definition set_eneg (a : numacc) (b : bool) : numacc :=
  mkNum (n_neg a) (n_mant a) (n_frac a) b (n_exp a) true.

(** The number is complete: emit it and read [c] as an idle character. *)
Definition num_end (a : numacc) (c : N) (toks : list token)
  : option (lexmode * list token) :=
  lex_idle c (TVal (num_value a) :: toks).

Definition is_e (c : N) : bool := ((c =? 101) || (c =? 69))%N.

Definition lex_num (ph : numphase) (a : numacc) (c : N) (toks : list token)
  : option (lexmode * list token) :=
  match ph with
  | NSign =>
      if (c =? 48)%N then Some (LNum NZero a, toks)
      else if isdigit c then Some (LNum NInt (add_digit a c), toks)
      else if (c =? 73)%N
      then Some (LLit (str "nfinity") (VFloat (S754_infinity true)), toks)
      else None
  | NZero =>
      if (c =? 46)%N then Some (LNum NDot a, toks)
      else if is_e c then Some (LNum NE a, toks)
      else num_end a c toks
  | NInt =>
      if isdigit c then Some (LNum NInt (add_digit a c), toks)
      else if (c =? 46)%N then Some (LNum NDot a, toks)
      else if is_e c then Some (LNum NE a, toks)
      else num_end a c toks
  | NDot =>
      if isdigit c then Some (LNum NFrac (add_frac a c), toks) else None
  | NFrac =>
      if isdigit c then Some (LNum NFrac (add_frac a c), toks)
      else if is_e c then Some (LNum NE a, toks)
      else num_end a c toks
  | NE =>
      if isdigit c then Some (LNum NExp (add_exp a c), toks)
      else if (c =? 43)%N then Some (LNum NESign (set_eneg a false), toks)
      else if (c =? 45)%N then Some (LNum NESign (set_eneg a true), toks)
      else None
  | NESign =>
      if isdigit c then Some (LNum NExp (add_exp a c), toks) else None
  | NExp =>
      if isdigit c then Some (LNum NExp (add_exp a c), toks)
      else num_end a c toks
  end.

Definition escape_char (c : N) : option N :=
  if (c =? 34)%N then Some 34%N
  else if (c =? 92)%N then Some 92%N
  else if (c =? 47)%N then Some 47%N
  else if (c =? 98)%N then Some 8%N
  else if (c =? 102)%N then Some 12%N
  else if (c =? 110)%N then Some 10%N
  else if (c =? 114)%N then Some 13%N
  else if (c =? 116)%N then Some 9%N
  else None.

(** The code point of a complete \uXXXX escape is added to the string; a
    low surrogate that follows an escaped high surrogate is joined to it. *)
Definition push_escape (u : N) (rev_chars : pystr) (high : bool)
  : pystr * bool :=
  match rev_chars with
  | h :: rest =>
      if high && is_low u
      then ((65536 + N.lor (N.shiftl (h - 55296) 10) (u - 56320))%N :: rest,
            false)
      else (u :: rev_chars, is_high u)
  | [] => ([u], is_high u)
  end.

Definition lex_str (ph : strphase) (rev_chars : pystr) (high : bool)
    (c : N) (toks : list token) : option (lexmode * list token) :=
  match ph with
  | SNormal =>
      if (c =? 34)%N then Some (LIdle, TVal (VStr (rev rev_chars)) :: toks)
      else if (c =? 92)%N then Some (LStr SEsc rev_chars high, toks)
      else if (c <? 32)%N then None
      else Some (LStr SNormal (c :: rev_chars) false, toks)
  | SEsc =>
      if (c =? 117)%N then Some (LStr (SUni 0 0) rev_chars high, toks)
      else
        match escape_char c with
        | Some e => Some (LStr SNormal (e :: rev_chars) false, toks)
        | None => None
        end
  | SUni k acc =>
      match hex_val c with
      | Some h =>
          let acc' := (acc * 16 + h)%N in
          if Nat.eqb k 3
          then let '(rc, hi) := push_escape acc' rev_chars high in
               Some (LStr SNormal rc hi, toks)
          else Some (LStr (SUni (S k) acc') rev_chars high, toks)
      | None => None
      end
  end.

Definition lex_step (st : lexmode * list token) (c : N)
  : option (lexmode * list token) :=
  let '(mode, toks) := st in
  match mode with
  | LIdle => lex_idle c toks
  | LLit rest v =>
      match rest with
      | r :: rest' =>
          if (r =? c)%N
          then match rest' with
               | [] => Some (LIdle, TVal v :: toks)
               | _ => Some (LLit rest' v, toks)
               end
          else None
      | [] => None
      end
  | LNum ph a => lex_num ph a c toks
  | LStr ph rc hi => lex_str ph rc hi c toks
  end.

Fixpoint lex_run (s : pystr) (st : lexmode * list token)
  : option (lexmode * list token) :=
  match s with
  | [] => Some st
  | c :: s' =>
      match lex_step st c with
      | Some st' => lex_run s' st'
      | None => None
      end
  end.

(** At the end of the text a number may be complete; a string or a literal
    may not. *)
Definition lex_finish (st : lexmode * list token) : option (list token) :=
  let '(mode, toks) := st in
  match mode with
  | LIdle => Some (rev toks)
  | LNum ph a =>
      match ph with
      | NZero | NInt | NFrac | NExp => Some (rev (TVal (num_value a) :: toks))
      | _ => None
      end
  | _ => None
  end.

Definition lex (s : pystr) : option (list token) :=
  match lex_run s (LIdle, []) with
  | Some st => lex_finish st
  | None => None
  end.

(** An open container: a list with its items so far (last first), or a
    dict with the key that waits for its value. *)
Inductive frame : Type :=
| FArr (rev_items : list value)
| FObj (d : dict) (pending : option pystr).

Inductive pmode : Type :=
| MValue          (* a value must follow *)
| MValueOrClose   (* right after [ *)
| MKeyOrClose     (* right after { *)
| MKey            (* after a comma inside a dict *)
| MColon          (* after a key *)
| MSep            (* after a value inside a container *)
| MEnd (v : value).  (* the document is complete *)

(** A value is complete: it goes into the innermost open container. *)
Definition complete (v : value) (stack : list frame)
  : option (pmode * list frame) :=
  match stack with
  | [] => Some (MEnd v, [])
  | FArr items :: st => Some (MSep, FArr (v :: items) :: st)
  | FObj d (Some k) :: st => Some (MSep, FObj (dict_set d k v) None :: st)
  | FObj _ None :: _ => None
  end.

Definition open_value (t : token) (stack : list frame)
  : option (pmode * list frame) :=
  match t with
  | TVal v => complete v stack
  | TLBracket => Some (MValueOrClose, FArr [] :: stack)
  | TLBrace => Some (MKeyOrClose, FObj [] None :: stack)
  | _ => None
  end.

Definition set_key (t : token) (stack : list frame)
  : option (pmode * list frame) :=
  match t, stack with
  | TVal (VStr k), FObj d None :: st => Some (MColon, FObj d (Some k) :: st)
  | _, _ => None
  end.

Definition parse_step (st : pmode * list frame) (t : token)
  : option (pmode * list frame) :=
  let '(mode, stack) := st in
  match mode with
  | MValue => open_value t stack
  | MValueOrClose =>
      match t, stack with
      | TRBracket, FArr items :: st' => complete (VList (rev items)) st'
      | _, _ => open_value t stack
      end
  | MKeyOrClose =>
      match t, stack with
      | TRBrace, FObj d None :: st' => complete (VDict d) st'
      | _, _ => set_key t stack
      end
  | MKey => set_key t stack
  | MColon =>
      match t with
      | TColon => Some (MValue, stack)
      | _ => None
      end
  | MSep =>
      match t, stack with
      | TComma, FArr _ :: _ => Some (MValue, stack)
      | TComma, FObj _ None :: _ => Some (MKey, stack)
      | TRBracket, FArr items :: st' => complete (VList (rev items)) st'
      | TRBrace, FObj d None :: st' => complete (VDict d) st'
      | _, _ => None
      end
  | MEnd _ => None
  end.

Fixpoint parse_run (ts : list token) (st : pmode * list frame)
  : option (pmode * list frame) :=
  match ts with
  | [] => Some st
  | t :: ts' =>
      match parse_step st t with
      | Some st' => parse_run ts' st'
      | None => None
      end
  end.

(** [json.loads(s)]: the value, or [JSONDecodeError]. *)
Definition loads (s : pystr) : result value :=
  match lex s with
  | Some ts =>
      match parse_run ts (MValue, []) with
      | Some (MEnd v, _) => Ok v
      | _ => Raise JSONDecodeError
      end
  | None => Raise JSONDecodeError
  end.

End Json.

(** ** More of the Python runtime: subscripts, lengths, iteration *)

Module PyOps.

(** [v[k]] for a [str] key. *)
Definition subscript_key (v : value) (k : pystr) : result value :=
  match v with
  | VDict d =>
      match dict_get d k with
      | Some x => Ok x
      | None => Raise KeyError
      end
  | _ => Raise TypeError
  end.

(** [v[i]] for an index [i >= 0]. A dict read from JSON has only [str]
    keys, so an integer subscript finds nothing. *)
Definition subscript_index (v : value) (i : nat) : result value :=
  match v with
  | VList l =>
      match l !! i with
      | Some x => Ok x
      | None => Raise IndexError
      end
  | VStr s =>
      match s !! i with
      | Some c => Ok (VStr [c])
      | None => Raise IndexError
      end
  | VDict _ => Raise KeyError
  | _ => Raise TypeError
  end.

(** [len(v)]. *)
Definition py_len (v : value) : result nat :=
  match v with
  | VList l => Ok (length l)
  | VStr s => Ok (length s)
  | VDict d => Ok (length d)
  | _ => Raise TypeError
  end.

(** The items a [for] loop over [v] visits. *)
Definition py_iter (v : value) : result (list value) :=
  match v with
  | VList l => Ok l
  | VStr s => Ok (List.map (fun c => VStr [c]) s)
  | VDict d => Ok (List.map (fun kv => VStr (fst kv)) d)
  | _ => Raise TypeError
  end.

(** [v.append(x)]: only a list has it. *)
Definition py_append (v x : value) : result value :=
  match v with
  | VList l => Ok (VList (l ++ [x]))
  | _ => Raise AttributeError
  end.

(** [v == s] for a [str] [s]: only an equal [str] is equal to it. *)
Definition eq_str (v : value) (s : pystr) : bool :=
  match v with
  | VStr t => pystr_eqb t s
  | _ => false
  end.

(** A value of a CSV row: a [str], or [None] where a short row has no
    value for the column. *)
Definition cell : Type := option pystr.

Definition cell_value (c : cell) : value :=
  match c with
  | Some s => VStr s
  | None => VNone
  end.

(** [v == c] for a cell. *)
Definition eq_cell (v : value) (c : cell) : bool :=
  match c, v with
  | Some s, _ => eq_str v s
  | None, VNone => true
  | None, _ => false
  end.

Definition cell_truthy (c : cell) : bool := truthy (cell_value c).

(** [a or b]. *)
Definition cell_or (a b : cell) : cell := if cell_truthy a then a else b.

(** [c[:50]]: [None] has no subscript. *)
Definition cell_prefix (c : cell) : result pystr :=
  match c with
  | Some s => Ok (slice s 0 50)
  | None => Raise TypeError
  end.

(** The text of an [int]. *)
Definition int_text (z : Z) : pystr := str (NilZero.string_of_int (Z.to_int z)).

(** [str(v)], as a formatted string puts it in; the text of a float, a
    list or a dict is left to [repr_other]. *)
Definition format_value (repr_other : value -> pystr) (v : value) : pystr :=
  match v with
  | VStr s => s
  | VNone => str "None"
  | VBool true => str "True"
  | VBool false => str "False"
  | VInt z => int_text z
  | _ => repr_other v
  end.

Definition format_cell (c : cell) : pystr :=
  match c with
  | Some s => s
  | None => str "None"
  end.

(** [os.path.join(a, b)] with POSIX paths. *)
Definition path_join (a b : pystr) : pystr :=
  if startswith (str "/") b then b
  else match last a with
       | None => b
       | Some c => if (c =? 47)%N then a ++ b else a ++ str "/" ++ b
       end.

(** [try: r except E: h] for the exception classes [catches] selects. *)
Definition try_except {A} (r : result A) (catches : exn -> bool)
    (h : result A) : result A :=
  match r with
  | Ok a => Ok a
  | Raise e => if catches e then h else Raise e
  end.

Definition is_JSONDecodeError (e : exn) : bool :=
  match e with
  | JSONDecodeError => true
  | _ => false
  end.

End PyOps.

Import PyOps.

(** ** The world the program runs in *)

Record request : Type := mkRequest {
  req_url : pystr;
  req_headers : dict;
  req_json : value
}.

(** What [requests.post] gives: an exception, or a response with its
    status and its body read as JSON ([None] when it is not JSON). *)
Inductive response : Type :=
| NoResponse (e : exn)
| Response (status : Z) (body : option value).

(** What the trace keeps: the requests sent, the sleeps, and the failure
    report [call_llm] prints for an attempt (with the number it prints);
    the progress messages are left out. *)
Inductive event : Type :=
| EvRequest (r : request)
| EvSleep (seconds : value)
| EvAttemptFailed (number : Z).

(** A file of the output directory: what [json.dump] wrote, with the
    options of the write, or a content [json.load] cannot read. *)
Inductive file : Type :=
| Unreadable
| Document (indent : nat) (ensure_ascii : bool) (data : value).

(** A file name as the operating system keeps it, a string of bytes
    (written as a string of code points below 256), and the place of a
    file or of a directory: the names on the way down from the root
    directory. *)
Abbreviation filename := pystr (only parsing).
Abbreviation location := (list pystr) (only parsing).

Record world : Type := mkWorld {
  files : gmap location file;   (* the regular files *)
  trace : list event;           (* requests and sleeps, oldest first *)
  requests_sent : nat;
  clock_reads : nat
}.

(** The outside: the answer to the [n]-th request, the text of the clock
    at its [n]-th reading, the text of floats and containers, the working
    directory, and the directories that exist besides the working
    directory and those above it. *)
Record Env : Type := mkEnv {
  network : nat -> request -> response;
  clock : nat -> pystr;
  repr_other : value -> pystr;
  cwd : location;
  directories : location -> bool
}.

(** Computations that read and change the world and may raise. *)
Definition M (A : Type) : Type := world -> result A * world.

Definition ret {A} (a : A) : M A := fun w => (Ok a, w).
Definition lift {A} (r : result A) : M A := fun w => (r, w).
Definition bind {A B} (m : M A) (k : A -> M B) : M B :=
  fun w =>
    match m w with
    | (Ok a, w') => k a w'
    | (Raise e, w') => (Raise e, w')
    end.

Notation "'let*' x ':=' m 'in' k" := (bind m (fun x => k))
  (at level 10, x name, m at level 200, k at level 200).

Definition log_event (e : event) : M unit :=
  fun w => (Ok tt, mkWorld (files w) (trace w ++ [e]) (requests_sent w) (clock_reads w)).

(** [time.sleep(seconds)]. *)
Definition sleep (seconds : value) : M unit := log_event (EvSleep seconds).

(** [datetime.now().isoformat()]. *)
Definition now_isoformat (env : Env) : M pystr :=
  fun w => (Ok (clock env (clock_reads w)),
            mkWorld (files w) (trace w) (requests_sent w) (S (clock_reads w))).

(** [requests.post(url, headers=..., json=...)]. *)
Definition post (env : Env) (r : request) : M response :=
  fun w =>
    match network env (requests_sent w) r with
    | NoResponse e =>
        (Raise e, mkWorld (files w) (trace w ++ [EvRequest r])
                    (S (requests_sent w)) (clock_reads w))
    | resp =>
        (Ok resp, mkWorld (files w) (trace w ++ [EvRequest r])
                    (S (requests_sent w)) (clock_reads w))
    end.

(** *** Paths and files *)

(** UTF-8 of one code point. *)
Definition utf8 (c : N) : filename :=
  (if c <? 128 then [c]
   else if c <? 2048 then [192 + c / 64; 128 + c mod 64]
   else if c <? 65536
        then [224 + c / 4096; 128 + (c / 64) mod 64; 128 + c mod 64]
        else [240 + c / 262144; 128 + (c / 4096) mod 64;
              128 + (c / 64) mod 64; 128 + c mod 64])%N.

Definition is_surrogate (c : N) : bool := ((55296 <=? c) && (c <=? 57343))%N.

(** [os.fsencode(path)]: UTF-8 in which a surrogate U+DC80..U+DCFF stands
    for the byte 0x80..0xFF ([surrogateescape]); any other surrogate
    cannot be encoded. *)
Fixpoint fsencode (path : pystr) : result filename :=
  match path with
  | [] => Ok []
  | c :: rest =>
      if is_surrogate c then
        if ((56448 <=? c) && (c <=? 56575))%N
        then rbind (fsencode rest) (fun b => Ok ((c - 56320)%N :: b))
        else Raise UnicodeEncodeError
      else rbind (fsencode rest) (fun b => Ok (utf8 c ++ b))
  end.

(** The names between the slashes of a path ([b.split(b'/')]). *)
Fixpoint components (b : filename) : list filename :=
  match b with
  | [] => [[]]
  | c :: rest =>
      if (c =? 47)%N then [] :: components rest
      else match components rest with
           | name :: names => (c :: name) :: names
           | [] => [[c]]
           end
  end.

Definition name_eqb (a b : filename) : bool := pystr_eqb a b.

Fixpoint is_prefix (a b : location) : bool :=
  match a, b with
  | [], _ => true
  | x :: a', y :: b' => name_eqb x y && is_prefix a' b'
  | _ :: _, [] => false
  end.

(** The directories: the root, the working directory and those above
    it, and those the environment gives. *)
Definition is_dir (env : Env) (loc : location) : bool :=
  is_prefix loc (cwd env) || directories env loc.

(** The longest name and the first length of a path that is too long. *)
Definition name_max : nat := 255.
Definition path_max : nat := 4096.

Definition is_dots (name : filename) : bool :=
  name_eqb name (str ".") || name_eqb name (str "..").

(** The walk through the directories a path names before its last name:
    the directory reached, or the error of the first name that is too
    long, is a regular file, or does not exist. *)
Fixpoint walk (env : Env) (fs : gmap location file) (cur : location)
    (names : list filename) : result location :=
  match names with
  | [] => Ok cur
  | name :: rest =>
      if name_eqb name [] || name_eqb name (str ".")
      then walk env fs cur rest
      else if name_eqb name (str "..")
      then walk env fs (removelast cur) rest
      else if (name_max <? length name)%nat then Raise OSError
      else if is_dir env (cur ++ [name])
      then walk env fs (cur ++ [name]) rest
      else match fs !! (cur ++ [name]) with
           | Some _ => Raise NotADirectoryError
           | None => Raise FileNotFoundError
           end
  end.

Definition nonempty_name (name : filename) : bool := negb (name_eqb name []).

(** Where [open(path, 'w')] finds or creates a regular file, or the
    exception it raises: the path is encoded, may hold no null byte, is
    neither empty nor too long, its directories are walked, and its last
    name is a name (no final slash, not a dot name), is not too long and
    is not that of a directory. The files only decide which exception
    a name that is not a directory gives. *)
Definition resolve (env : Env) (fs : gmap location file) (path : pystr)
  : result location :=
  rbind (fsencode path) (fun b =>
  if existsb (N.eqb 0) b then Raise ValueError
  else
    match b with
    | [] => Raise FileNotFoundError
    | c :: _ =>
        if (path_max <=? length b)%nat then Raise OSError
        else
          let names := List.filter nonempty_name (components b) in
          let start := if (c =? 47)%N then [] else cwd env in
          rbind (walk env fs start (removelast names)) (fun dir =>
          match last names with
          | None => Raise IsADirectoryError
          | Some name =>
              if match last b with Some 47%N => true | _ => false end
              then Raise IsADirectoryError
              else if is_dots name then Raise IsADirectoryError
              else if (name_max <? length name)%nat then Raise OSError
              else if is_dir env (dir ++ [name]) then Raise IsADirectoryError
              else Ok (dir ++ [name])
          end)
    end).

(** The place of the regular file a path names, when it names one. *)
Definition file_location (env : Env) (path : pystr) : option location :=
  match resolve env ∅ path with
  | Ok loc => Some loc
  | Raise _ => None
  end.

(** The world after a file is written. *)
Definition set_file (w : world) (loc : location) (f : file) : world :=
  mkWorld (<[loc := f]> (files w)) (trace w) (requests_sent w) (clock_reads w).

(** [open(path, 'w', encoding='utf-8')]: the file is created, or emptied
    when it exists. *)
Definition open_for_writing (env : Env) (path : pystr) : M location :=
  fun w =>
    match resolve env (files w) path with
    | Ok loc => (Ok loc, set_file w loc Unreadable)
    | Raise e => (Raise e, w)
    end.

Definition encodable_str (s : pystr) : bool :=
  forallb (fun c => negb (is_surrogate c)) s.

(** The strings of the value, keys included, can be written in UTF-8. *)
Fixpoint encodable (v : value) : bool :=
  match v with
  | VStr s => encodable_str s
  | VList l => forallb encodable l
  | VDict d =>
      forallb (fun kv => let '(k, x) := kv in encodable_str k && encodable x) d
  | _ => true
  end.

(** [json.dump(data, f, indent=..., ensure_ascii=...)] on a file just
    opened with [encoding='utf-8'], and the closing of the file. With
    [ensure_ascii=False] a string with a surrogate cannot be written:
    the text written before it stays in the file and cannot be read. *)
Definition json_dump (data : value) (f : location) (indent : nat)
    (ensure_ascii : bool) : M unit :=
  fun w =>
    if ensure_ascii || encodable data
    then (Ok tt, set_file w f (Document indent ensure_ascii data))
    else (Raise UnicodeEncodeError, w).

(** ** The class [LLMNewsParser] *)

(** The attributes of an instance; [None] is an attribute that was never
    assigned, and reading it raises [AttributeError]. *)
Record LLMNewsParser : Type := mkParser {
  api_key : cell;
  model_provider : pystr;
  output_dir : pystr;
  api_url : option pystr;
  model_name : option pystr;
  headers : option dict
}.

Definition attribute {A} (a : option A) : result A :=
  match a with
  | Some x => Ok x
  | None => Raise AttributeError
  end.

Definition is_provider (self : LLMNewsParser) (name : string) : bool :=
  pystr_eqb (model_provider self) (str name).

(** [setup_llm_config]: one branch per provider, and no branch for any
    other identifier. *)
Definition setup_llm_config (self : LLMNewsParser) : LLMNewsParser :=
  let set url model hdrs :=
    mkParser (api_key self) (model_provider self) (output_dir self)
             (Some url) model (Some hdrs) in
  let bearer := VStr (str "Bearer " ++ format_cell (api_key self)) in
  let content_type := (str "Content-Type", VStr (str "application/json")) in
  if is_provider self "openai" then
    set (str "https://api.openai.com/v1/chat/completions")
        (Some (str "gpt-3.5-turbo"))
        [(str "Authorization", bearer); content_type]
  else if is_provider self "anthropic" then
    set (str "https://api.anthropic.com/v1/messages")
        (Some (str "claude-3-haiku-20240307"))
        [(str "x-api-key", cell_value (api_key self)); content_type;
         (str "anthropic-version", VStr (str "2023-06-01"))]
  else if is_provider self "ollama" then
    set (str "http://localhost:11434/api/generate")
        (Some (str "llama2"))
        [content_type]
  else if is_provider self "huggingface" then
    set (str "https://api-inference.huggingface.co/models/microsoft/DialoGPT-medium")
        (model_name self)
        [(str "Authorization", bearer); content_type]
  else self.

(** [LLMNewsParser(api_key, model_provider)]. The identifier is put in
    lower case ([model_provider] is a [str]); the output directory, which
    the constructor creates, is the root of the files of the [world]. *)
Definition __init__ (key : cell) (provider : pystr) : result LLMNewsParser :=
  Ok (setup_llm_config
        (mkParser key (lower provider) (str "company_news") None None None)).

Definition one_tenth : pyfloat := Eval vm_compute in float_of_decimal false 1 (-1).
Definition three_tenths : pyfloat := Eval vm_compute in float_of_decimal false 3 (-1).
Definition one_half : pyfloat := Eval vm_compute in float_of_decimal false 5 (-1).
Definition zero : pyfloat := S754_zero false.

(** The body of a request, by provider (the last branch serves every
    identifier that is none of the first three). *)
Definition payload (self : LLMNewsParser) (prompt : pystr) : result value :=
  let message := VList [VDict [(str "role", VStr (str "user"));
                               (str "content", VStr prompt)]] in
  if is_provider self "openai" then
    rbind (attribute (model_name self)) (fun model =>
    Ok (VDict [(str "model", VStr model);
               (str "messages", message);
               (str "temperature", VFloat one_tenth);
               (str "max_tokens", VInt 1000)]))
  else if is_provider self "anthropic" then
    rbind (attribute (model_name self)) (fun model =>
    Ok (VDict [(str "model", VStr model);
               (str "max_tokens", VInt 1000);
               (str "messages", message)]))
  else if is_provider self "ollama" then
    rbind (attribute (model_name self)) (fun model =>
    Ok (VDict [(str "model", VStr model);
               (str "prompt", VStr prompt);
               (str "stream", VBool false)]))
  else
    Ok (VDict [(str "inputs", VStr prompt);
               (str "parameters",
                VDict [(str "max_new_tokens", VInt 1000);
                       (str "temperature", VFloat one_tenth)])]).

(** The request of one attempt: payload, then the URL and the headers of
    the instance. *)
Definition build_request (self : LLMNewsParser) (prompt : pystr)
  : result request :=
  rbind (payload self prompt) (fun body =>
  rbind (attribute (api_url self)) (fun url =>
  rbind (attribute (headers self)) (fun hdrs =>
  Ok (mkRequest url hdrs body)))).

(** [response.raise_for_status()] then [response.json()]. *)
Definition response_json (r : response) : result value :=
  match r with
  | NoResponse e => Raise e
  | Response status body =>
      if (400 <=? status) && (status <? 600) then Raise HTTPError
      else match body with
           | Some v => Ok v
           | None => Raise JSONDecodeError
           end
  end.

(** The completion inside the body, by provider. *)
Definition completion (self : LLMNewsParser) (body : value) : result value :=
  if is_provider self "openai" then
    rbind (subscript_key body (str "choices")) (fun a =>
    rbind (subscript_index a 0) (fun b =>
    rbind (subscript_key b (str "message")) (fun c =>
    subscript_key c (str "content"))))
  else if is_provider self "anthropic" then
    rbind (subscript_key body (str "content")) (fun a =>
    rbind (subscript_index a 0) (fun b =>
    subscript_key b (str "text")))
  else if is_provider self "ollama" then
    subscript_key body (str "response")
  else
    rbind (subscript_index body 0) (fun a =>
    subscript_key a (str "generated_text")).

Section Instance.

Variable env : Env.
Variable self : LLMNewsParser.

(** The [try] block of [call_llm]: one attempt. *)
Definition attempt_llm (prompt : pystr) : M value :=
  let* req := lift (build_request self prompt) in
  let* resp := post env req in
  let* body := lift (response_json resp) in
  lift (completion self body).

(** The loop of [call_llm], with [remaining] attempts to go from attempt
    number [attempt]. Every exception of an attempt is caught: the next
    attempt follows a sleep of [2 ** attempt], and the last one returns
    [None]. *)
Fixpoint call_llm_from (prompt : pystr) (max_retries : Z)
    (remaining : nat) (attempt : Z) : M value :=
  match remaining with
  | O => ret VNone
  | S remaining' =>
      fun w =>
        match attempt_llm prompt w with
        | (Ok text, w') => (Ok text, w')
        | (Raise _, w') =>
            (let* _ := log_event (EvAttemptFailed (attempt + 1)) in
             if attempt <? max_retries - 1
             then let* _ := sleep (VInt (2 ^ attempt)) in
                  call_llm_from prompt max_retries remaining' (attempt + 1)
             else ret VNone) w'
        end
  end.

(** [call_llm(prompt, max_retries)]. *)
Definition call_llm (prompt : pystr) (max_retries : Z) : M value :=
  call_llm_from prompt max_retries (Z.to_nat max_retries) 0.

(** The prompt: the template of [analyze_news_with_llm] around the
    headline and the description. *)
Definition prompt_intro : pystr := str "
Analyze this financial news and extract information in JSON format:

Headline: ".

Definition prompt_description : pystr := str "
Description: ".

Definition prompt_instructions : pystr := qstr "

Please provide a JSON response with:
1. 'companies': List of company names mentioned (full company names, not abbreviations)
2. 'tickers': List of stock ticker symbols for the companies (if publicly traded, use actual tickers like AAPL, GOOGL, etc.)
3. 'sentiment': Overall sentiment ('positive', 'negative', or 'neutral')
4. 'sentiment_score': Numerical score from -1 (very negative) to +1 (very positive)
5. 'key_themes': List of main themes/topics in the news
6. 'confidence': Confidence level in the analysis (0-1)

Guidelines:
- Use official company names (e.g., 'Apple Inc.' not 'Apple')
- Use correct stock tickers (e.g., 'META' for Facebook/Meta, 'GOOGL' for Google/Alphabet)
- If company is private or not publicly traded, use 'PRIVATE' as ticker
- Be accurate with sentiment analysis considering business impact
- If unsure about a ticker, use 'UNKNOWN'

Return only valid JSON, no additional text.
".

Definition build_prompt (headline description : cell) : pystr :=
  prompt_intro ++ format_cell headline ++ prompt_description
    ++ format_cell description ++ prompt_instructions.

(** The analysis returned when nothing usable came back. *)
Definition zero_analysis : value :=
  VDict [(str "companies", VList []);
         (str "tickers", VList []);
         (str "sentiment", VStr (str "neutral"));
         (str "sentiment_score", VFloat zero);
         (str "key_themes", VList []);
         (str "confidence", VFloat zero)].

(** The text handed to [json.loads]: the response without surrounding
    white space, and without its fences when it starts with one. *)
Definition clean_response (response : pystr) : pystr :=
  let cleaned_response := strip response in
  if startswith (str "```json") cleaned_response
  then slice cleaned_response 7 (-3)
  else if startswith (str "```") cleaned_response
  then slice cleaned_response 3 (-3)
  else cleaned_response.

(** "Validate and clean the analysis": each field is read with its
    default and written back; the two numbers go through [float]. *)
Definition validate_analysis (analysis : value) : result value :=
  match analysis with
  | VDict d0 =>
      let d1 := dict_set d0 (str "companies")
                  (dict_get_default d0 (str "companies") (VList [])) in
      let d2 := dict_set d1 (str "tickers")
                  (dict_get_default d1 (str "tickers") (VList [])) in
      let d3 := dict_set d2 (str "sentiment")
                  (dict_get_default d2 (str "sentiment") (VStr (str "neutral"))) in
      rbind (float (dict_get_default d3 (str "sentiment_score") (VFloat zero)))
        (fun score =>
      let d4 := dict_set d3 (str "sentiment_score") (VFloat score) in
      let d5 := dict_set d4 (str "key_themes")
                  (dict_get_default d4 (str "key_themes") (VList [])) in
      rbind (float (dict_get_default d5 (str "confidence") (VFloat one_half)))
        (fun conf =>
      Ok (VDict (dict_set d5 (str "confidence") (VFloat conf)))))
  | _ => Raise AttributeError
  end.

(** What [analyze_news_with_llm] does with the answer of [call_llm]
    (the lines after the call): a false answer gives the zero analysis;
    otherwise the [try] block strips, parses and validates, and only
    [json.JSONDecodeError] is caught. *)
Definition interpret_response (response : value) : result value :=
  if negb (truthy response) then Ok zero_analysis
  else
    try_except
      match response with
      | VStr s => rbind (Json.loads (clean_response s)) validate_analysis
      | _ => Raise AttributeError
      end
      is_JSONDecodeError
      (Ok zero_analysis).

(** [analyze_news_with_llm(headline, description)]. *)
Definition analyze_news_with_llm (headline description : cell) : M value :=
  let* response := call_llm (build_prompt headline description) 3 in
  lift (interpret_response response).

(** *** The ticker files *)

Definition ticker_filename (ticker : value) : pystr :=
  path_join (output_dir self)
            (format_value (repr_other env) ticker ++ str ".json").

(** [load_existing_data(ticker)]: the content of the file, or the empty
    list when the path names no file ([os.path.exists] is false, or
    opening it raises) or the file cannot be read. *)
Definition load_existing_data (ticker : value) : M value :=
  fun w =>
    match resolve env (files w) (ticker_filename ticker) with
    | Ok loc =>
        match files w !! loc with
        | Some (Document _ _ data) => (Ok data, w)
        | Some Unreadable => (Ok (VList []), w)
        | None => (Ok (VList []), w)
        end
    | Raise _ => (Ok (VList []), w)
    end.

(** [save_ticker_data(ticker, data)]: the file is opened for writing and
    the data written, with [indent=2] and [ensure_ascii=False]. *)
Definition save_ticker_data (ticker data : value) : M unit :=
  let* f := open_for_writing env (ticker_filename ticker) in
  json_dump data f 2 false.

(** The test of the duplicate loop on one stored entry. *)
Definition same_news (existing_entry : value) (headline time_str : cell)
  : result bool :=
  match existing_entry with
  | VDict d =>
      Ok (eq_cell (dict_get_default d (str "headline") VNone) headline
          && eq_cell (dict_get_default d (str "timestamp") VNone) time_str)
  | _ => Raise AttributeError
  end.

(** The duplicate loop: stops at the first stored entry with the same
    headline and timestamp. *)
Fixpoint is_duplicate (entries : list value) (headline time_str : cell)
  : result bool :=
  match entries with
  | [] => Ok false
  | existing_entry :: rest =>
      rbind (same_news existing_entry headline time_str) (fun same =>
      if same then Ok true else is_duplicate rest headline time_str)
  end.

(** The end of the body of the ticker loop: load the file of the ticker,
    look for a duplicate, and append and save when there is none (the
    [append_if_new] of the specification). Returns whether it saved. *)
Definition append_if_new (ticker news_entry : value)
    (headline time_str : cell) : M bool :=
  let* existing_data := load_existing_data ticker in
  let* entries := lift (py_iter existing_data) in
  let* duplicate := lift (is_duplicate entries headline time_str) in
  if duplicate then ret false
  else
    let* data := lift (py_append existing_data news_entry) in
    let* _ := save_ticker_data ticker data in
    ret true.

(** The dict [news_entry] built for one ticker of one row. *)
Definition make_news_entry (analysis : value)
    (headline time_str description : cell)
    (company_name ticker : value) : M value :=
  let* sentiment := lift (subscript_key analysis (str "sentiment")) in
  let* score := lift (subscript_key analysis (str "sentiment_score")) in
  let* themes := lift (subscript_key analysis (str "key_themes")) in
  let* conf := lift (subscript_key analysis (str "confidence")) in
  let full_text :=
    strip (format_cell headline ++ str " " ++ format_cell description) in
  let* processed_date := now_isoformat env in
  ret (VDict [(str "timestamp", cell_value time_str);
              (str "headline", cell_value headline);
              (str "description", cell_value description);
              (str "company_name", company_name);
              (str "ticker", ticker);
              (str "sentiment", sentiment);
              (str "sentiment_score", score);
              (str "key_themes", themes);
              (str "confidence", conf);
              (str "full_text", VStr full_text);
              (str "processed_date", VStr processed_date)]).

(** The body of the ticker loop for the [i]-th ticker. *)
Definition process_ticker (analysis : value)
    (headline time_str description : cell) (i : nat) (ticker : value)
  : M unit :=
  if eq_str ticker (str "UNKNOWN") || eq_str ticker []
  then ret tt
  else
    let* companies := lift (subscript_key analysis (str "companies")) in
    let* n := lift (py_len companies) in
    let* company_name :=
      if (i <? n)%nat then lift (subscript_index companies i)
      else ret (VStr (str "Unknown")) in
    let* news_entry :=
      make_news_entry analysis headline time_str description
                      company_name ticker in
    let* _ := append_if_new ticker news_entry headline time_str in
    ret tt.

(** The ticker loop, from index [i]. *)
Fixpoint process_tickers (analysis : value)
    (headline time_str description : cell) (i : nat) (tickers : list value)
  : M unit :=
  match tickers with
  | [] => ret tt
  | ticker :: rest =>
      let* _ := process_ticker analysis headline time_str description i ticker in
      process_tickers analysis headline time_str description (S i) rest
  end.

(** [analysis["confidence"] > 0.3]. *)
Definition confident (analysis : value) : result bool :=
  rbind (subscript_key analysis (str "confidence")) (fun c =>
  match c with
  | VFloat f => Ok (float_gt f three_tenths)
  | VInt z => Ok (0 <? z)
  | VBool b => Ok b
  | _ => Raise TypeError
  end).

(** What [parse_csv_file] does with a row once it has its analysis. *)
Definition fan_out (analysis : value) (headline time_str description : cell)
    (successful_analyses : nat) : M nat :=
  let* ok := lift (confident analysis) in
  if ok then
    let* tickers_field := lift (subscript_key analysis (str "tickers")) in
    let* tickers := lift (py_iter tickers_field) in
    let* _ := process_tickers analysis headline time_str description 0 tickers in
    ret (S successful_analyses)
  else ret successful_analyses.

(** A row as [csv.DictReader] gives it. *)
Definition row_get (row : gmap pystr cell) (column : string) : cell :=
  match row !! str column with
  | Some c => c
  | None => Some []
  end.

Record counters : Type := mkCounters {
  processed_count : nat;
  successful_analyses : nat
}.

(** The body of the row loop of [parse_csv_file]. *)
Definition process_row (row : gmap pystr cell) (c : counters) : M counters :=
  let headline := cell_or (row_get row "Headlines") (row_get row "Headline") in
  let time_str := cell_or (row_get row "Time") (row_get row "Date") in
  let description :=
    cell_or (row_get row "Description") (row_get row "Content") in
  if negb (cell_truthy headline) && negb (cell_truthy description)
  then ret c
  else
    let* _ := lift (cell_prefix headline) in
    let* analysis := analyze_news_with_llm headline description in
    let* successful :=
      fan_out analysis headline time_str description (successful_analyses c) in
    let c' := mkCounters (S (processed_count c)) successful in
    let* _ := sleep (VFloat one_half) in
    ret c'.

(** The row loop of [parse_csv_file] over the rows read from the file;
    the report printed after the loop is not part of the model. *)
Fixpoint process_rows (rows : list (gmap pystr cell)) (c : counters)
  : M counters :=
  match rows with
  | [] => ret c
  | row :: rest =>
      let* c' := process_row row c in
      process_rows rest c'
  end.

Definition parse_csv_file (rows : list (gmap pystr cell)) : M counters :=
  process_rows rows (mkCounters 0 0).

End Instance.

(** ** Vocabulary of the statements *)

(** The identifiers [setup_llm_config] has a branch for. *)
Definition recognized (provider : pystr) : bool :=
  pystr_eqb (lower provider) (str "openai")
  || pystr_eqb (lower provider) (str "anthropic")
  || pystr_eqb (lower provider) (str "ollama")
  || pystr_eqb (lower provider) (str "huggingface").

(** [s.upper()] on the ASCII letters. *)
Definition upper (s : pystr) : pystr :=
  List.map (fun c => if ((97 <=? c) && (c <=? 122))%N then (c - 32)%N else c) s.

(** The request an attempt sends, if the instance can build one. *)
Definition request_events (self : LLMNewsParser) (prompt : pystr)
  : list event :=
  match build_request self prompt with
  | Ok req => [EvRequest req]
  | Raise _ => []
  end.

(** What the [i]-th attempt (from 0) of [n] leaves in the trace when it
    fails: its request, its failure report, and a sleep of [2 ** i] unless
    it is the last attempt. *)
Definition failed_attempt (evs : list event) (n i : nat) : list event :=
  evs ++ [EvAttemptFailed (Z.of_nat i + 1)]
      ++ (if (S i <? n)%nat then [EvSleep (VInt (2 ^ Z.of_nat i))] else []).

Definition sleeps_of (t : list event) : list value :=
  flat_map (fun e => match e with EvSleep v => [v] | _ => [] end) t.

Definition requests_of (t : list event) : list request :=
  flat_map (fun e => match e with EvRequest r => [r] | _ => [] end) t.

Definition failures_of (t : list event) : list Z :=
  flat_map (fun e => match e with EvAttemptFailed k => [k] | _ => [] end) t.

(** The entries of the collection stored at a location. *)
Definition entries_at (fs : gmap location file) (loc : location)
  : list value :=
  match fs !! loc with
  | Some (Document _ _ (VList l)) => l
  | _ => []
  end.

(** The place of the file of a ticker, when its path names one, and the
    collection stored for the ticker: the entries of that file. *)
Definition ticker_location (env : Env) (self : LLMNewsParser)
    (ticker : value) : option location :=
  file_location env (ticker_filename env self ticker).

Definition collection (env : Env) (self : LLMNewsParser)
    (fs : gmap location file) (ticker : value) : list value :=
  match ticker_location env self ticker with
  | Some loc => entries_at fs loc
  | None => []
  end.

(** The file at the place of the file of a ticker. *)
Definition ticker_file (env : Env) (self : LLMNewsParser)
    (fs : gmap location file) (ticker : value) : option file :=
  match ticker_location env self ticker with
  | Some loc => fs !! loc
  | None => None
  end.

(** A value that is a [str] or [None], as the values of a row are. *)
Definition cell_of (v : value) : option cell :=
  match v with
  | VStr s => Some (Some s)
  | VNone => Some None
  | _ => None
  end.

(** The key of an entry: its headline and its timestamp, when it is a
    dict that has both fields with a [str] or [None] in each. *)
Definition key_of (e : value) : option (cell * cell) :=
  match e with
  | VDict d =>
      match dict_get d (str "headline"), dict_get d (str "timestamp") with
      | Some h, Some t =>
          match cell_of h, cell_of t with
          | Some headline, Some time_str => Some (headline, time_str)
          | _, _ => None
          end
      | _, _ => None
      end
  | _ => None
  end.

(** The entry has this headline and this timestamp. *)
Definition has_key (e : value) (headline time_str : cell) : bool :=
  bool_decide (key_of e = Some (headline, time_str)).

(** How many entries have this headline and this timestamp. *)
Definition occurrences (entries : list value) (headline time_str : cell)
  : nat :=
  length (List.filter (fun e => has_key e headline time_str) entries).

Definition is_dict (v : value) : bool :=
  match v with
  | VDict _ => true
  | _ => false
  end.

(** Every readable file is a list of entries that have a key each, no
    two of them the same key. *)
Definition deduplicated (fs : gmap location file) : Prop :=
  forall loc f, fs !! loc = Some f ->
    f = Unreadable
    \/ exists indent ascii l,
         f = Document indent ascii (VList l)
         /\ Forall (fun e => is_Some (key_of e)) l
         /\ NoDup (List.map key_of l).


(** The dicts [make_news_entry] builds for a ticker of a row. *)
Definition news_entry_of (headline time_str description : cell)
    (ticker e : value) : Prop :=
  exists company sentiment score themes conf date,
    e = VDict [(str "timestamp", cell_value time_str);
               (str "headline", cell_value headline);
               (str "description", cell_value description);
               (str "company_name", company);
               (str "ticker", ticker);
               (str "sentiment", sentiment);
               (str "sentiment_score", score);
               (str "key_themes", themes);
               (str "confidence", conf);
               (str "full_text",
                VStr (strip (format_cell headline ++ str " "
                             ++ format_cell description)));
               (str "processed_date", VStr date)].

(** The entry has this ticker, the three values of the row, and as full
    text the headline and the description joined by one space and
    trimmed (a missing value is written [None], as Python formats it). *)
Definition entry_matches_row (headline time_str description : cell)
    (ticker e : value) : Prop :=
  exists d,
    e = VDict d
    /\ dict_get d (str "ticker") = Some ticker
    /\ dict_get d (str "headline") = Some (cell_value headline)
    /\ dict_get d (str "timestamp") = Some (cell_value time_str)
    /\ dict_get d (str "description") = Some (cell_value description)
    /\ dict_get d (str "full_text")
       = Some (VStr (strip (format_cell headline ++ str " "
                            ++ format_cell description))).

(** Every stored entry lies in the file of its own ticker, and its full
    text is made of its own headline and description. *)
Definition entries_in_place (env : Env) (self : LLMNewsParser)
    (fs : gmap location file) : Prop :=
  forall loc e, In e (entries_at fs loc) ->
    exists ticker headline time_str description,
      ticker_location env self ticker = Some loc
      /\ entry_matches_row headline time_str description ticker e.

(** A computation whose every run moves the files along [R] when it
    returns, and along [Q] when it raises. *)
Definition respects {A : Type}
    (R : gmap location file -> gmap location file -> Prop)
    (Q : exn -> gmap location file -> gmap location file -> Prop)
    (m : M A) : Prop :=
  forall w r w', m w = (r, w') ->
    match r with
    | Ok _ => R (files w) (files w')
    | Raise e => Q e (files w) (files w')
    end.

(** The world after more events and more requests. *)
Definition add_events (w : world) (evs : list event) (sent : nat) : world :=
  mkWorld (files w) (trace w ++ evs) (requests_sent w + sent) (clock_reads w).

(** Files after a step hold their old entries and entries of the row. *)
Definition adds_entries_of (env : Env) (self : LLMNewsParser)
    (headline time_str description : cell)
    (before after : gmap location file) : Prop :=
  forall loc e, In e (entries_at after loc) ->
    In e (entries_at before loc)
    \/ exists ticker,
         ticker_location env self ticker = Some loc
         /\ entry_matches_row headline time_str description ticker e.

(** A ticker of ASCII characters other than the slash and the null
    character, short enough for its file name. *)
Definition plain_ticker (t : pystr) : bool :=
  forallb (fun c => (0 <? c) && (c <? 128) && negb (c =? 47))%N t
  && (length t <=? 250)%nat.

(** ** Concrete inputs used in the examples below *)

(** The response of the specification's fence example. *)
Definition fenced_response : pystr :=
  str "```json" ++ [nl]
  ++ qstr "{'sentiment':'positive','sentiment_score':0.5,'confidence':0.9,'companies':['Apple Inc.'],'tickers':['AAPL'],'key_themes':['earnings']}"
  ++ [nl] ++ str "```".


(** An entry of an earlier run. *)
Definition old_entry : value :=
  VDict [(str "timestamp", VStr (str "2023-12-31"));
         (str "headline", VStr (str "Old news"));
         (str "sentiment", VStr (str "neutral"))].

(** An answer that names a company with an escaped lone surrogate. *)
Definition surrogate_response : pystr :=
  qstr "{'tickers': ['AAPL'], 'companies': ['\ud800'], 'confidence': 0.9}".

(** A body in the shape of the first provider, around a completion. *)
Definition openai_body (text : value) : value :=
  VDict [(str "choices",
          VList [VDict [(str "message", VDict [(str "content", text)])]])].

(** A working directory in which the output directory is the only
    directory, and the file of a ticker. *)
Definition project_dir : location := [str "home"; str "project"].

Definition only_company_news (loc : location) : bool :=
  bool_decide (loc = project_dir ++ [str "company_news"]).

Definition aapl_file : location :=
  project_dir ++ [str "company_news"; str "AAPL.json"].

(** A backend that always answers with the same completion. *)
Definition constant_backend (text : pystr) : Env :=
  mkEnv (fun _ _ => Response 200 (Some (openai_body (VStr text))))
        (fun _ => str "2024-01-01T00:00:00")
        (fun _ => str "?")
        project_dir only_company_news.

(** A backend that never answers. *)
Definition dead_backend : Env :=
  mkEnv (fun _ _ => NoResponse ConnectionError)
        (fun _ => str "2024-01-01T00:00:00")
        (fun _ => str "?")
        project_dir only_company_news.

Definition openai_parser : LLMNewsParser :=
  setup_llm_config
    (mkParser (Some (str "key")) (str "openai") (str "company_news")
              None None None).

Definition empty_world : world := mkWorld ∅ [] 0 0.

Definition apple_row : gmap pystr cell :=
  <[str "Headline" := Some (str "Apple beats estimates")]>
    (<[str "Time" := Some (str "2024-01-01")]>
       (<[str "Description" := Some (str "Record quarter")]> ∅)).

(** ** Vocabulary of the further properties *)

(** The outcome of the attempt whose request is the [n]-th one sent. *)
Definition attempt_outcome (env : Env) (self : LLMNewsParser)
    (prompt : pystr) (n : nat) : result value :=
  rbind (build_request self prompt) (fun req =>
  rbind (response_json (network env n req)) (completion self)).

(** What the [i]-th attempt leaves in the trace when it fails and is not
    the last one. *)
Definition retried_attempt (req : request) (i : nat) : list event :=
  [EvRequest req; EvAttemptFailed (Z.of_nat i + 1);
   EvSleep (VInt (2 ^ Z.of_nat i))].

(** The pause after a row is the only sleep whose duration is a float. *)
Definition is_pause (e : event) : bool :=
  match e with
  | EvSleep (VFloat _) => true
  | _ => false
  end.

Definition pauses (t : list event) : nat := length (List.filter is_pause t).

(** A backend whose first answer is lost and whose later answers carry
    the same completion. *)
Definition flaky_backend (text : pystr) : Env :=
  mkEnv (fun n _ => if Nat.eqb n 0 then NoResponse ConnectionError
                    else Response 200 (Some (openai_body (VStr text))))
        (fun _ => str "2024-01-01T00:00:00")
        (fun _ => str "?")
        project_dir only_company_news.


(** A computation whose every run moves the world along [R]. *)
Definition moves {A : Type} (R : world -> world -> Prop) (m : M A) : Prop :=
  forall w r w', m w = (r, w') -> R w w'.

(** Nothing was sent and nothing was added to the trace. *)
Definition same_trace (w w' : world) : Prop :=
  trace w' = trace w /\ requests_sent w' = requests_sent w.

(** The four columns a row is judged on are empty or missing. *)
Definition blank_row (row : gmap pystr cell) : Prop :=
  cell_truthy (row_get row "Headlines") = false
  /\ cell_truthy (row_get row "Headline") = false
  /\ cell_truthy (row_get row "Description") = false
  /\ cell_truthy (row_get row "Content") = false.

(** A row that has a description and an empty column for the headline. *)
Definition headless_row : gmap pystr cell :=
  <[str "Headline" := None]>
    (<[str "Description" := Some (str "Record quarter")]> ∅).

(** Files are only appended to: each collection keeps its entries, in
    their order, as the beginning of the new one, and no file goes away. *)
Definition only_appends (before after : gmap location file) : Prop :=
  forall loc,
    (exists added,
       entries_at after loc = entries_at before loc ++ added)
    /\ (is_Some (before !! loc) -> is_Some (after !! loc)).

(** Files are only appended to, except that a write that failed on the
    encoding has left one file unreadable at the end. *)
Definition appends_then_breaks (before after : gmap location file) : Prop :=
  exists loc mid,
    only_appends before mid /\ after = <[loc := Unreadable]> mid.

(** How a computation that raised [e] has left the files when it only
    appends: as an appending run, or, for an encoding error, with one
    file unreadable at the end. *)
Definition aborted_appends (e : exn) (before after : gmap location file)
  : Prop :=
  only_appends before after
  \/ (e = UnicodeEncodeError /\ appends_then_breaks before after).

(** Each collection is as it was, or has one more entry, with this
    headline and timestamp, which it did not hold before. *)
Definition adds_one_at_most (headline time_str : cell)
    (before after : gmap location file) : Prop :=
  forall loc,
    entries_at after loc = entries_at before loc
    \/ exists e,
         entries_at after loc = entries_at before loc ++ [e]
         /\ key_of e = Some (headline, time_str)
         /\ occurrences (entries_at before loc) headline time_str = 0%nat.

(** The same, or the file was left unreadable by a write that failed on
    the encoding. *)
Definition adds_one_or_breaks (headline time_str : cell) (e : exn)
    (before after : gmap location file) : Prop :=
  forall loc,
    (entries_at after loc = entries_at before loc
     \/ exists x,
          entries_at after loc = entries_at before loc ++ [x]
          /\ key_of x = Some (headline, time_str)
          /\ occurrences (entries_at before loc) headline time_str = 0%nat)
    \/ (e = UnicodeEncodeError /\ after !! loc = Some Unreadable).

(** The tickers the ticker loop passes over. *)
Definition skipped_ticker (ticker : value) : bool :=
  eq_str ticker (str "UNKNOWN") || eq_str ticker [].

(** The company named for the [i]-th ticker. *)
Definition company_for (companies : list value) (i : nat) : value :=
  match companies !! i with
  | Some c => c
  | None => VStr (str "Unknown")
  end.

(** What a collection file holds that is JSON but not a list. *)
Definition is_list (v : value) : bool :=
  match v with
  | VList _ => true
  | _ => false
  end.

(** ** The summary printed after a run *)

(** [s.endswith(suffix)]. *)
Definition endswith (suffix s : pystr) : bool :=
  startswith (rev suffix) (rev s).

(** [a <= b] on two [str]: the order of their code points. *)
Fixpoint pystr_leb (a b : pystr) : bool :=
  match a, b with
  | [], _ => true
  | _ :: _, [] => false
  | x :: a', y :: b' =>
      if (x <? y)%N then true
      else if (y <? x)%N then false
      else pystr_leb a' b'
  end.

Fixpoint insert_by_name (x : pystr * file) (l : list (pystr * file))
  : list (pystr * file) :=
  match l with
  | [] => [x]
  | y :: l' => if pystr_leb (fst x) (fst y) then x :: y :: l'
               else y :: insert_by_name x l'
  end.

(** The entries of a directory in the order [sorted] gives their names. *)
Fixpoint sort_by_name (l : list (pystr * file)) : list (pystr * file) :=
  match l with
  | [] => []
  | x :: l' => insert_by_name x (sort_by_name l')
  end.

(** What one line of the summary reports. *)
Record file_summary : Type := mkSummary {
  sum_ticker : pystr;
  sum_count : nat;
  sum_pos : nat;
  sum_neg : nat;
  sum_neu : nat
}.

(** [json.load] on a file of the directory. *)
Definition json_load (f : file) : result value :=
  match f with
  | Unreadable => Raise JSONDecodeError
  | Document _ _ data => Ok data
  end.

(** [[item['sentiment'] for item in data]]. *)
Fixpoint sentiments_of (items : list value) : result (list value) :=
  match items with
  | [] => Ok []
  | item :: rest =>
      rbind (subscript_key item (str "sentiment")) (fun s =>
      rbind (sentiments_of rest) (fun ss => Ok (s :: ss)))
  end.

(** [sentiments.count(word)]. *)
Definition count_word (word : string) (sentiments : list value) : nat :=
  length (List.filter (fun s => eq_str s (str word)) sentiments).

(** The body of the loop of [print_summary] for one file whose name ends
    with [.json]. *)
Definition summarize_file (filename : pystr) (f : file) : result file_summary :=
  rbind (json_load f) (fun data =>
  let ticker := slice filename 0 (-5) in
  rbind (py_len data) (fun count =>
  rbind (py_iter data) (fun items =>
  rbind (sentiments_of items) (fun sentiments =>
  Ok (mkSummary ticker count
                (count_word "positive" sentiments)
                (count_word "negative" sentiments)
                (count_word "neutral" sentiments)))))).

Definition nat_text (n : nat) : pystr := int_text (Z.of_nat n).

(** The line printed for a file. *)
Definition summary_line (s : file_summary) : pystr :=
  sum_ticker s ++ str ": " ++ nat_text (sum_count s)
    ++ str " items (P:" ++ nat_text (sum_pos s)
    ++ str ", N:" ++ nat_text (sum_neg s)
    ++ str ", Neu:" ++ nat_text (sum_neu s) ++ str ")".

Definition summary_header (self : LLMNewsParser) : pystr :=
  [nl] ++ str "Summary of created files in '" ++ output_dir self
       ++ str "' directory:".

Definition total_line (total_items : nat) : pystr :=
  [nl] ++ str "Total news items processed: " ++ nat_text total_items.

(** The loop of [print_summary] over the sorted entries: the lines
    printed so far, and the total or the exception that ended the loop. *)
Fixpoint summarize_files (entries : list (pystr * file)) (total_items : nat)
    (printed : list pystr) : list pystr * result nat :=
  match entries with
  | [] => (printed, Ok total_items)
  | (filename, f) :: rest =>
      if endswith (str ".json") filename then
        match summarize_file filename f with
        | Ok s =>
            summarize_files rest (total_items + sum_count s)
                            (printed ++ [summary_line s])
        | Raise e => (printed, Raise e)
        end
      else summarize_files rest total_items printed
  end.

(** [print_summary()]: the lines it prints and whether it raised. The
    output directory is given by the file each of its names holds; its
    files are read with the encoding they were written in. *)
Definition print_summary (self : LLMNewsParser)
    (directory : gmap pystr file) : list pystr * result unit :=
  match summarize_files (sort_by_name (map_to_list directory)) 0
                        [summary_header self] with
  | (printed, Ok total_items) => (printed ++ [total_line total_items], Ok tt)
  | (printed, Raise e) => (printed, Raise e)
  end.

(** A dict with a sentiment. *)
Definition has_sentiment (e : value) : Prop :=
  exists d s, e = VDict d /\ dict_get d (str "sentiment") = Some s.

(** A file as the program writes it: a list of dicts that each have a
    sentiment. *)
Definition is_collection (f : file) : Prop :=
  exists indent ascii l,
    f = Document indent ascii (VList l) /\ Forall has_sentiment l.

(** The number of entries of a file that holds a list. *)
Definition entries_count (f : file) : nat :=
  match f with
  | Document _ _ (VList l) => length l
  | _ => 0%nat
  end.

Definition is_json_name (nf : pystr * file) : bool :=
  endswith (str ".json") (fst nf).

Definition name_leb (a b : pystr * file) : Prop :=
  pystr_leb (fst a) (fst b) = true.

(** The files of a directory that the summary reads, in its order. *)
Definition json_files (directory : gmap pystr file) : list (pystr * file) :=
  List.filter is_json_name (sort_by_name (map_to_list directory)).

(** A directory with two collections and a file that is not one. *)
Definition sample_directory : gmap pystr file :=
  <[str "MSFT.json" :=
      Document 2 false
        (VList [VDict [(str "sentiment", VStr (str "negative"))]])]>
    (<[str "AAPL.json" :=
         Document 2 false
           (VList [VDict [(str "sentiment", VStr (str "positive"))];
                   VDict [(str "sentiment", VStr (str "mixed"))]])]>
       (<[str "notes.txt" := Unreadable]> ∅)).

(** ** The runtime model on small inputs *)

Example three_tenths_is_the_double :
  float_of_decimal false 3 (-1) = S754_finite false 5404319552844595 (-54).
Proof. vm_compute. reflexivity. Qed.

Example decimal_ties_go_to_even :
  float_of_decimal false 9007199254740993 0
  = S754_finite false 4503599627370496 1.
Proof. vm_compute. reflexivity. Qed.

Example decimal_overflows_to_infinity :
  float_of_decimal false 1 400 = S754_infinity false.
Proof. vm_compute. reflexivity. Qed.

Example float_reads_text :
  float (VStr (str "  -1_0.5e-1 "))
    = Ok (S754_finite true 4728779608739021 (-52))
  /\ float (VStr (str "high")) = Raise ValueError
  /\ float (VStr (str "1__0")) = Raise ValueError
  /\ float (VStr (str "-Infinity")) = Ok (S754_infinity true)
  /\ float VNone = Raise TypeError
  /\ float (VInt (2 ^ 1024)) = Raise OverflowError.
Proof. repeat split; vm_compute; reflexivity. Qed.

(** Beyond ASCII [float] reads decimal digits and skips white space, but
    it does not skip the separators U+001C..U+001F that [str.strip]
    removes. *)
Example float_reads_beyond_ascii :
  float (VStr [1633%N; 1634%N]) = float (VStr (str "12"))
  /\ float (VStr [65297%N; 101%N; 65298%N]) = float (VStr (str "1e2"))
  /\ float (VStr [160%N; 49%N; 12288%N]) = float (VStr (str "1"))
  /\ float (VStr [28%N; 49%N]) = Raise ValueError
  /\ float (VStr [49%N; 31%N]) = Raise ValueError
  /\ float (VStr [65293%N; 49%N]) = Raise ValueError
  /\ float (VStr [11%N; 49%N; 12%N]) = float (VStr (str "1")).
Proof. repeat split; vm_compute; reflexivity. Qed.

Example loads_accepts :
  Json.loads (qstr " {'a': 1, 'b': [true, null, -0.5e1], 'a': 2} ")
    = Ok (VDict [(str "a", VInt 2);
                 (str "b", VList [VBool true; VNone;
                                  VFloat (S754_finite true 5629499534213120 (-50))])])
  /\ Json.loads (qstr "'\ud83d\ude00\n'") = Ok (VStr [128512%N; 10%N])
  /\ Json.loads (str "[NaN, -Infinity]")
     = Ok (VList [VFloat S754_nan; VFloat (S754_infinity true)]).
Proof. repeat split; vm_compute; reflexivity. Qed.

Example loads_rejects :
  Forall (fun s => Json.loads (qstr s) = Raise JSONDecodeError)
    ["not json"; " "; "[1,]"; "{'a':1,}"; "01"; "1."; "1e"; "-";
     "{'a' 1}"; "{1:2}"; "[1 2]"; "nul"; "truefalse"; "'a"; "'\x'";
     "{} {}"; "+1"; ".5"; "[1]]"]%string.
Proof. repeat constructor. Qed.

Example slices :
  slice (str "```json{}```") 7 (-3) = str "{}"
  /\ slice (str "```json") 7 (-3) = []
  /\ slice (str "abc") 0 50 = str "abc"
  /\ strip ([nl] ++ str "  a b " ++ [nl]) = str "a b".
Proof. repeat split; vm_compute; reflexivity. Qed.

(** Two rows with the same headline and timestamp, both analysed as
    AAPL, leave one entry in the file of AAPL. *)
Example same_news_twice_is_stored_once :
  fst (parse_csv_file (constant_backend fenced_response) openai_parser
         [apple_row; apple_row] empty_world)
    = Ok (mkCounters 2 2)
  /\ length (entries_at
               (files (snd (parse_csv_file (constant_backend fenced_response)
                              openai_parser [apple_row; apple_row]
                              empty_world)))
               aapl_file) = 1%nat.
Proof. split; vm_compute; reflexivity. Qed.

(** Paths: two paths of one file are one location; a directory that does
    not exist, a file in the place of a directory, a null character, a
    surrogate that stands for no byte and a name of more than 255 bytes
    make the opening fail. *)
Example paths_resolve :
  resolve dead_backend ∅ (str "company_news/AAPL.json") = Ok aapl_file
  /\ resolve dead_backend ∅ (str "company_news/./AAPL.json") = Ok aapl_file
  /\ resolve dead_backend ∅ (str "company_news//AAPL.json") = Ok aapl_file
  /\ resolve dead_backend ∅ (str "/home/project/company_news/AAPL.json")
     = Ok aapl_file
  /\ resolve dead_backend ∅ (str "company_news/../X.json")
     = Ok (project_dir ++ [str "X.json"])
  /\ resolve dead_backend ∅ (str "company_news/BRK/B.json")
     = Raise FileNotFoundError
  /\ resolve dead_backend ∅ (str "company_news/a/../Z.json")
     = Raise FileNotFoundError
  /\ resolve dead_backend (<[aapl_file := Unreadable]> ∅)
       (str "company_news/AAPL.json/x.json")
     = Raise NotADirectoryError
  /\ resolve dead_backend ∅ (str "company_news/" ++ [0%N] ++ str ".json")
     = Raise ValueError
  /\ resolve dead_backend ∅ (str "company_news/" ++ [55296%N] ++ str ".json")
     = Raise UnicodeEncodeError
  /\ resolve dead_backend ∅ (str "company_news/" ++ [56448%N] ++ str ".json")
     = Ok (project_dir ++ [str "company_news"; [128%N] ++ str ".json"])
  /\ resolve dead_backend ∅ (str "company_news/" ++ [233%N] ++ str ".json")
     = resolve dead_backend ∅
         (str "company_news/" ++ [56515%N; 56489%N] ++ str ".json")
  /\ resolve dead_backend ∅
       (str "company_news/" ++ repeat 97%N 250 ++ str ".json")
     = Ok (project_dir
           ++ [str "company_news"; repeat 97%N 250 ++ str ".json"])
  /\ resolve dead_backend ∅
       (str "company_news/" ++ repeat 97%N 251 ++ str ".json")
     = Raise OSError
  /\ resolve dead_backend ∅
       (str "company_news/" ++ repeat 233%N 126 ++ str ".json")
     = Raise OSError
  /\ resolve dead_backend ∅ (str "company_news") = Raise IsADirectoryError
  /\ resolve dead_backend ∅ (str "company_news/") = Raise IsADirectoryError
  /\ resolve dead_backend ∅ (str "/") = Raise IsADirectoryError
  /\ resolve dead_backend ∅ [] = Raise FileNotFoundError.
Proof. repeat split; vm_compute; reflexivity. Qed.

(** A save that cannot open its file changes nothing; a save that cannot
    encode its data leaves the file unreadable, and what it held is
    lost. *)
Example saves_fail :
  save_ticker_data dead_backend openai_parser (VStr (str "BRK/B"))
    (VList []) empty_world
  = (Raise FileNotFoundError, empty_world)
  /\ save_ticker_data dead_backend openai_parser (VStr (str "AAPL"))
       (VList [VStr [55296%N]])
       (set_file empty_world aapl_file (Document 2 false (VList [])))
     = (Raise UnicodeEncodeError, set_file empty_world aapl_file Unreadable)
  /\ save_ticker_data dead_backend openai_parser (VStr (str "AAPL"))
       (VList [VStr [233%N]]) empty_world
     = (Ok tt,
        set_file empty_world aapl_file
                 (Document 2 false (VList [VStr [233%N]]))).
Proof. repeat split; vm_compute; reflexivity. Qed.

(** ** Facts about the runtime model *)

Lemma pystr_eqb_refl (a : pystr) : pystr_eqb a a = true.
Proof.
  induction a as [|x a IH]; simpl; [reflexivity|].
  rewrite N.eqb_refl. exact IH.
Qed.

Lemma pystr_eqb_eq (a b : pystr) : pystr_eqb a b = true <-> a = b.
Proof.
  split.
  - revert b. induction a as [|x a IH]; intros [|y b]; simpl; try discriminate.
    + reflexivity.
    + intros H. apply andb_prop in H as [Hxy Hab].
      apply N.eqb_eq in Hxy. f_equal; [exact Hxy | exact (IH _ Hab)].
  - intros ->. apply pystr_eqb_refl.
Qed.

Lemma dict_get_set_eq (d : dict) (k : pystr) (v : value) :
  dict_get (dict_set d k v) k = Some v.
Proof.
  induction d as [|[k' v'] d IH]; simpl.
  - rewrite pystr_eqb_refl. reflexivity.
  - destruct (pystr_eqb k' k) eqn:E; simpl; rewrite E; [reflexivity | exact IH].
Qed.

Lemma dict_get_set_ne (d : dict) (k k' : pystr) (v : value) :
  pystr_eqb k k' = false ->
  dict_get (dict_set d k v) k' = dict_get d k'.
Proof.
  intros Hne. induction d as [|[k0 v0] d IH]; simpl.
  - rewrite Hne. reflexivity.
  - destruct (pystr_eqb k0 k) eqn:E; simpl.
    + apply pystr_eqb_eq in E. subst k0. rewrite Hne. reflexivity.
    + rewrite IH. reflexivity.
Qed.

Lemma dict_get_default_set_ne (d : dict) (k k' : pystr) (v dflt : value) :
  pystr_eqb k k' = false ->
  dict_get_default (dict_set d k v) k' dflt = dict_get_default d k' dflt.
Proof.
  intros Hne. unfold dict_get_default. rewrite dict_get_set_ne by exact Hne.
  reflexivity.
Qed.




Lemma startswith_prefix (p s : pystr) :
  startswith p s = true -> exists r, s = p ++ r.
Proof.
  revert s. induction p as [|a p IH]; intros s H.
  - exists s. reflexivity.
  - destruct s as [|b s]; [discriminate|].
    cbn [startswith] in H. apply andb_prop in H as [Hab H].
    apply N.eqb_eq in Hab. subst b.
    destruct (IH _ H) as [r ->]. exists r. reflexivity.
Qed.




(** ** The response normaliser *)

Lemma interpret_response_str (s : pystr) :
  s <> [] ->
  interpret_response (VStr s) =
  try_except (rbind (Json.loads (clean_response s)) validate_analysis)
             is_JSONDecodeError (Ok zero_analysis).
Proof.
  intros Hs. unfold interpret_response.
  destruct s as [|c s]; [contradiction | reflexivity].
Qed.

(** C7. The response of the fence example, an opening fence tagged
    [json] and a closing fence around the payload, loses both fences and
    parses: the analysis has sentiment "positive" and tickers ["AAPL"]. *)
Theorem fenced_response_is_parsed :
  clean_response fenced_response =
    [nl] ++ qstr "{'sentiment':'positive','sentiment_score':0.5,'confidence':0.9,'companies':['Apple Inc.'],'tickers':['AAPL'],'key_themes':['earnings']}" ++ [nl]
  /\ exists d,
       interpret_response (VStr fenced_response) = Ok (VDict d)
       /\ dict_get d (str "sentiment") = Some (VStr (str "positive"))
       /\ dict_get d (str "tickers") = Some (VList [VStr (str "AAPL")]).
Proof.
  split; [vm_compute; reflexivity|].
  eexists. split; [vm_compute; reflexivity|].
  split; vm_compute; reflexivity.
Qed.



(** [float] raises no [JSONDecodeError], so the handler of the normaliser
    never catches a failed conversion: a record whose score is present and
    cannot be converted makes the normaliser raise. *)
Lemma float_error_not_caught (v : value) (e : exn) :
  float v = Raise e -> is_JSONDecodeError e = false.
Proof.
  destruct v as [|b|z|f|s|l|d]; cbn [float]; try discriminate;
    try (intros [= <-]; reflexivity).
  - unfold float_of_int. destruct (binary_normalize prec emax z 0 false);
      try discriminate. intros [= <-]. reflexivity.
  - destruct (float_of_str s); [discriminate|]. intros [= <-]. reflexivity.
Qed.

Lemma non_numeric_score_raises (s : pystr) (d : dict) (v : value) (e : exn) :
  Json.loads (clean_response s) = Ok (VDict d) ->
  dict_get d (str "sentiment_score") = Some v ->
  float v = Raise e ->
  interpret_response (VStr s) = Raise e.
Proof.
  intros Hparse Hget Hfloat.
  assert (Hs : s <> []).
  { intros ->. vm_compute in Hparse. discriminate. }
  rewrite interpret_response_str by exact Hs.
  rewrite Hparse. cbn [rbind]. unfold validate_analysis.
  rewrite !dict_get_default_set_ne by reflexivity.
  unfold dict_get_default at 1. rewrite Hget, Hfloat. cbn [rbind try_except].
  rewrite (float_error_not_caught v e Hfloat). reflexivity.
Qed.

(** C4, as the code behaves. A record whose sentiment_score is the text
    "high", or whose confidence is null, makes [float] raise; the handler
    of [analyze_news_with_llm] catches only [json.JSONDecodeError], so the
    exception leaves the normaliser, and it ends the run of
    [parse_csv_file] at that row: the second row is never sent. *)
Theorem non_numeric_score_aborts_run :
  interpret_response (VStr (qstr "{'sentiment_score': 'high'}"))
    = Raise ValueError
  /\ interpret_response (VStr (qstr "{'confidence': null}")) = Raise TypeError
  /\ fst (parse_csv_file
            (constant_backend (qstr "{'sentiment_score': 'high'}"))
            openai_parser [apple_row; apple_row] empty_world)
       = Raise ValueError
  /\ requests_sent
       (snd (parse_csv_file
               (constant_backend (qstr "{'sentiment_score': 'high'}"))
               openai_parser [apple_row; apple_row] empty_world))
       = 1%nat.
Proof.
  repeat split; vm_compute; reflexivity.
Qed.



(** ** The retrying call *)

Lemma add_events_add (w : world) (a b : list event) (m n : nat) :
  add_events (add_events w a m) b n = add_events w (a ++ b) (m + n).
Proof.
  unfold add_events. cbn. rewrite <- app_assoc, Nat.add_assoc. reflexivity.
Qed.

(** An attempt adds its request to the trace, if it has one, and changes
    nothing else. *)
Lemma attempt_llm_world (env : Env) (self : LLMNewsParser) (prompt : pystr)
    (w : world) :
  snd (attempt_llm env self prompt w) =
  add_events w (request_events self prompt)
             (length (request_events self prompt)).
Proof.
  unfold attempt_llm, request_events, bind, lift, post, add_events.
  destruct (build_request self prompt) as [req|e].
  - destruct (network env (requests_sent w) req) as [e|st body].
    + cbn. f_equal. lia.
    + generalize (response_json (Response st body)). intros [v|e].
      * generalize (completion self v). intros [x|e]; cbn; f_equal; lia.
      * cbn. f_equal. lia.
  - destruct w; cbn. rewrite app_nil_r. f_equal. lia.
Qed.

Lemma call_llm_from_all_fail (env : Env) (self : LLMNewsParser)
    (prompt : pystr) (max_retries : Z) :
  (forall w0, exists e, fst (attempt_llm env self prompt w0) = Raise e) ->
  forall (remaining a : nat) (w : world),
    Z.of_nat (a + remaining) = max_retries ->
    call_llm_from env self prompt max_retries remaining (Z.of_nat a) w =
    (Ok VNone,
     add_events w
       (flat_map (failed_attempt (request_events self prompt)
                                 (a + remaining))
                 (seq a remaining))
       (remaining * length (request_events self prompt))).
Proof.
  intros Hfail. induction remaining as [|r IH]; intros a w Hn.
  - cbn. unfold ret, add_events. destruct w; cbn.
    rewrite app_nil_r, Nat.add_0_r. reflexivity.
  - cbn [call_llm_from].
    destruct (Hfail w) as [e He].
    pose proof (attempt_llm_world env self prompt w) as Hw.
    destruct (attempt_llm env self prompt w) as [res w1].
    cbn in He, Hw. subst res w1.
    unfold bind at 1. unfold log_event at 1. cbn [seq flat_map].
    destruct (Z.of_nat a <? max_retries - 1) eqn:Hlast.
    + apply Z.ltb_lt in Hlast.
      unfold bind at 1. unfold sleep, log_event.
      replace (Z.of_nat a + 1) with (Z.of_nat (S a)) by lia.
      rewrite IH by lia.
      f_equal. unfold failed_attempt at 2.
      replace (S a <? a + S r)%nat with true
        by (symmetry; apply Nat.ltb_lt; lia).
      unfold add_events. cbn.
      replace (a + S r)%nat with (S a + r)%nat by lia.
      replace (Z.of_nat a + 1) with (Z.of_nat (S a)) by lia.
      f_equal; [|lia].
      rewrite <- !app_assoc. reflexivity.
    + apply Z.ltb_ge in Hlast.
      assert (r = 0%nat) by lia. subst r.
      unfold ret. f_equal. unfold failed_attempt.
      replace (S a <? a + 1)%nat with false
        by (symmetry; apply Nat.ltb_ge; lia).
      unfold add_events. cbn. rewrite !app_nil_r.
      f_equal; [|lia].
      rewrite <- !app_assoc. reflexivity.
Qed.

(** Whatever the attempts do, [call_llm] returns; it never raises. *)
Lemma call_llm_from_never_raises (env : Env) (self : LLMNewsParser)
    (prompt : pystr) (max_retries : Z) (remaining : nat) :
  forall attempt w,
    exists v,
      fst (call_llm_from env self prompt max_retries remaining attempt w)
      = Ok v.
Proof.
  induction remaining as [|r IH]; intros attempt w.
  - exists VNone. reflexivity.
  - cbn [call_llm_from].
    destruct (attempt_llm env self prompt w) as [[text|e] w1].
    + exists text. reflexivity.
    + unfold bind at 1. unfold log_event at 1.
      destruct (attempt <? max_retries - 1).
      * unfold bind at 1. unfold sleep, log_event at 1. apply IH.
      * exists VNone. reflexivity.
Qed.

Lemma sleeps_of_app (a b : list event) :
  sleeps_of (a ++ b) = sleeps_of a ++ sleeps_of b.
Proof. apply flat_map_app. Qed.

Lemma failures_of_app (a b : list event) :
  failures_of (a ++ b) = failures_of a ++ failures_of b.
Proof. apply flat_map_app. Qed.

Lemma request_events_no_sleep (self : LLMNewsParser) (prompt : pystr) :
  sleeps_of (request_events self prompt) = []
  /\ failures_of (request_events self prompt) = [].
Proof.
  unfold request_events. destruct (build_request self prompt); split; reflexivity.
Qed.

Lemma sleeps_of_failed_attempts (self : LLMNewsParser) (prompt : pystr)
    (r a : nat) :
  sleeps_of (flat_map (failed_attempt (request_events self prompt) (a + r))
                      (seq a r))
  = List.map (fun i => VInt (2 ^ Z.of_nat i)) (seq a (r - 1)).
Proof.
  revert a. induction r as [|r IH]; intros a; [reflexivity|].
  cbn [seq flat_map]. rewrite sleeps_of_app.
  replace (a + S r)%nat with (S a + r)%nat by lia. rewrite IH.
  unfold failed_attempt. rewrite !sleeps_of_app.
  rewrite (proj1 (request_events_no_sleep self prompt)).
  destruct r as [|r].
  - replace (S a <? S a + 0)%nat with false
      by (symmetry; apply Nat.ltb_ge; lia).
    reflexivity.
  - replace (S a <? S a + S r)%nat with true
      by (symmetry; apply Nat.ltb_lt; lia).
    cbn. rewrite Nat.sub_0_r. reflexivity.
Qed.

Lemma failures_of_failed_attempts (self : LLMNewsParser) (prompt : pystr)
    (n r a : nat) :
  failures_of (flat_map (failed_attempt (request_events self prompt) n)
                        (seq a r))
  = List.map (fun i => Z.of_nat i + 1) (seq a r).
Proof.
  revert a. induction r as [|r IH]; intros a; [reflexivity|].
  cbn [seq flat_map List.map]. rewrite failures_of_app, IH.
  unfold failed_attempt. rewrite !failures_of_app.
  rewrite (proj2 (request_events_no_sleep self prompt)).
  destruct (S a <? n)%nat; reflexivity.
Qed.

Lemma requests_of_failed_attempts (req : request) (n r a : nat) :
  requests_of (flat_map (failed_attempt [EvRequest req] n) (seq a r))
  = repeat req r.
Proof.
  revert a. induction r as [|r IH]; intros a; [reflexivity|].
  cbn [seq flat_map repeat]. unfold requests_of in *.
  rewrite flat_map_app, IH.
  unfold failed_attempt. destruct (S a <? n)%nat; reflexivity.
Qed.

(** C2. When every attempt fails, [call_llm] with [max_retries >= 1]
    returns [None] without raising, after exactly [max_retries] attempts:
    attempt [i] (from 0) sends its request, reports its failure, and is
    followed by a sleep of [2 ** i] unless it is the last one. So the
    sleeps are 1, 2, 4, ..., [2 ** (max_retries - 2)], and an instance that
    can build its request sends exactly [max_retries] requests. *)
Theorem call_llm_exhausts_retries (env : Env) (self : LLMNewsParser)
    (prompt : pystr) (max_retries : Z) (w : world) :
  1 <= max_retries ->
  (forall w0, exists e, fst (attempt_llm env self prompt w0) = Raise e) ->
  let n := Z.to_nat max_retries in
  let evs := request_events self prompt in
  let t := flat_map (failed_attempt evs n) (seq 0 n) in
  call_llm env self prompt max_retries w
    = (Ok VNone, add_events w t (n * length evs))
  /\ failures_of t = List.map (fun i => Z.of_nat i + 1) (seq 0 n)
  /\ sleeps_of t = List.map (fun i => VInt (2 ^ Z.of_nat i)) (seq 0 (n - 1))
  /\ (forall req, build_request self prompt = Ok req ->
        requests_of t = repeat req n
        /\ requests_sent (snd (call_llm env self prompt max_retries w))
           = (requests_sent w + n)%nat).
Proof.
  intros Hmax Hfail n evs t.
  assert (Hcall : call_llm env self prompt max_retries w
                  = (Ok VNone, add_events w t (n * length evs))).
  { unfold call_llm.
    apply (call_llm_from_all_fail env self prompt max_retries Hfail n 0%nat w).
    subst n. cbn. lia. }
  split; [exact Hcall|]. split.
  { apply failures_of_failed_attempts. }
  split.
  { apply (sleeps_of_failed_attempts self prompt n 0). }
  intros req Hreq. split.
  - subst t evs. unfold request_events. rewrite Hreq.
    apply requests_of_failed_attempts.
  - rewrite Hcall. cbn. subst evs. unfold request_events. rewrite Hreq.
    cbn. lia.
Qed.

(** Witness for C2: three attempts against a backend that never answers. *)
Lemma call_llm_exhausts_retries_witness :
  fst (call_llm dead_backend openai_parser (str "prompt") 3 empty_world)
    = Ok VNone
  /\ sleeps_of (trace (snd (call_llm dead_backend openai_parser
                              (str "prompt") 3 empty_world)))
     = [VInt 1; VInt 2]
  /\ requests_sent (snd (call_llm dead_backend openai_parser
                           (str "prompt") 3 empty_world)) = 3%nat.
Proof.
  destruct (call_llm_exhausts_retries dead_backend openai_parser
              (str "prompt") 3 empty_world) as (Hcall & _ & _ & _).
  - lia.
  - intros w0. exists ConnectionError. reflexivity.
  - rewrite Hcall. repeat split; vm_compute; reflexivity.
Defined.

(** ** Construction *)

Lemma unrecognized_branches (provider : pystr) :
  recognized provider = false ->
  pystr_eqb (lower provider) (str "openai") = false
  /\ pystr_eqb (lower provider) (str "anthropic") = false
  /\ pystr_eqb (lower provider) (str "ollama") = false
  /\ pystr_eqb (lower provider) (str "huggingface") = false.
Proof.
  unfold recognized. intros H.
  apply orb_false_elim in H as [H H4].
  apply orb_false_elim in H as [H H3].
  apply orb_false_elim in H as [H1 H2].
  repeat split; assumption.
Qed.

Lemma setup_llm_config_output_dir (self : LLMNewsParser) :
  output_dir (setup_llm_config self) = output_dir self.
Proof.
  unfold setup_llm_config.
  repeat match goal with
         | |- context [if ?b then _ else _] => destruct b
         end; reflexivity.
Qed.

(** C6, as the code behaves. An identifier that is none of the four
    recognised ones (in any letter case) is accepted: construction
    succeeds and leaves the instance without URL and headers. The failure
    comes at call time, inside each attempt, where the retry loop absorbs
    it: [call_llm] sends no request, reports [max_retries] failed
    attempts and returns [None]. *)
Theorem unknown_provider_fails_at_call_time (key : cell) (provider : pystr) :
  recognized provider = false ->
  exists p,
    __init__ key provider = Ok p
    /\ api_url p = None /\ headers p = None
    /\ forall (env : Env) (prompt : pystr) (max_retries : Z) (w : world),
         1 <= max_retries ->
         fst (attempt_llm env p prompt w) = Raise AttributeError
         /\ fst (call_llm env p prompt max_retries w) = Ok VNone
         /\ requests_sent (snd (call_llm env p prompt max_retries w))
            = requests_sent w
         /\ failures_of (trace (snd (call_llm env p prompt max_retries w)))
            = failures_of (trace w)
              ++ List.map (fun i => Z.of_nat i + 1)
                          (seq 0 (Z.to_nat max_retries)).
Proof.
  intros Hrec.
  destruct (unrecognized_branches provider Hrec) as (H1 & H2 & H3 & H4).
  set (p := mkParser key (lower provider) (str "company_news") None None None).
  assert (Hsetup : setup_llm_config p = p).
  { unfold setup_llm_config, is_provider. cbn [model_provider p].
    rewrite H1, H2, H3, H4. reflexivity. }
  assert (Hreq : forall prompt, build_request p prompt = Raise AttributeError).
  { intros prompt. unfold build_request, payload, is_provider.
    cbn [model_provider p]. rewrite H1, H2, H3. reflexivity. }
  assert (Hattempt : forall env prompt w,
             attempt_llm env p prompt w = (Raise AttributeError, w)).
  { intros env prompt w. unfold attempt_llm, bind, lift.
    rewrite Hreq. reflexivity. }
  exists p. split; [unfold __init__; fold p; rewrite Hsetup; reflexivity|].
  split; [reflexivity|]. split; [reflexivity|].
  intros env prompt max_retries w Hmax.
  split; [rewrite Hattempt; reflexivity|].
  unfold call_llm.
  pose proof (call_llm_from_all_fail env p prompt max_retries
                (fun w0 => ex_intro _ AttributeError
                             (f_equal fst (Hattempt env prompt w0)))
                (Z.to_nat max_retries) 0%nat w) as Hc.
  change (Z.of_nat 0) with 0 in Hc. rewrite Hc by (cbn; lia). clear Hc.
  unfold request_events. rewrite Hreq. cbn [fst snd add_events length].
  split; [reflexivity|]. split; [cbn; lia|].
  unfold add_events. cbn [trace]. rewrite failures_of_app. f_equal.
  pose proof (failures_of_failed_attempts p prompt
                (0 + Z.to_nat max_retries) (Z.to_nat max_retries) 0) as Hf.
  unfold request_events in Hf. rewrite Hreq in Hf. exact Hf.
Qed.

Lemma unknown_provider_fails_at_call_time_witness :
  exists p,
    __init__ (Some (str "key")) (str "mistral") = Ok p
    /\ api_url p = None
    /\ fst (call_llm dead_backend p (str "prompt") 3 empty_world) = Ok VNone.
Proof.
  destruct (unknown_provider_fails_at_call_time
              (Some (str "key")) (str "mistral")) as (p & Hinit & Hurl & _ & Hcall).
  - vm_compute. reflexivity.
  - exists p. split; [exact Hinit|]. split; [exact Hurl|].
    destruct (Hcall dead_backend (str "prompt") 3 empty_world) as (_ & H & _).
    + lia.
    + exact H.
Defined.

(** The claim C6 fails on the identifier "mistral": it is not recognised,
    and construction does not fail. *)
Lemma unknown_provider_counterexample :
  recognized (str "mistral") = false
  /\ ~ (exists e, __init__ (Some (str "key")) (str "mistral") = Raise e).
Proof.
  split; [vm_compute; reflexivity|].
  intros [e He]. vm_compute in He. discriminate He.
Qed.

(** ** File names and locations *)

Lemma startswith_slash_app (ticker suffix : pystr) :
  startswith (str "/") ticker = false ->
  startswith (str "/") suffix = false ->
  startswith (str "/") (ticker ++ suffix) = false.
Proof.
  intros Ht Hs. destruct ticker as [|c t]; [exact Hs|].
  cbn in *. exact Ht.
Qed.

(** The files decide only which exception a walk that fails raises. *)
Lemma walk_files_irrelevant (env : Env) (fs fs' : gmap location file)
    (names : list filename) :
  forall cur loc,
    walk env fs cur names = Ok loc -> walk env fs' cur names = Ok loc.
Proof.
  induction names as [|name rest IH]; intros cur loc; cbn [walk];
    [auto|].
  destruct (name_eqb name [] || name_eqb name (str ".")); [apply IH|].
  destruct (name_eqb name (str "..")); [apply IH|].
  destruct (name_max <? length name)%nat; [discriminate|].
  destruct (is_dir env (cur ++ [name])); [apply IH|].
  destruct (fs !! (cur ++ [name])); discriminate.
Qed.

Lemma resolve_files_irrelevant (env : Env) (fs fs' : gmap location file)
    (path : pystr) (loc : location) :
  resolve env fs path = Ok loc -> resolve env fs' path = Ok loc.
Proof.
  unfold resolve. destruct (fsencode path) as [b|e]; cbn [rbind];
    [|discriminate].
  destruct (existsb (N.eqb 0) b); [discriminate|].
  destruct b as [|c b']; [discriminate|].
  destruct (path_max <=? length (c :: b'))%nat; [discriminate|].
  cbv zeta.
  destruct (walk env fs _ _) as [dir|e] eqn:Hwalk; cbn [rbind];
    [|discriminate].
  rewrite (walk_files_irrelevant env fs fs' _ _ _ Hwalk). cbn [rbind].
  auto.
Qed.

(** A path names the same file whatever the files are. *)
Lemma resolve_file_location (env : Env) (fs : gmap location file)
    (path : pystr) (loc : location) :
  resolve env fs path = Ok loc <-> file_location env path = Some loc.
Proof.
  unfold file_location. split.
  - intros H. rewrite (resolve_files_irrelevant env fs ∅ path loc H).
    reflexivity.
  - destruct (resolve env ∅ path) as [l|e] eqn:H; [|discriminate].
    intros [= ->]. exact (resolve_files_irrelevant env ∅ fs path loc H).
Qed.

Lemma resolve_no_location (env : Env) (fs : gmap location file)
    (path : pystr) :
  file_location env path = None -> exists e, resolve env fs path = Raise e.
Proof.
  intros Hnone. destruct (resolve env fs path) as [loc|e] eqn:H.
  - apply resolve_file_location in H. congruence.
  - exists e. reflexivity.
Qed.

(** The file a path names is not a directory. *)
Lemma file_location_not_dir (env : Env) (path : pystr) (loc : location) :
  file_location env path = Some loc -> is_dir env loc = false.
Proof.
  unfold file_location, resolve.
  destruct (fsencode path) as [b|e]; cbn [rbind]; [|discriminate].
  destruct (existsb (N.eqb 0) b); [discriminate|].
  destruct b as [|c b']; [discriminate|].
  destruct (path_max <=? length (c :: b'))%nat; [discriminate|].
  cbv zeta.
  destruct (walk env ∅ _ _) as [dir|e]; cbn [rbind]; [|discriminate].
  destruct (last _) as [name|]; [|discriminate].
  destruct (match last (c :: b') with Some 47%N => true | _ => false end);
    [discriminate|].
  destruct (is_dots name); [discriminate|].
  destruct (name_max <? length name)%nat; [discriminate|].
  destruct (is_dir env (dir ++ [name])) eqn:Hdir; [discriminate|].
  intros [= <-]. exact Hdir.
Qed.

Lemma set_file_twice (w : world) (loc : location) (f g : file) :
  set_file (set_file w loc f) loc g = set_file w loc g.
Proof.
  unfold set_file. cbn [files trace requests_sent clock_reads].
  rewrite insert_insert_eq. reflexivity.
Qed.

(** What a save does: nothing when the path names no file, and
    otherwise a write that leaves the data, or an unreadable file when
    the data cannot be encoded. *)
Lemma save_ticker_data_eq (env : Env) (self : LLMNewsParser)
    (ticker data : value) (w : world) :
  save_ticker_data env self ticker data w
  = match resolve env (files w) (ticker_filename env self ticker) with
    | Ok loc =>
        if encodable data
        then (Ok tt, set_file w loc (Document 2 false data))
        else (Raise UnicodeEncodeError, set_file w loc Unreadable)
    | Raise e => (Raise e, w)
    end.
Proof.
  unfold save_ticker_data, bind, open_for_writing, json_dump.
  destruct (resolve env (files w) _) as [loc|e]; [|reflexivity].
  cbn [orb]. destruct (encodable data); [|reflexivity].
  rewrite set_file_twice. reflexivity.
Qed.

Lemma save_ticker_data_located (env : Env) (self : LLMNewsParser)
    (ticker data : value) (w : world) (loc : location) :
  ticker_location env self ticker = Some loc ->
  save_ticker_data env self ticker data w
  = if encodable data
    then (Ok tt, set_file w loc (Document 2 false data))
    else (Raise UnicodeEncodeError, set_file w loc Unreadable).
Proof.
  intros Hloc. rewrite save_ticker_data_eq.
  apply (resolve_file_location env (files w)) in Hloc. rewrite Hloc.
  reflexivity.
Qed.

Lemma load_existing_data_located (env : Env) (self : LLMNewsParser)
    (ticker : value) (w : world) (loc : location) :
  ticker_location env self ticker = Some loc ->
  load_existing_data env self ticker w
  = (Ok match files w !! loc with
        | Some (Document _ _ data) => data
        | _ => VList []
        end, w).
Proof.
  intros Hloc. unfold load_existing_data.
  apply (resolve_file_location env (files w)) in Hloc. rewrite Hloc.
  destruct (files w !! loc) as [[|i a data]|]; reflexivity.
Qed.

Lemma load_existing_data_nowhere (env : Env) (self : LLMNewsParser)
    (ticker : value) (w : world) :
  ticker_location env self ticker = None ->
  load_existing_data env self ticker w = (Ok (VList []), w).
Proof.
  intros Hloc. unfold load_existing_data.
  destruct (resolve_no_location env (files w) _ Hloc) as [e ->].
  reflexivity.
Qed.

(** *** Plain tickers *)

Lemma plain_ticker_chars (t : pystr) :
  plain_ticker t = true ->
  Forall (fun c => (0 < c)%N /\ (c < 128)%N /\ c <> 47%N) t
  /\ (length t <= 250)%nat.
Proof.
  unfold plain_ticker. intros H. apply andb_prop in H as [Hc Hl].
  split; [|apply Nat.leb_le; exact Hl].
  apply List.Forall_forall. intros c Hin.
  rewrite List.forallb_forall in Hc. specialize (Hc c Hin).
  apply andb_prop in Hc as [Hc H47]. apply andb_prop in Hc as [H0 H128].
  apply N.ltb_lt in H0, H128. apply negb_true_iff, N.eqb_neq in H47.
  auto.
Qed.

Lemma fsencode_ascii (s : pystr) :
  Forall (fun c => (c < 128)%N) s -> fsencode s = Ok s.
Proof.
  induction 1 as [|c s Hc _ IH]; [reflexivity|].
  cbn [fsencode]. unfold is_surrogate.
  replace (55296 <=? c)%N with false by (symmetry; apply N.leb_gt; lia).
  cbn [andb]. rewrite IH. cbn [rbind]. unfold utf8.
  replace (c <? 128)%N with true by (symmetry; apply N.ltb_lt; exact Hc).
  reflexivity.
Qed.

Lemma existsb_null (s : pystr) :
  Forall (fun c => (0 < c)%N) s -> existsb (N.eqb 0) s = false.
Proof.
  induction 1 as [|c s Hc _ IH]; [reflexivity|].
  cbn [existsb]. rewrite IH.
  replace (0 =? c)%N with false by (symmetry; apply N.eqb_neq; lia).
  reflexivity.
Qed.

Lemma components_name (a : filename) :
  Forall (fun c => c <> 47%N) a -> components a = [a].
Proof.
  induction 1 as [|c a Hc _ IH]; [reflexivity|].
  cbn [components]. rewrite IH.
  replace (c =? 47)%N with false by (symmetry; apply N.eqb_neq; exact Hc).
  reflexivity.
Qed.

Lemma components_slash (a b : filename) :
  Forall (fun c => c <> 47%N) a ->
  components (a ++ 47%N :: b) = a :: components b.
Proof.
  induction 1 as [|c a Hc _ IH]; [reflexivity|].
  cbn [components app]. rewrite IH.
  replace (c =? 47)%N with false by (symmetry; apply N.eqb_neq; exact Hc).
  reflexivity.
Qed.

Lemma name_eqb_length (a b : filename) :
  length a <> length b -> name_eqb a b = false.
Proof.
  intros Hlen. destruct (name_eqb a b) eqn:E; [|reflexivity].
  apply pystr_eqb_eq in E. subst. contradiction.
Qed.

(** The path of a plain ticker under the output directory of the
    constructor names the file [<ticker>.json] of that directory,
    provided the directory exists and the name is not that of a
    directory. *)
Lemma plain_ticker_resolves (env : Env) (fs : gmap location file)
    (t : pystr) :
  plain_ticker t = true ->
  is_dir env (cwd env ++ [str "company_news"]) = true ->
  resolve env fs (str "company_news/" ++ t ++ str ".json")
  = if is_dir env (cwd env ++ [str "company_news"; t ++ str ".json"])
    then Raise IsADirectoryError
    else Ok (cwd env ++ [str "company_news"; t ++ str ".json"]).
Proof.
  intros Hplain Hout.
  apply plain_ticker_chars in Hplain as [Hchars Hlen].
  assert (Hname : Forall (fun c => (0 < c)%N /\ (c < 128)%N /\ c <> 47%N)
                         (t ++ str ".json")).
  { apply Forall_app. split; [exact Hchars|].
    repeat constructor; try lia; discriminate. }
  assert (Hpath : Forall (fun c => (0 < c)%N /\ (c < 128)%N)
                         (str "company_news/" ++ t ++ str ".json")).
  { apply Forall_app. split.
    - repeat constructor; lia.
    - eapply Forall_impl; [exact Hname|]. intros c (? & ? & _). auto. }
  unfold resolve.
  rewrite fsencode_ascii
    by (eapply Forall_impl; [exact Hpath|]; intros c [_ H]; exact H).
  cbn [rbind].
  rewrite existsb_null
    by (eapply Forall_impl; [exact Hpath|]; intros c [H _]; exact H).
  change (str "company_news/" ++ t ++ str ".json")
    with (99%N :: (str "ompany_news" ++ 47%N :: t ++ str ".json")).
  cbv iota.
  replace (path_max <=? length (99%N :: (str "ompany_news" ++ 47%N :: t ++ str ".json")))%nat
    with false.
  2:{ symmetry. apply Nat.leb_gt.
      repeat first [rewrite length_app | progress simpl length].
      unfold path_max. lia. }
  change (99%N :: (str "ompany_news" ++ 47%N :: t ++ str ".json"))
    with (str "company_news" ++ 47%N :: (t ++ str ".json")).
  rewrite components_slash by (repeat constructor; discriminate).
  rewrite components_name
    by (eapply Forall_impl; [exact Hname|]; intros c (_ & _ & H); exact H).
  assert (Hne : nonempty_name (t ++ str ".json") = true).
  { unfold nonempty_name. rewrite name_eqb_length; [reflexivity|].
    rewrite length_app. simpl length. lia. }
  cbn [List.filter]. rewrite Hne.
  change (nonempty_name (str "company_news")) with true. cbv iota.
  cbn [removelast last].
  change (99 =? 47)%N with false. cbv iota.
  cbn [walk].
  change (name_eqb (str "company_news") [] || name_eqb (str "company_news") (str "."))
    with false.
  change (name_eqb (str "company_news") (str "..")) with false.
  change (name_max <? length (str "company_news"))%nat with false.
  cbv iota. rewrite Hout. cbn [rbind].
  replace (last (str "company_news" ++ 47%N :: t ++ str ".json"))
    with (Some 110%N).
  2:{ change (str "company_news" ++ 47%N :: t ++ str ".json")
        with (str "company_news" ++ 47%N :: t ++ (str ".jso" ++ [110%N])).
      rewrite (app_assoc t), app_comm_cons, (app_assoc (str "company_news")).
      rewrite last_snoc. reflexivity. }
  cbv iota.
  unfold is_dots. rewrite !name_eqb_length
    by (rewrite length_app; simpl length; lia).
  cbn [orb].
  replace (name_max <? length (t ++ str ".json"))%nat with false.
  2:{ symmetry. apply Nat.ltb_ge. rewrite length_app. simpl length.
      unfold name_max. lia. }
  rewrite <- app_assoc. reflexivity.
Qed.

Lemma plain_ticker_filename (env : Env) (self : LLMNewsParser) (t : pystr) :
  output_dir self = str "company_news" ->
  startswith (str "/") t = false ->
  ticker_filename env self (VStr t) = str "company_news/" ++ t ++ str ".json".
Proof.
  intros Hout Hslash. unfold ticker_filename. rewrite Hout.
  cbn [format_value]. unfold path_join.
  rewrite (startswith_slash_app t (str ".json") Hslash eq_refl).
  reflexivity.
Qed.

Lemma plain_ticker_no_slash (t : pystr) :
  plain_ticker t = true -> startswith (str "/") t = false.
Proof.
  intros H. apply plain_ticker_chars in H as [Hc _].
  destruct (startswith (str "/") t) eqn:E; [|reflexivity].
  apply startswith_prefix in E as [r ->].
  inversion Hc as [|? ? (_ & _ & H47) _]; subst. contradiction.
Qed.

(** The file of a plain ticker. *)
Lemma plain_ticker_location (env : Env) (self : LLMNewsParser) (t : pystr) :
  output_dir self = str "company_news" ->
  plain_ticker t = true ->
  is_dir env (cwd env ++ [str "company_news"]) = true ->
  ticker_location env self (VStr t)
  = if is_dir env (cwd env ++ [str "company_news"; t ++ str ".json"])
    then None
    else Some (cwd env ++ [str "company_news"; t ++ str ".json"]).
Proof.
  intros Hout Hplain Hdir. unfold ticker_location, file_location.
  rewrite (plain_ticker_filename env self t Hout
             (plain_ticker_no_slash t Hplain)).
  rewrite (plain_ticker_resolves env ∅ t Hplain Hdir).
  destruct (is_dir env (cwd env ++ [str "company_news"; t ++ str ".json"]));
    reflexivity.
Qed.

(** C8, as the code behaves. For an instance made by the constructor and
    a ticker that does not begin with "/", the path of the collection is
    [company_news/<ticker>.json], the ticker being used as it is, in
    whatever letter case the analysis gave it (a ticker already in upper
    case thus gets the upper-case name). When that path names a file,
    the save empties it and writes the data with an indentation of 2 and
    non-ASCII characters unescaped ([ensure_ascii=False]), unless the
    data holds a surrogate code point: then it raises and leaves the
    file unreadable. When the path names no file (a directory that does
    not exist, as for BRK/B; a name that cannot be encoded or is too
    long; a directory of that name) the save raises and changes nothing.
    For a plain ticker, in an existing output directory that has no
    directory of that name, the file is [company_news/<ticker>.json] in
    the working directory. *)
Theorem ticker_file_is_named_verbatim (env : Env) (key : cell)
    (provider ticker : pystr) (p : LLMNewsParser) (data : value) (w : world) :
  __init__ key provider = Ok p ->
  startswith (str "/") ticker = false ->
  let path := str "company_news/" ++ ticker ++ str ".json" in
  ticker_filename env p (VStr ticker) = path
  /\ (forall loc, file_location env path = Some loc ->
        save_ticker_data env p (VStr ticker) data w
        = if encodable data
          then (Ok tt, set_file w loc (Document 2 false data))
          else (Raise UnicodeEncodeError, set_file w loc Unreadable))
  /\ (file_location env path = None ->
        exists e, save_ticker_data env p (VStr ticker) data w = (Raise e, w))
  /\ (plain_ticker ticker = true ->
      is_dir env (cwd env ++ [str "company_news"]) = true ->
      is_dir env (cwd env ++ [str "company_news"; ticker ++ str ".json"])
        = false ->
      file_location env path
        = Some (cwd env ++ [str "company_news"; ticker ++ str ".json"]))
  /\ (upper ticker = ticker ->
      ticker_filename env p (VStr ticker)
        = str "company_news/" ++ upper ticker ++ str ".json").
Proof.
  intros Hinit Hslash path.
  assert (Hout : output_dir p = str "company_news").
  { unfold __init__ in Hinit. injection Hinit as <-.
    rewrite setup_llm_config_output_dir. reflexivity. }
  assert (Hname : ticker_filename env p (VStr ticker) = path).
  { exact (plain_ticker_filename env p ticker Hout Hslash). }
  split; [exact Hname|]. split; [|split; [|split]].
  - intros loc Hloc. apply save_ticker_data_located.
    unfold ticker_location. rewrite Hname. exact Hloc.
  - intros Hnone. rewrite save_ticker_data_eq, Hname.
    destruct (resolve_no_location env (files w) path Hnone) as [e ->].
    exists e. reflexivity.
  - intros Hplain Hdir Hfile. unfold file_location. subst path.
    rewrite (plain_ticker_resolves env ∅ ticker Hplain Hdir), Hfile.
    reflexivity.
  - intros ->. exact Hname.
Qed.

Lemma ticker_file_is_named_verbatim_witness :
  ticker_filename dead_backend openai_parser (VStr (str "aapl"))
    = str "company_news/aapl.json"
  /\ save_ticker_data dead_backend openai_parser (VStr (str "aapl"))
       (VList []) empty_world
     = (Ok tt,
        set_file empty_world
          (project_dir ++ [str "company_news"; str "aapl.json"])
          (Document 2 false (VList []))).
Proof.
  destruct (ticker_file_is_named_verbatim dead_backend
              (Some (str "key")) (str "openai") (str "aapl") openai_parser
              (VList []) empty_world) as (Hname & Hsave & _ & Hplain & _).
  - reflexivity.
  - reflexivity.
  - split; [exact Hname|].
    apply (Hsave (project_dir ++ [str "company_news"; str "aapl.json"])).
    apply Hplain; reflexivity.
Defined.

(** The claim C8 fails on the ticker "aapl": its file is not the one
    named after the upper-case ticker. *)
Lemma ticker_file_counterexample :
  ticker_filename dead_backend openai_parser (VStr (str "aapl"))
    <> str "company_news/" ++ upper (str "aapl") ++ str ".json".
Proof.
  vm_compute. discriminate.
Qed.

(** ** Floats *)

Lemma SFcompare_antisym (x y : spec_float) :
  SFcompare y x = option_map CompOpp (SFcompare x y).
Proof.
  destruct x as [sx|sx| |sx mx ex], y as [sy|sy| |sy my ey]; cbn;
    try reflexivity;
    try (destruct sx; reflexivity);
    try (destruct sy; reflexivity);
    try (destruct sx, sy; reflexivity).
  destruct sx, sy; cbn; try reflexivity;
    rewrite (Z.compare_antisym ex ey);
    destruct (ex ?= ey); cbn; try reflexivity;
    change (Pos.compare_cont Eq my mx)
      with (Pos.compare_cont (CompOpp Eq) my mx);
    rewrite <- (Pos.compare_cont_antisym mx my Eq);
    destruct (Pos.compare_cont Eq mx my); reflexivity.
Qed.

(** [a <= b] excludes [a > b]. *)
Lemma float_le_not_gt (a b : pyfloat) :
  float_le a b = true -> float_gt a b = false.
Proof.
  unfold float_le, float_gt, SFleb, SFltb.
  rewrite (SFcompare_antisym a b).
  destruct (SFcompare a b) as [[| |]|]; cbn; congruence.
Qed.

(** ** The duplicate check *)

Lemma eq_cell_refl (c : cell) : eq_cell (cell_value c) c = true.
Proof.
  destruct c as [s|]; cbn; [apply pystr_eqb_refl | reflexivity].
Qed.

Lemma eq_cell_true (v : value) (c : cell) :
  eq_cell v c = true -> v = cell_value c.
Proof.
  destruct c as [s|]; destruct v; cbn; try discriminate; try reflexivity.
  intros H. apply pystr_eqb_eq in H. subst. reflexivity.
Qed.

Lemma cell_value_inj (a b : cell) : cell_value a = cell_value b -> a = b.
Proof.
  destruct a, b; cbn; intros H; try discriminate; try reflexivity.
  injection H as ->. reflexivity.
Qed.

Lemma cell_of_cell_value (c : cell) : cell_of (cell_value c) = Some c.
Proof. destruct c; reflexivity. Qed.

Lemma cell_of_some (v : value) (c : cell) :
  cell_of v = Some c -> v = cell_value c.
Proof. destruct v; cbn; intros [= <-]; reflexivity. Qed.

(** The comparison of the duplicate loop, on the value of a row, is
    equality. *)
Lemma eq_cell_decide (a b : cell) :
  eq_cell (cell_value a) b = bool_decide (a = b).
Proof.
  destruct (eq_cell (cell_value a) b) eqn:E; symmetry.
  - apply eq_cell_true, cell_value_inj in E.
    apply bool_decide_eq_true. exact E.
  - apply bool_decide_eq_false. intros ->.
    rewrite eq_cell_refl in E. discriminate E.
Qed.

(** An entry has the key [(h, t)] exactly when it is a dict whose
    headline is [h] and whose timestamp is [t]. *)
Lemma key_of_fields (e : value) (h t : cell) :
  key_of e = Some (h, t)
  <-> exists d,
        e = VDict d
        /\ dict_get d (str "headline") = Some (cell_value h)
        /\ dict_get d (str "timestamp") = Some (cell_value t).
Proof.
  split.
  - destruct e as [| | | | |l|d]; try discriminate. cbn [key_of].
    destruct (dict_get d (str "headline")) as [hv|] eqn:Hdh; [|discriminate].
    destruct (dict_get d (str "timestamp")) as [tv|] eqn:Hdt; [|discriminate].
    destruct (cell_of hv) as [h'|] eqn:Hh; [|discriminate].
    destruct (cell_of tv) as [t'|] eqn:Ht; [|discriminate].
    intros [= <- <-]. exists d.
    apply cell_of_some in Hh, Ht. subst. auto.
  - intros (d & -> & Hh & Ht). cbn [key_of]. rewrite Hh, Ht.
    rewrite !cell_of_cell_value. reflexivity.
Qed.

(** On an entry that has a key, the test of the duplicate loop is the
    comparison of the keys. *)
Lemma same_news_keyed (e : value) (h t : cell) :
  is_Some (key_of e) -> same_news e h t = Ok (has_key e h t).
Proof.
  intros [[h' t'] Hk]. unfold has_key. rewrite Hk.
  apply key_of_fields in Hk as (d & -> & Hh & Ht).
  unfold same_news, dict_get_default. rewrite Hh, Ht, !eq_cell_decide.
  f_equal.
  destruct (bool_decide (Some (h', t') = Some (h, t))) eqn:E.
  - apply bool_decide_eq_true in E. injection E as -> ->.
    rewrite !bool_decide_eq_true_2 by reflexivity. reflexivity.
  - apply bool_decide_eq_false in E.
    destruct (bool_decide (h' = h)) eqn:E1; [|reflexivity].
    destruct (bool_decide (t' = t)) eqn:E2; [|reflexivity].
    apply bool_decide_eq_true in E1, E2. subst. contradiction.
Qed.

Lemma has_key_same_news (e : value) (h t : cell) :
  has_key e h t = true -> same_news e h t = Ok true.
Proof.
  intros H. rewrite same_news_keyed, H; [reflexivity|].
  unfold has_key in H. apply bool_decide_eq_true in H. eauto.
Qed.

Lemma has_key_true (e : value) (h t : cell) :
  has_key e h t = true <-> key_of e = Some (h, t).
Proof. unfold has_key. apply bool_decide_eq_true. Qed.

Lemma news_entry_key (headline time_str description : cell)
    (ticker e : value) :
  news_entry_of headline time_str description ticker e ->
  key_of e = Some (headline, time_str).
Proof.
  intros (company & sentiment & score & themes & conf & date & ->).
  apply key_of_fields. eexists. split; [reflexivity|].
  split; reflexivity.
Qed.

Lemma news_entry_matches_row (headline time_str description : cell)
    (ticker e : value) :
  news_entry_of headline time_str description ticker e ->
  entry_matches_row headline time_str description ticker e.
Proof.
  intros (company & sentiment & score & themes & conf & date & ->).
  eexists. split; [reflexivity|]. repeat split; reflexivity.
Qed.

Lemma occurrences_cons (e : value) (l : list value) (h t : cell) :
  occurrences (e :: l) h t
  = ((if has_key e h t then 1 else 0) + occurrences l h t)%nat.
Proof.
  unfold occurrences. cbn [List.filter].
  destruct (has_key e h t); reflexivity.
Qed.

Lemma occurrences_app (l : list value) (e : value) (h t : cell) :
  occurrences (l ++ [e]) h t
  = (occurrences l h t + (if has_key e h t then 1 else 0))%nat.
Proof.
  unfold occurrences. rewrite List.filter_app, length_app. cbn.
  destruct (has_key e h t); reflexivity.
Qed.





(** The loop answers "no duplicate" only on a list of dicts none of which
    has the headline and the timestamp. *)
Lemma is_duplicate_false (l : list value) (h t : cell) :
  is_duplicate l h t = Ok false ->
  Forall (fun e => is_dict e = true) l /\ occurrences l h t = 0%nat.
Proof.
  induction l as [|e l IH]; cbn [is_duplicate]; intros H.
  - split; [constructor | reflexivity].
  - destruct (same_news e h t) as [[|]|x] eqn:Hs; cbn [rbind] in H;
      try discriminate H.
    destruct (IH H) as [Hd Hz]. split.
    + constructor; [|exact Hd]. destruct e; try discriminate Hs. reflexivity.
    + rewrite occurrences_cons, Hz.
      destruct (has_key e h t) eqn:Hk; [|reflexivity].
      apply has_key_same_news in Hk. congruence.
Qed.

(** On a list of entries that have a key each, the loop does not raise,
    and it answers "duplicate" exactly when some entry has the key. *)
Lemma is_duplicate_keyed (l : list value) (h t : cell) :
  Forall (fun e => is_Some (key_of e)) l ->
  is_duplicate l h t = Ok (negb (Nat.eqb (occurrences l h t) 0)).
Proof.
  induction 1 as [|e l He Hl IH]; [reflexivity|].
  cbn [is_duplicate]. rewrite (same_news_keyed e h t He). cbn [rbind].
  rewrite occurrences_cons.
  destruct (has_key e h t); [reflexivity | exact IH].
Qed.

(** ** The store *)

Lemma entries_at_insert (fs : gmap location file) (loc loc' : location)
    (indent : nat) (ascii : bool) (l : list value) :
  entries_at (<[loc := Document indent ascii (VList l)]> fs) loc'
  = if decide (loc = loc') then l else entries_at fs loc'.
Proof.
  unfold entries_at. rewrite lookup_insert.
  destruct (decide (loc = loc')); reflexivity.
Qed.

Lemma entries_at_unreadable (fs : gmap location file) (loc loc' : location) :
  entries_at (<[loc := Unreadable]> fs) loc'
  = if decide (loc = loc') then [] else entries_at fs loc'.
Proof.
  unfold entries_at. rewrite lookup_insert.
  destruct (decide (loc = loc')); reflexivity.
Qed.

(** The end of a call that found no duplicate: the entry is appended to
    the list and the list saved. *)
Lemma append_and_save (env : Env) (self : LLMNewsParser)
    (ticker e : value) (l : list value) (w : world) :
  (let* data := lift (py_append (VList l) e) in
   let* _ := save_ticker_data env self ticker data in
   ret true) w
  = match resolve env (files w) (ticker_filename env self ticker) with
    | Ok loc =>
        if encodable (VList (l ++ [e]))
        then (Ok true, set_file w loc (Document 2 false (VList (l ++ [e]))))
        else (Raise UnicodeEncodeError, set_file w loc Unreadable)
    | Raise x => (Raise x, w)
    end.
Proof.
  unfold bind, lift, ret. cbn [py_append]. rewrite save_ticker_data_eq.
  destruct (resolve env (files w) _) as [loc|x]; [|reflexivity].
  destruct (encodable (VList (l ++ [e]))); reflexivity.
Qed.

(** A call on a list: the loop, then the append and the save. *)
Lemma append_if_new_list (env : Env) (self : LLMNewsParser)
    (ticker e : value) (h t : cell) (w : world) (l : list value) :
  fst (load_existing_data env self ticker w) = Ok (VList l) ->
  append_if_new env self ticker e h t w
  = match is_duplicate l h t with
    | Ok true => (Ok false, w)
    | Ok false =>
        match resolve env (files w) (ticker_filename env self ticker) with
        | Ok loc =>
            if encodable (VList (l ++ [e]))
            then (Ok true,
                  set_file w loc (Document 2 false (VList (l ++ [e]))))
            else (Raise UnicodeEncodeError, set_file w loc Unreadable)
        | Raise x => (Raise x, w)
        end
    | Raise x => (Raise x, w)
    end.
Proof.
  intros Hload.
  assert (Hw : load_existing_data env self ticker w = (Ok (VList l), w)).
  { revert Hload. unfold load_existing_data.
    destruct (resolve env (files w) _) as [loc|x];
      [destruct (files w !! loc) as [[|i a d]|]|]; cbn; congruence. }
  unfold append_if_new. unfold bind at 1. rewrite Hw.
  unfold bind at 1. unfold lift at 1. cbn [py_iter].
  unfold bind at 1. unfold lift at 1.
  destruct (is_duplicate l h t) as [[|]|x]; [reflexivity | | reflexivity].
  apply append_and_save.
Qed.

(** What a call loads when it loads something other than a list. *)
Lemma append_if_new_not_list (env : Env) (self : LLMNewsParser)
    (ticker e : value) (h t : cell) (w : world) (data : value) :
  load_existing_data env self ticker w = (Ok data, w) ->
  is_list data = false ->
  exists x,
    append_if_new env self ticker e h t w = (Raise x, w)
    /\ (x = TypeError \/ x = AttributeError).
Proof.
  intros Hload Hdata. unfold append_if_new. unfold bind at 1. rewrite Hload.
  unfold bind, lift, ret.
  destruct data as [|b|z|f|s|l|d]; try discriminate Hdata; cbn [py_iter];
    try (exists TypeError; split; [reflexivity | left; reflexivity]).
  - destruct s as [|ch s]; cbn;
      exists AttributeError; split; try reflexivity; right; reflexivity.
  - destruct d as [|[k v] d]; cbn;
      exists AttributeError; split; try reflexivity; right; reflexivity.
Qed.

Lemma load_existing_data_world (env : Env) (self : LLMNewsParser)
    (ticker : value) (w : world) :
  exists data, load_existing_data env self ticker w = (Ok data, w).
Proof.
  unfold load_existing_data.
  destruct (resolve env (files w) _) as [loc|x];
    [destruct (files w !! loc) as [[|i a d]|]|]; eauto.
Qed.

(** A call either leaves the world as it is, or, having found no
    duplicate in the file of the ticker, rewrites that file: with the
    entry added at the end, or, when the list with the entry cannot be
    encoded, as an unreadable file, raising [UnicodeEncodeError]. *)
Lemma append_if_new_cases (env : Env) (self : LLMNewsParser)
    (ticker e : value) (h t : cell) (w : world) (r : result bool) (w' : world) :
  append_if_new env self ticker e h t w = (r, w') ->
  (w' = w /\ r <> Ok true)
  \/ exists loc,
       ticker_location env self ticker = Some loc
       /\ is_duplicate (entries_at (files w) loc) h t = Ok false
       /\ (if encodable (VList (entries_at (files w) loc ++ [e]))
           then r = Ok true
                /\ w' = set_file w loc
                          (Document 2 false
                             (VList (entries_at (files w) loc ++ [e])))
           else r = Raise UnicodeEncodeError
                /\ w' = set_file w loc Unreadable).
Proof.
  intros Hrun.
  destruct (load_existing_data_world env self ticker w) as [data Hload].
  destruct (is_list data) eqn:Hdata.
  2:{ destruct (append_if_new_not_list env self ticker e h t w data
                  Hload Hdata) as (x & Hx & _).
      rewrite Hx in Hrun. injection Hrun as <- <-.
      left. split; [reflexivity | discriminate]. }
  destruct data as [| | | | |l|]; try discriminate Hdata.
  rewrite (append_if_new_list env self ticker e h t w l) in Hrun
    by (rewrite Hload; reflexivity).
  destruct (is_duplicate l h t) as [[|]|x] eqn:Hdup.
  - injection Hrun as <- <-. left. split; [reflexivity | discriminate].
  - destruct (resolve env (files w) (ticker_filename env self ticker))
      as [loc|x] eqn:Hres.
    + right. exists loc.
      assert (Hloc : ticker_location env self ticker = Some loc).
      { apply (resolve_file_location env (files w)). exact Hres. }
      assert (Hl : entries_at (files w) loc = l).
      { rewrite (load_existing_data_located env self ticker w loc Hloc)
          in Hload.
        unfold entries_at.
        destruct (files w !! loc) as [[|i a d]|]; injection Hload as Hd;
          subst; reflexivity. }
      rewrite Hl. split; [exact Hloc|]. split; [exact Hdup|].
      destruct (encodable (VList (l ++ [e]))); injection Hrun as <- <-;
        split; reflexivity.
    + injection Hrun as <- <-. left. split; [reflexivity | discriminate].
  - injection Hrun as <- <-. left. split; [reflexivity | discriminate].
Qed.

(** ** How the computations move the files *)

Section Respects.

Variable R : gmap location file -> gmap location file -> Prop.
Variable Q : exn -> gmap location file -> gmap location file -> Prop.
Hypothesis R_refl : forall fs, R fs fs.
Hypothesis R_trans : forall a b c, R a b -> R b c -> R a c.
Hypothesis Q_refl : forall e fs, Q e fs fs.
Hypothesis RQ_trans : forall e a b c, R a b -> Q e b c -> Q e a c.

Lemma respects_same_files {A} (m : M A) :
  (forall w, files (snd (m w)) = files w) -> respects R Q m.
Proof.
  intros Hm w r w' Hrun. specialize (Hm w). rewrite Hrun in Hm.
  cbn in Hm. rewrite Hm. destruct r; [apply R_refl | apply Q_refl].
Qed.

Lemma respects_ret {A} (a : A) : respects R Q (ret a).
Proof. apply respects_same_files. reflexivity. Qed.

Lemma respects_lift {A} (r : result A) : respects R Q (lift r).
Proof. apply respects_same_files. reflexivity. Qed.

Lemma respects_log_event (e : event) : respects R Q (log_event e).
Proof. apply respects_same_files. reflexivity. Qed.

Lemma respects_now (env : Env) : respects R Q (now_isoformat env).
Proof. apply respects_same_files. reflexivity. Qed.

(** The continuation may rely on what the first part returned. *)
Lemma respects_bind_post {A B} (m : M A) (k : A -> M B) (P : A -> Prop) :
  respects R Q m ->
  (forall w a w', m w = (Ok a, w') -> P a) ->
  (forall a, P a -> respects R Q (k a)) ->
  respects R Q (bind m k).
Proof.
  intros Hm HP Hk w r w' Hrun. unfold bind in Hrun.
  destruct (m w) as [[a|e] w1] eqn:Hmw.
  - pose proof (Hm _ _ _ Hmw) as H1. cbn in H1.
    pose proof (Hk a (HP _ _ _ Hmw) _ _ _ Hrun) as H2.
    destruct r; [eapply R_trans | eapply RQ_trans]; eassumption.
  - injection Hrun as <- <-. exact (Hm _ _ _ Hmw).
Qed.

Lemma respects_bind {A B} (m : M A) (k : A -> M B) :
  respects R Q m -> (forall a, respects R Q (k a)) -> respects R Q (bind m k).
Proof.
  intros Hm Hk.
  apply (respects_bind_post m k (fun _ => True)); auto.
Qed.

Variable env : Env.
Variable self : LLMNewsParser.

Lemma call_llm_from_files (prompt : pystr) (max_retries : Z)
    (remaining : nat) :
  forall attempt w,
    files (snd (call_llm_from env self prompt max_retries remaining
                  attempt w))
    = files w.
Proof.
  induction remaining as [|r IH]; intros attempt w; [reflexivity|].
  cbn [call_llm_from].
  pose proof (attempt_llm_world env self prompt w) as Hatt.
  destruct (attempt_llm env self prompt w) as [[text|e] w1];
    cbn [snd] in Hatt; subst w1; [reflexivity|].
  unfold bind at 1. unfold log_event at 1.
  destruct (attempt <? max_retries - 1); [|reflexivity].
  unfold bind, sleep, log_event. rewrite IH. reflexivity.
Qed.

Lemma respects_analyze (headline description : cell) :
  respects R Q (analyze_news_with_llm env self headline description).
Proof.
  unfold analyze_news_with_llm, call_llm.
  apply respects_bind; [|intros response; apply respects_lift].
  apply respects_same_files. intros w. apply call_llm_from_files.
Qed.

Section Row.

Variables headline time_str description : cell.

Hypothesis R_append :
  forall ticker e,
    news_entry_of headline time_str description ticker e ->
    respects R Q (append_if_new env self ticker e headline time_str).

Lemma make_news_entry_post (analysis company ticker : value)
    (w : world) (e : value) (w' : world) :
  make_news_entry env analysis headline time_str description company ticker w
    = (Ok e, w') ->
  news_entry_of headline time_str description ticker e.
Proof.
  unfold make_news_entry, bind, lift, ret, now_isoformat.
  destruct (subscript_key analysis (str "sentiment")) as [a1|]; [|discriminate].
  destruct (subscript_key analysis (str "sentiment_score")) as [a2|];
    [|discriminate].
  destruct (subscript_key analysis (str "key_themes")) as [a3|]; [|discriminate].
  destruct (subscript_key analysis (str "confidence")) as [a4|]; [|discriminate].
  intros [= <- <-]. unfold news_entry_of. repeat eexists.
Qed.

Lemma respects_make_news_entry (analysis company ticker : value) :
  respects R Q (make_news_entry env analysis headline time_str description
                                company ticker).
Proof.
  unfold make_news_entry.
  repeat (apply respects_bind; [apply respects_lift | intros ?]).
  apply respects_bind; [apply respects_now | intros ?].
  apply respects_ret.
Qed.

Lemma respects_process_ticker (analysis : value) (i : nat) (ticker : value) :
  respects R Q (process_ticker env self analysis headline time_str
                               description i ticker).
Proof.
  unfold process_ticker.
  destruct (eq_str ticker (str "UNKNOWN") || eq_str ticker []);
    [apply respects_ret|].
  apply respects_bind; [apply respects_lift | intros companies].
  apply respects_bind; [apply respects_lift | intros n].
  apply respects_bind.
  { destruct (i <? n)%nat; [apply respects_lift | apply respects_ret]. }
  intros company.
  apply (respects_bind_post _ _
           (news_entry_of headline time_str description ticker)).
  - apply respects_make_news_entry.
  - intros w e w' He. exact (make_news_entry_post _ _ _ _ _ _ He).
  - intros e He. apply respects_bind; [exact (R_append ticker e He)|].
    intros _. apply respects_ret.
Qed.

Lemma respects_process_tickers (analysis : value) (tickers : list value) :
  forall i,
    respects R Q (process_tickers env self analysis headline time_str
                                  description i tickers).
Proof.
  induction tickers as [|ticker rest IH]; intros i; cbn [process_tickers].
  - apply respects_ret.
  - apply respects_bind; [apply respects_process_ticker|].
    intros _. apply IH.
Qed.

Lemma respects_fan_out (analysis : value) (n : nat) :
  respects R Q (fan_out env self analysis headline time_str description n).
Proof.
  unfold fan_out.
  apply respects_bind; [apply respects_lift | intros ok].
  destruct ok; [|apply respects_ret].
  apply respects_bind; [apply respects_lift | intros field].
  apply respects_bind; [apply respects_lift | intros tickers].
  apply respects_bind; [apply respects_process_tickers | intros _].
  apply respects_ret.
Qed.

End Row.

Lemma respects_process_row (row : gmap pystr cell) (c : counters) :
  (forall ticker e,
     news_entry_of (cell_or (row_get row "Headlines") (row_get row "Headline"))
                   (cell_or (row_get row "Time") (row_get row "Date"))
                   (cell_or (row_get row "Description") (row_get row "Content"))
                   ticker e ->
     respects R Q (append_if_new env self ticker e
                     (cell_or (row_get row "Headlines") (row_get row "Headline"))
                     (cell_or (row_get row "Time") (row_get row "Date")))) ->
  respects R Q (process_row env self row c).
Proof.
  intros Happend. unfold process_row.
  destruct (negb (cell_truthy _) && negb (cell_truthy _)); [apply respects_ret|].
  apply respects_bind; [apply respects_lift | intros _].
  apply respects_bind; [apply respects_analyze | intros analysis].
  apply respects_bind.
  { apply respects_fan_out. exact Happend. }
  intros successful.
  apply respects_bind; [apply respects_log_event | intros _].
  apply respects_ret.
Qed.

Lemma respects_process_rows (rows : list (gmap pystr cell)) :
  (forall headline time_str description ticker e,
     news_entry_of headline time_str description ticker e ->
     respects R Q (append_if_new env self ticker e headline time_str)) ->
  forall c, respects R Q (process_rows env self rows c).
Proof.
  intros Happend. induction rows as [|row rest IH]; intros c;
    cbn [process_rows].
  - apply respects_ret.
  - apply respects_bind; [|exact IH].
    apply respects_process_row. intros ticker e He.
    exact (Happend _ _ _ _ _ He).
Qed.

End Respects.

(** A relation kept whether the computation returns or raises. *)
Lemma respects_always {A : Type} (R : gmap location file -> gmap location file -> Prop)
    (m : M A) :
  respects R (fun _ => R) m ->
  forall w r w', m w = (r, w') -> R (files w) (files w').
Proof.
  intros Hm w r w' Hrun. specialize (Hm w r w' Hrun).
  destruct r; exact Hm.
Qed.

Lemma always_respects {A : Type} (R : gmap location file -> gmap location file -> Prop)
    (m : M A) :
  (forall w r w', m w = (r, w') -> R (files w) (files w')) ->
  respects R (fun _ => R) m.
Proof.
  intros Hm w r w' Hrun. specialize (Hm w r w' Hrun).
  destruct r; exact Hm.
Qed.

(** ** No duplicates in a collection *)


Lemma deduplicated_entries (fs : gmap location file) (loc : location) :
  deduplicated fs ->
  Forall (fun e => is_Some (key_of e)) (entries_at fs loc)
  /\ NoDup (List.map key_of (entries_at fs loc)).
Proof.
  intros Hfs. unfold entries_at.
  destruct (fs !! loc) as [f|] eqn:Hf.
  - destruct (Hfs loc f Hf) as [-> | (indent & ascii & l & -> & Hd & Hc)].
    + split; constructor.
    + split; assumption.
  - split; constructor.
Qed.


(** What a call computes in a store without duplicates, for a ticker
    whose path names a file. *)
Lemma append_if_new_deduplicated (env : Env) (self : LLMNewsParser)
    (ticker e : value) (h t : cell) (w : world) (loc : location) :
  deduplicated (files w) ->
  ticker_location env self ticker = Some loc ->
  let l := entries_at (files w) loc in
  append_if_new env self ticker e h t w =
  if Nat.eqb (occurrences l h t) 0
  then if encodable (VList (l ++ [e]))
       then (Ok true, set_file w loc (Document 2 false (VList (l ++ [e]))))
       else (Raise UnicodeEncodeError, set_file w loc Unreadable)
  else (Ok false, w).
Proof.
  intros Hfs Hloc l.
  pose proof (deduplicated_entries (files w) loc Hfs) as [Hd _].
  fold l in Hd.
  assert (Hload : fst (load_existing_data env self ticker w) = Ok (VList l)).
  { rewrite (load_existing_data_located env self ticker w loc Hloc).
    subst l. unfold entries_at. cbn [fst].
    destruct (files w !! loc) as [f|] eqn:Hf; [|reflexivity].
    destruct (Hfs loc f Hf) as [-> | (indent & ascii & l & -> & _ & _)];
      reflexivity. }
  rewrite (append_if_new_list env self ticker e h t w l Hload).
  rewrite (is_duplicate_keyed l h t Hd).
  apply (resolve_file_location env (files w)) in Hloc. rewrite Hloc.
  destruct (Nat.eqb (occurrences l h t) 0); reflexivity.
Qed.









(** ** Rows of low confidence *)

Lemma analyze_keeps_files (env : Env) (self : LLMNewsParser)
    (headline description : cell) :
  forall w r w',
    analyze_news_with_llm env self headline description w = (r, w') ->
    files w = files w'.
Proof.
  apply (respects_always eq). apply respects_analyze; intros; congruence.
Qed.

(** C5. A row that is analysed (it has a headline, and the headline or
    the description is not empty) with an analysis of confidence at most
    0.3 gets no fan-out: no entry is built, no ticker file is read or
    written, the clock is not read, and after the pause the row counter
    is one more while the counter of successful analyses is unchanged. *)
Theorem low_confidence_row_adds_nothing (env : Env) (self : LLMNewsParser)
    (row : gmap pystr cell) (c : counters) (w w1 : world)
    (analysis : value) (f : pyfloat) (h : pystr) :
  let headline := cell_or (row_get row "Headlines") (row_get row "Headline") in
  let time_str := cell_or (row_get row "Time") (row_get row "Date") in
  let description :=
    cell_or (row_get row "Description") (row_get row "Content") in
  headline = Some h ->
  cell_truthy headline || cell_truthy description = true ->
  analyze_news_with_llm env self headline description w = (Ok analysis, w1) ->
  subscript_key analysis (str "confidence") = Ok (VFloat f) ->
  float_le f three_tenths = true ->
  fan_out env self analysis headline time_str description
          (successful_analyses c) w1
    = (Ok (successful_analyses c), w1)
  /\ process_row env self row c w
     = (Ok (mkCounters (S (processed_count c)) (successful_analyses c)),
        mkWorld (files w1) (trace w1 ++ [EvSleep (VFloat one_half)])
                (requests_sent w1) (clock_reads w1))
  /\ files w1 = files w.
Proof.
  intros headline time_str description Hh Hrow Hanalysis Hconf Hle.
  assert (Hfan : fan_out env self analysis headline time_str description
                   (successful_analyses c) w1
                 = (Ok (successful_analyses c), w1)).
  { unfold fan_out, confident, bind, lift, ret.
    rewrite Hconf. cbn [rbind].
    rewrite (float_le_not_gt f three_tenths Hle). reflexivity. }
  split; [exact Hfan|]. split.
  - unfold process_row. fold headline time_str description.
    replace (negb (cell_truthy headline) && negb (cell_truthy description))
      with false
      by (destruct (cell_truthy headline), (cell_truthy description);
          cbn in *; congruence).
    unfold bind at 1. unfold lift at 1. rewrite Hh at 1. cbn [cell_prefix].
    unfold bind at 1. rewrite Hanalysis.
    unfold bind at 1. rewrite Hfan.
    reflexivity.
  - symmetry. exact (analyze_keeps_files env self headline description
                       w _ w1 Hanalysis).
Qed.

Lemma low_confidence_row_adds_nothing_witness :
  exists w2,
    process_row
      (constant_backend (qstr "{'confidence': 0.2, 'tickers': ['AAPL']}"))
      openai_parser apple_row (mkCounters 0 0) empty_world
    = (Ok (mkCounters 1 0), w2)
    /\ files w2 = files empty_world.
Proof.
  pose proof (fun w1 a f h =>
                low_confidence_row_adds_nothing
                  (constant_backend
                     (qstr "{'confidence': 0.2, 'tickers': ['AAPL']}"))
                  openai_parser apple_row (mkCounters 0 0) empty_world
                  w1 a f h) as H.
  cbv zeta in H.
  edestruct H as (_ & Hrow & Hfiles).
  - vm_compute. reflexivity.
  - vm_compute. reflexivity.
  - vm_compute. reflexivity.
  - vm_compute. reflexivity.
  - vm_compute. reflexivity.
  - eexists. split; [exact Hrow | exact Hfiles].
Defined.

(** ** What a stored entry holds *)

Lemma append_adds_entries_of (env : Env) (self : LLMNewsParser)
    (headline time_str description : cell) (ticker e : value) :
  news_entry_of headline time_str description ticker e ->
  forall w r w',
    append_if_new env self ticker e headline time_str w = (r, w') ->
    adds_entries_of env self headline time_str description
                    (files w) (files w').
Proof.
  intros He w r w' Hrun loc' x Hx.
  apply append_if_new_cases in Hrun as [[-> _] | (loc & Hloc & _ & Hw)];
    [left; exact Hx|].
  destruct (encodable _); destruct Hw as [_ ->]; cbn [files set_file] in Hx.
  - rewrite entries_at_insert in Hx.
    destruct (decide (loc = loc')) as [<-|_]; [|left; exact Hx].
    apply in_app_or in Hx as [Hx | [<- | []]]; [left; exact Hx|].
    right. exists ticker. split; [exact Hloc|].
    exact (news_entry_matches_row _ _ _ _ _ He).
  - rewrite entries_at_unreadable in Hx.
    destruct (decide (loc = loc')) as [_|_]; [destruct Hx | left; exact Hx].
Qed.

Lemma append_keeps_entries_in_place (env : Env) (self : LLMNewsParser)
    (headline time_str description : cell) (ticker e : value) :
  news_entry_of headline time_str description ticker e ->
  forall w r w',
    append_if_new env self ticker e headline time_str w = (r, w') ->
    entries_in_place env self (files w) ->
    entries_in_place env self (files w').
Proof.
  intros He w r w' Hrun Hin loc x Hx.
  destruct (append_adds_entries_of env self headline time_str description
              ticker e He w r w' Hrun loc x Hx) as [Hold | (tk & Hloc & Hm)].
  - exact (Hin loc x Hold).
  - exists tk, headline, time_str, description. split; [exact Hloc | exact Hm].
Qed.

(** In an existing output directory of the constructor's name, two plain
    tickers that have the same file are the same ticker. *)
Lemma plain_ticker_location_inj (env : Env) (self : LLMNewsParser)
    (t1 t2 : pystr) :
  output_dir self = str "company_news" ->
  is_dir env (cwd env ++ [str "company_news"]) = true ->
  plain_ticker t1 = true ->
  plain_ticker t2 = true ->
  is_Some (ticker_location env self (VStr t1)) ->
  ticker_location env self (VStr t1) = ticker_location env self (VStr t2) ->
  t1 = t2.
Proof.
  intros Hout Hdir H1 H2 [loc Hloc] Heq. rewrite Hloc in Heq.
  rewrite (plain_ticker_location env self t1 Hout H1 Hdir) in Hloc.
  rewrite (plain_ticker_location env self t2 Hout H2 Hdir) in Heq.
  destruct (is_dir env (cwd env ++ [str "company_news"; t1 ++ str ".json"]));
    [discriminate Hloc|].
  destruct (is_dir env (cwd env ++ [str "company_news"; t2 ++ str ".json"]));
    [discriminate Heq|].
  injection Hloc as <-. injection Heq as Heq.
  apply app_inv_head in Heq. injection Heq as Heq.
  exact (app_inv_tail _ _ _ Heq).
Qed.

(** C9, as the code behaves. Processing a row leaves in every file its
    old entries (unless a failed write leaves the file unreadable), and
    adds only entries built from the row: each one is in the file of
    its own ticker and holds the headline, the timestamp and the
    description of the row, its full text being the headline and the
    description joined by one space and trimmed. So each row, and each
    run, keeps the invariant that every stored entry lies in the file
    of its own ticker with a full text made of its own headline and
    description. Hence an entry found in the collection of a ticker [T]
    carries a ticker whose file is the file of [T]; it need not be [T]
    itself, as several tickers can have one file (the number 5 and the
    string "5", or AAPL and ./AAPL); it is [T] when both are plain
    strings and the output directory is that of the constructor. *)
Theorem stored_entries_match_row (env : Env) (self : LLMNewsParser)
    (row : gmap pystr cell) (c : counters) (w : world)
    (r : result counters) (w' : world) :
  process_row env self row c w = (r, w') ->
  let headline := cell_or (row_get row "Headlines") (row_get row "Headline") in
  let time_str := cell_or (row_get row "Time") (row_get row "Date") in
  let description :=
    cell_or (row_get row "Description") (row_get row "Content") in
  (forall loc e, In e (entries_at (files w') loc) ->
     In e (entries_at (files w) loc)
     \/ exists ticker,
          ticker_location env self ticker = Some loc
          /\ entry_matches_row headline time_str description ticker e)
  /\ (entries_in_place env self (files w) ->
      entries_in_place env self (files w'))
  /\ (forall rows w0 r0 w0',
        parse_csv_file env self rows w0 = (r0, w0') ->
        entries_in_place env self (files w0) ->
        entries_in_place env self (files w0'))
  /\ (forall fs ticker e,
        entries_in_place env self fs ->
        In e (collection env self fs ticker) ->
        exists ticker' h t d,
          ticker_location env self ticker' = ticker_location env self ticker
          /\ entry_matches_row h t d ticker' e
          /\ (output_dir self = str "company_news" ->
              is_dir env (cwd env ++ [str "company_news"]) = true ->
              forall t1 t2,
                ticker = VStr t1 -> ticker' = VStr t2 ->
                plain_ticker t1 = true -> plain_ticker t2 = true ->
                t2 = t1)).
Proof.
  intros Hrun headline time_str description.
  split; [|split; [|split]].
  - refine (respects_always
              (adds_entries_of env self headline time_str description)
              _ _ w r w' Hrun).
    apply respects_process_row.
    + intros fs loc e He. left. exact He.
    + intros a b d Hab Hbd loc e He.
      destruct (Hbd loc e He) as [Hb | Hnew]; [|right; exact Hnew].
      exact (Hab loc e Hb).
    + intros _ fs loc e He. left. exact He.
    + intros _ a b d Hab Hbd loc e He.
      destruct (Hbd loc e He) as [Hb | Hnew]; [|right; exact Hnew].
      exact (Hab loc e Hb).
    + intros ticker e He. apply always_respects.
      exact (append_adds_entries_of _ _ _ _ _ _ _ He).
  - refine (respects_always
              (fun a b => entries_in_place env self a ->
                          entries_in_place env self b)
              _ _ w r w' Hrun).
    apply respects_process_row; auto.
    intros ticker e He. apply always_respects.
    exact (append_keeps_entries_in_place _ _ _ _ _ _ _ He).
  - intros rows w0 r0 w0' Hrun0.
    refine (respects_always
              (fun a b => entries_in_place env self a ->
                          entries_in_place env self b)
              _ _ w0 r0 w0' Hrun0).
    unfold parse_csv_file. apply respects_process_rows; auto.
    intros h t d ticker e He. apply always_respects.
    exact (append_keeps_entries_in_place _ _ _ _ _ _ _ He).
  - intros fs ticker e Hplace He. unfold collection in He.
    destruct (ticker_location env self ticker) as [loc|] eqn:Hloc;
      [|destruct He].
    destruct (Hplace loc e He) as (ticker' & h & t & d & Hloc' & Hm).
    exists ticker', h, t, d. split; [exact Hloc'|]. split; [exact Hm|].
    intros Hout Hdir t1 t2 -> -> H1 H2.
    apply (plain_ticker_location_inj env self t2 t1 Hout Hdir H2 H1).
    + rewrite Hloc'. eauto.
    + rewrite Hloc', Hloc. reflexivity.
Qed.

(** Witness for C9: one row, answered with the fenced response, from a
    world without files. *)
Lemma stored_entries_match_row_witness :
  entries_in_place (constant_backend fenced_response) openai_parser
    (files (snd (process_row (constant_backend fenced_response)
                   openai_parser apple_row (mkCounters 0 0) empty_world)))
  /\ length (collection (constant_backend fenced_response) openai_parser
               (files (snd (process_row (constant_backend fenced_response)
                              openai_parser apple_row (mkCounters 0 0)
                              empty_world)))
               (VStr (str "AAPL"))) = 1%nat.
Proof.
  split; [|vm_compute; reflexivity].
  destruct (stored_entries_match_row (constant_backend fenced_response)
              openai_parser apple_row (mkCounters 0 0) empty_world _ _
              (surjective_pairing _)) as (_ & H & _ & _).
  apply H. intros loc e He.
  unfold entries_at in He. cbn in He. rewrite lookup_empty in He.
  destruct He.
Defined.

(** The claim C9 fails when the analysis names the number 5 as a ticker:
    the entry is stored in the collection file of the ticker "5", and
    its ticker field is not "5". *)
Lemma stored_entries_counterexample :
  exists d,
    In (VDict d)
       (collection
          (constant_backend (qstr "{'tickers': [5], 'confidence': 0.9}"))
          openai_parser
          (files (snd (process_row
                         (constant_backend
                            (qstr "{'tickers': [5], 'confidence': 0.9}"))
                         openai_parser apple_row (mkCounters 0 0)
                         empty_world)))
          (VStr (str "5")))
    /\ dict_get d (str "ticker") = Some (VInt 5)
    /\ dict_get d (str "ticker") <> Some (VStr (str "5")).
Proof.
  match goal with
  | |- exists d, In _ ?c /\ _ =>
      let l := eval vm_compute in c in
      change c with l
  end.
  eexists. split; [left; reflexivity|].
  split; [reflexivity | discriminate].
Qed.

(** * Further properties of the code *)

(** ** More on the retrying call *)

Lemma attempt_llm_outcome (env : Env) (self : LLMNewsParser)
    (prompt : pystr) (w : world) :
  attempt_llm env self prompt w =
  (attempt_outcome env self prompt (requests_sent w),
   add_events w (request_events self prompt)
              (length (request_events self prompt))).
Proof.
  pose proof (attempt_llm_world env self prompt w) as Hw.
  assert (Hf : fst (attempt_llm env self prompt w)
               = attempt_outcome env self prompt (requests_sent w)).
  { unfold attempt_llm, attempt_outcome, bind, lift, post.
    destruct (build_request self prompt) as [req|e]; [|reflexivity].
    cbn [rbind].
    destruct (network env (requests_sent w) req) as [e|st body];
      [reflexivity|].
    generalize (response_json (Response st body)).
    intros [v|e]; [|reflexivity].
    cbn [rbind]. destruct (completion self v); reflexivity. }
  destruct (attempt_llm env self prompt w) as [r w1].
  cbn [fst snd] in Hw, Hf. subst r w1. reflexivity.
Qed.

Lemma call_llm_from_first_success (env : Env) (self : LLMNewsParser)
    (prompt : pystr) (max_retries : Z) (req : request) (v : value) :
  build_request self prompt = Ok req ->
  forall (k a remaining : nat) (w : world),
    (k < remaining)%nat ->
    Z.of_nat (a + k) < max_retries ->
    (forall i, (i < k)%nat ->
       exists e, attempt_outcome env self prompt (requests_sent w + i) = Raise e) ->
    attempt_outcome env self prompt (requests_sent w + k) = Ok v ->
    call_llm_from env self prompt max_retries remaining (Z.of_nat a) w =
    (Ok v,
     add_events w (flat_map (retried_attempt req) (seq a k) ++ [EvRequest req])
                (S k)).
Proof.
  intros Hreq. induction k as [|k IH]; intros a remaining w Hk Hmax Hfail Hok.
  - destruct remaining as [|r]; [lia|]. cbn [call_llm_from].
    rewrite attempt_llm_outcome. rewrite Nat.add_0_r in Hok. rewrite Hok.
    unfold request_events. rewrite Hreq. reflexivity.
  - destruct remaining as [|r]; [lia|]. cbn [call_llm_from].
    rewrite attempt_llm_outcome.
    destruct (Hfail 0%nat) as [e He]; [lia|].
    rewrite Nat.add_0_r in He. rewrite He.
    unfold request_events. rewrite Hreq. cbn [length].
    unfold bind at 1. unfold log_event at 1.
    replace (Z.of_nat a <? max_retries - 1) with true
      by (symmetry; apply Z.ltb_lt; lia).
    unfold bind at 1. unfold sleep, log_event at 1.
    replace (Z.of_nat a + 1) with (Z.of_nat (S a)) by lia.
    rewrite (IH (S a) r); [| lia | lia | |].
    + f_equal. unfold add_events. cbn [files trace requests_sent clock_reads].
      f_equal; [|lia].
      cbn [seq flat_map]. unfold retried_attempt at 2.
      replace (Z.of_nat a + 1) with (Z.of_nat (S a)) by lia.
      rewrite <- !app_assoc. reflexivity.
    + intros i Hi. cbn [requests_sent add_events].
      destruct (Hfail (S i)) as [e' He']; [lia|].
      exists e'. rewrite <- He'. f_equal. lia.
    + cbn [requests_sent add_events]. rewrite <- Hok. f_equal. lia.
Qed.

(** X1. When the first [k] attempts fail and the next one succeeds, with
    [k < max_retries], [call_llm] returns the completion of that attempt:
    it has sent [k + 1] requests, and each failed attempt was reported and
    followed by a sleep of [2 ** i]; nothing follows the success. *)
Theorem call_llm_returns_first_success (env : Env) (self : LLMNewsParser)
    (prompt : pystr) (max_retries : Z) (w : world) (req : request)
    (k : nat) (v : value) :
  build_request self prompt = Ok req ->
  Z.of_nat k < max_retries ->
  (forall i, (i < k)%nat ->
     exists e, attempt_outcome env self prompt (requests_sent w + i) = Raise e) ->
  attempt_outcome env self prompt (requests_sent w + k) = Ok v ->
  call_llm env self prompt max_retries w =
  (Ok v,
   add_events w (flat_map (retried_attempt req) (seq 0 k) ++ [EvRequest req])
              (S k)).
Proof.
  intros Hreq Hk Hfail Hok. unfold call_llm.
  apply (call_llm_from_first_success env self prompt max_retries req v Hreq
           k 0%nat (Z.to_nat max_retries) w); try assumption; lia.
Qed.

Lemma call_llm_returns_first_success_witness :
  fst (call_llm (flaky_backend (str "{}")) openai_parser (str "prompt") 3
         empty_world) = Ok (VStr (str "{}"))
  /\ sleeps_of (trace (snd (call_llm (flaky_backend (str "{}")) openai_parser
                              (str "prompt") 3 empty_world))) = [VInt 1]
  /\ requests_sent (snd (call_llm (flaky_backend (str "{}")) openai_parser
                           (str "prompt") 3 empty_world)) = 2%nat.
Proof.
  pose proof (call_llm_returns_first_success (flaky_backend (str "{}"))
                openai_parser (str "prompt") 3 empty_world _ 1
                (VStr (str "{}")) eq_refl) as H.
  rewrite H.
  - repeat split; vm_compute; reflexivity.
  - lia.
  - intros i Hi. exists ConnectionError.
    assert (i = 0%nat) as -> by lia. reflexivity.
  - reflexivity.
Defined.

Lemma pauses_app (a b : list event) : pauses (a ++ b) = (pauses a + pauses b)%nat.
Proof. unfold pauses. rewrite List.filter_app, length_app. reflexivity. Qed.

Lemma request_events_no_pause (self : LLMNewsParser) (prompt : pystr) :
  pauses (request_events self prompt) = 0%nat
  /\ (length (request_events self prompt) <= 1)%nat.
Proof.
  unfold request_events. destruct (build_request self prompt); cbn; lia.
Qed.

Lemma call_llm_from_contained (env : Env) (self : LLMNewsParser)
    (prompt : pystr) (max_retries : Z) (remaining : nat) :
  forall attempt w,
    exists v t sent,
      call_llm_from env self prompt max_retries remaining attempt w
        = (Ok v, add_events w t sent)
      /\ (sent <= remaining)%nat
      /\ pauses t = 0%nat.
Proof.
  induction remaining as [|r IH]; intros attempt w.
  - exists VNone, [], 0%nat. split; [|split; [lia | reflexivity]].
    cbn. unfold ret, add_events. destruct w; cbn.
    rewrite app_nil_r, Nat.add_0_r. reflexivity.
  - cbn [call_llm_from]. rewrite attempt_llm_outcome.
    destruct (request_events_no_pause self prompt) as [Hp Hl].
    set (evs := request_events self prompt) in *.
    destruct (attempt_outcome env self prompt (requests_sent w)) as [text|e].
    + exists text, evs, (length evs). split; [reflexivity|]. split; [lia | exact Hp].
    + unfold bind at 1. unfold log_event at 1.
      destruct (attempt <? max_retries - 1).
      * unfold bind at 1. unfold sleep, log_event at 1.
        match goal with
        | |- context [call_llm_from _ _ _ _ r ?a ?w1] =>
            destruct (IH a w1) as (v & t & sent & Hrun & Hsent & Ht)
        end.
        exists v, (evs ++ [EvAttemptFailed (attempt + 1);
                            EvSleep (VInt (2 ^ attempt))] ++ t),
          (length evs + sent)%nat.
        split; [|split; [lia|]].
        -- rewrite Hrun. f_equal. unfold add_events. cbn.
           f_equal; [|lia]. rewrite <- !app_assoc. reflexivity.
        -- rewrite !pauses_app, Hp, Ht. reflexivity.
      * exists VNone, (evs ++ [EvAttemptFailed (attempt + 1)]), (length evs).
        split; [|split; [lia|]].
        -- unfold ret, add_events. cbn. rewrite <- app_assoc. reflexivity.
        -- rewrite pauses_app, Hp. reflexivity.
Qed.

(** X2. Whatever the backend does and whatever [max_retries] is,
    [call_llm] returns and does not raise; it leaves the files and the
    clock alone, only adds to the trace, and sends at most [max_retries]
    requests. With [max_retries <= 0] it makes no attempt at all and
    returns [None]. *)
Theorem call_llm_is_contained (env : Env) (self : LLMNewsParser)
    (prompt : pystr) (max_retries : Z) (w : world) :
  exists v t sent,
    call_llm env self prompt max_retries w
      = (Ok v, mkWorld (files w) (trace w ++ t) (requests_sent w + sent)
                       (clock_reads w))
    /\ (sent <= Z.to_nat max_retries)%nat
    /\ (max_retries <= 0 -> v = VNone /\ t = [] /\ sent = 0%nat).
Proof.
  unfold call_llm.
  destruct (call_llm_from_contained env self prompt max_retries
              (Z.to_nat max_retries) 0 w) as (v & t & sent & Hrun & Hsent & _).
  destruct (Z.to_nat max_retries) as [|n] eqn:Hn.
  - exists VNone, [], 0%nat. split; [|split; [lia | auto]].
    cbn. unfold ret. destruct w; cbn.
    rewrite app_nil_r, Nat.add_0_r. reflexivity.
  - exists v, t, sent. split; [exact Hrun|]. split; [exact Hsent|].
    intros Hle. lia.
Qed.

Lemma call_llm_is_contained_witness :
  call_llm dead_backend openai_parser (str "prompt") 0 empty_world
  = (Ok VNone, empty_world).
Proof.
  destruct (call_llm_is_contained dead_backend openai_parser (str "prompt") 0
              empty_world) as (v & t & sent & Hrun & _ & Hzero).
  destruct Hzero as (-> & -> & ->); [lia|].
  rewrite Hrun. reflexivity.
Defined.

(** ** More on construction *)

(** X3. An identifier that is one of the four providers, in any letter
    case, gives an instance that is completely configured: for every
    prompt the request can be built, with the URL and the headers of the
    instance, so every attempt reaches the network and sends exactly one
    request. In particular the fourth provider, for which no model name
    is set, needs none. *)
Theorem recognized_provider_is_configured (key : cell) (provider : pystr) :
  recognized provider = true ->
  exists p,
    __init__ key provider = Ok p
    /\ output_dir p = str "company_news"
    /\ forall prompt : pystr,
         (exists req,
            build_request p prompt = Ok req
            /\ api_url p = Some (req_url req)
            /\ headers p = Some (req_headers req))
         /\ forall (env : Env) (w : world),
              requests_sent (snd (attempt_llm env p prompt w))
              = S (requests_sent w).
Proof.
  intros Hrec.
  assert (Hbuild : exists p,
             __init__ key provider = Ok p
             /\ output_dir p = str "company_news"
             /\ forall prompt : pystr,
                  exists req,
                    build_request p prompt = Ok req
                    /\ api_url p = Some (req_url req)
                    /\ headers p = Some (req_headers req)).
  { unfold recognized in Hrec. unfold __init__.
    apply orb_prop in Hrec as [Hrec | H4].
    - apply orb_prop in Hrec as [Hrec | H3].
      + apply orb_prop in Hrec as [H1 | H2].
        * apply pystr_eqb_eq in H1. rewrite H1.
          eexists. split; [reflexivity|]. split; [reflexivity|].
          intros prompt. eexists. repeat split; reflexivity.
        * apply pystr_eqb_eq in H2. rewrite H2.
          eexists. split; [reflexivity|]. split; [reflexivity|].
          intros prompt. eexists. repeat split; reflexivity.
      + apply pystr_eqb_eq in H3. rewrite H3.
        eexists. split; [reflexivity|]. split; [reflexivity|].
        intros prompt. eexists. repeat split; reflexivity.
    - apply pystr_eqb_eq in H4. rewrite H4.
      eexists. split; [reflexivity|]. split; [reflexivity|].
      intros prompt. eexists. repeat split; reflexivity. }
  destruct Hbuild as (p & Hp & Hout & Hreq).
  exists p. split; [exact Hp|]. split; [exact Hout|].
  intros prompt. split; [exact (Hreq prompt)|].
  intros env w. rewrite attempt_llm_world.
  destruct (Hreq prompt) as (req & Hb & _).
  unfold request_events. rewrite Hb. cbn. lia.
Qed.

Lemma recognized_provider_is_configured_witness :
  exists p,
    __init__ None (str "HuggingFace") = Ok p
    /\ model_name p = None
    /\ exists req, build_request p (str "prompt") = Ok req.
Proof.
  destruct (recognized_provider_is_configured None (str "HuggingFace"))
    as (p & Hp & _ & Hreq).
  - vm_compute. reflexivity.
  - exists p. split; [exact Hp|]. split.
    + unfold __init__ in Hp. injection Hp as <-. reflexivity.
    + destruct (Hreq (str "prompt")) as [(req & Hb & _) _].
      exists req. exact Hb.
Defined.

(** ** More on the normaliser *)

Lemma zero_not_confident :
  float_gt zero three_tenths = false
  /\ float_gt one_half three_tenths = true.
Proof. split; reflexivity. Qed.

(** X4. Whenever the normaliser returns, what it returns is a dict with
    the six fields, its score and its confidence being floats; so the
    confidence test of [parse_csv_file] on it cannot raise. *)
Theorem analysis_has_all_fields (response a : value) :
  interpret_response response = Ok a ->
  exists d companies tickers sentiment score themes conf,
    a = VDict d
    /\ dict_get d (str "companies") = Some companies
    /\ dict_get d (str "tickers") = Some tickers
    /\ dict_get d (str "sentiment") = Some sentiment
    /\ dict_get d (str "sentiment_score") = Some (VFloat score)
    /\ dict_get d (str "key_themes") = Some themes
    /\ dict_get d (str "confidence") = Some (VFloat conf)
    /\ confident a = Ok (float_gt conf three_tenths).
Proof.
  assert (Hzero : exists d companies tickers sentiment score themes conf,
             zero_analysis = VDict d
             /\ dict_get d (str "companies") = Some companies
             /\ dict_get d (str "tickers") = Some tickers
             /\ dict_get d (str "sentiment") = Some sentiment
             /\ dict_get d (str "sentiment_score") = Some (VFloat score)
             /\ dict_get d (str "key_themes") = Some themes
             /\ dict_get d (str "confidence") = Some (VFloat conf)
             /\ confident zero_analysis = Ok (float_gt conf three_tenths)).
  { do 7 eexists. repeat split; reflexivity. }
  unfold interpret_response.
  destruct (negb (truthy response)); [intros [= <-]; exact Hzero|].
  destruct response as [| | | |s| |]; cbn [try_except is_JSONDecodeError];
    try discriminate.
  destruct (Json.loads (clean_response s)) as [v|e]; cbn [rbind].
  2:{ destruct e; cbn; try discriminate. intros [= <-]. exact Hzero. }
  destruct v as [| | | | | |d0]; cbn [validate_analysis try_except is_JSONDecodeError];
    try discriminate.
  set (d1 := dict_set d0 _ _). set (d2 := dict_set d1 _ _).
  set (d3 := dict_set d2 _ _).
  destruct (float (dict_get_default d3 (str "sentiment_score") (VFloat zero)))
    as [score|e]; cbn [rbind].
  2:{ destruct e; cbn; try discriminate.
      intros [= <-]. exact Hzero. }
  set (d4 := dict_set d3 _ _). set (d5 := dict_set d4 _ _).
  destruct (float (dict_get_default d5 (str "confidence") (VFloat one_half)))
    as [conf|e]; cbn [rbind try_except].
  2:{ destruct e; cbn; try discriminate.
      intros [= <-]. exact Hzero. }
  intros [= <-].
  assert (Hconf : dict_get (dict_set d5 (str "confidence") (VFloat conf))
                           (str "confidence") = Some (VFloat conf))
    by apply dict_get_set_eq.
  exists (dict_set d5 (str "confidence") (VFloat conf)),
    (dict_get_default d0 (str "companies") (VList [])),
    (dict_get_default d1 (str "tickers") (VList [])),
    (dict_get_default d2 (str "sentiment") (VStr (str "neutral"))),
    score,
    (dict_get_default d4 (str "key_themes") (VList [])),
    conf.
  split; [reflexivity|].
  subst d5 d4 d3 d2 d1.
  repeat split;
    try (rewrite !dict_get_set_ne by reflexivity; apply dict_get_set_eq).
  - exact Hconf.
  - unfold confident, subscript_key. rewrite Hconf. reflexivity.
Qed.

Lemma analysis_has_all_fields_witness :
  exists d conf,
    interpret_response (VStr (qstr "{'tickers': ['MSFT'], 'confidence': 1}"))
      = Ok (VDict d)
    /\ dict_get d (str "confidence") = Some (VFloat conf).
Proof.
  destruct (analysis_has_all_fields
              (VStr (qstr "{'tickers': ['MSFT'], 'confidence': 1}"))
              _ eq_refl)
    as (d & _ & _ & _ & _ & _ & conf & Hd & _ & _ & _ & _ & _ & Hconf & _).
  exists d, conf. split; [|exact Hconf].
  rewrite <- Hd. reflexivity.
Defined.

Lemma dict_get_set_default_kept (d : dict) (k k' : pystr) (v dflt : value) :
  dict_get d k = Some v ->
  dict_get (dict_set d k' (dict_get_default d k' dflt)) k = Some v.
Proof.
  intros Hk. destruct (pystr_eqb k' k) eqn:E.
  - apply pystr_eqb_eq in E. subst k'.
    rewrite dict_get_set_eq. unfold dict_get_default. rewrite Hk. reflexivity.
  - rewrite dict_get_set_ne by exact E. exact Hk.
Qed.

(** X5. Validation changes no field that is present: every key of the
    parsed record keeps its value, extra keys included, except that the
    score and the confidence are replaced by their conversion to float. *)
Theorem validation_keeps_present_fields (d d' : dict) (k : pystr) (v : value) :
  validate_analysis (VDict d) = Ok (VDict d') ->
  dict_get d k = Some v ->
  (k <> str "sentiment_score" /\ k <> str "confidence"
   /\ dict_get d' k = Some v)
  \/ ((k = str "sentiment_score" \/ k = str "confidence")
      /\ exists f, float v = Ok f /\ dict_get d' k = Some (VFloat f)).
Proof.
  unfold validate_analysis.
  set (d1 := dict_set d _ _). set (d2 := dict_set d1 _ _).
  set (d3 := dict_set d2 _ _).
  destruct (float (dict_get_default d3 (str "sentiment_score") (VFloat zero)))
    as [score|e] eqn:Hscore; cbn [rbind]; [|discriminate].
  set (d4 := dict_set d3 _ _). set (d5 := dict_set d4 _ _).
  destruct (float (dict_get_default d5 (str "confidence") (VFloat one_half)))
    as [conf|e] eqn:Hconf; cbn [rbind]; [|discriminate].
  intros [= <-] Hk.
  assert (H3 : dict_get d3 k = Some v).
  { subst d3 d2 d1. repeat apply dict_get_set_default_kept. exact Hk. }
  destruct (pystr_eqb (str "sentiment_score") k) eqn:Es.
  { apply pystr_eqb_eq in Es. subst k. right. split; [left; reflexivity|].
    exists score. split.
    - unfold dict_get_default in Hscore. rewrite H3 in Hscore. exact Hscore.
    - subst d5 d4. rewrite !dict_get_set_ne by reflexivity.
      apply dict_get_set_eq. }
  assert (H5 : dict_get d5 k = Some v).
  { subst d5. apply dict_get_set_default_kept.
    subst d4. rewrite dict_get_set_ne by exact Es. exact H3. }
  destruct (pystr_eqb (str "confidence") k) eqn:Ec.
  { apply pystr_eqb_eq in Ec. subst k. right. split; [right; reflexivity|].
    exists conf. split.
    - unfold dict_get_default in Hconf. rewrite H5 in Hconf. exact Hconf.
    - apply dict_get_set_eq. }
  left. split; [|split].
  - intros ->. rewrite pystr_eqb_refl in Es. discriminate.
  - intros ->. rewrite pystr_eqb_refl in Ec. discriminate.
  - rewrite dict_get_set_ne by exact Ec. exact H5.
Qed.

Lemma validation_keeps_present_fields_witness :
  exists d',
    validate_analysis
      (VDict [(str "note", VStr (str "kept")); (str "confidence", VInt 1)])
    = Ok (VDict d')
    /\ dict_get d' (str "note") = Some (VStr (str "kept")).
Proof.
  eexists. split; [vm_compute; reflexivity|].
  destruct (validation_keeps_present_fields
              [(str "note", VStr (str "kept")); (str "confidence", VInt 1)]
              _ (str "note") (VStr (str "kept")) eq_refl eq_refl)
    as [(_ & _ & H) | ([H | H] & _)].
  - exact H.
  - discriminate H.
  - discriminate H.
Defined.

(** X6. An answer that parses to something that is not a record (a list,
    a number, a string, ...) is not absorbed: reading its fields raises
    [AttributeError], which the handler does not catch. *)
Theorem non_record_answer_raises (s : pystr) (v : value) :
  Json.loads (clean_response s) = Ok v ->
  is_dict v = false ->
  interpret_response (VStr s) = Raise AttributeError.
Proof.
  intros Hparse Hv.
  assert (Hs : s <> []).
  { intros ->. vm_compute in Hparse. discriminate. }
  rewrite interpret_response_str by exact Hs.
  rewrite Hparse. cbn [rbind].
  destruct v; try discriminate Hv; reflexivity.
Qed.

Lemma non_record_answer_raises_witness :
  interpret_response (VStr (qstr "['AAPL', 'MSFT']")) = Raise AttributeError.
Proof.
  apply (non_record_answer_raises (qstr "['AAPL', 'MSFT']")
           (VList [VStr (str "AAPL"); VStr (str "MSFT")]));
    vm_compute; reflexivity.
Defined.

Lemma lstrip_ws_app (a s : pystr) :
  Forall (fun c => isspace c = true) a -> lstrip (a ++ s) = lstrip s.
Proof.
  induction 1 as [|c a Hc _ IH]; [reflexivity|].
  cbn. rewrite Hc. exact IH.
Qed.

Lemma lstrip_app (s b : pystr) :
  lstrip (s ++ b) = match lstrip s with
                    | [] => lstrip b
                    | _ => lstrip s ++ b
                    end.
Proof.
  induction s as [|c s IH]; cbn.
  - destruct (lstrip b); reflexivity.
  - destruct (isspace c); [exact IH | reflexivity].
Qed.

Lemma lstrip_ws (b : pystr) :
  Forall (fun c => isspace c = true) b -> lstrip b = [].
Proof.
  intros Hb. rewrite <- (app_nil_r b). rewrite lstrip_ws_app by exact Hb.
  reflexivity.
Qed.

Lemma rstrip_app_ws (s b : pystr) :
  Forall (fun c => isspace c = true) b -> rstrip (s ++ b) = rstrip s.
Proof.
  intros Hb. unfold rstrip. rewrite rev_app_distr.
  rewrite lstrip_ws_app; [reflexivity|].
  apply List.Forall_rev. exact Hb.
Qed.

Lemma strip_ws_around (a s b : pystr) :
  Forall (fun c => isspace c = true) a ->
  Forall (fun c => isspace c = true) b ->
  strip (a ++ s ++ b) = strip s.
Proof.
  intros Ha Hb. unfold strip. rewrite lstrip_ws_app by exact Ha.
  rewrite lstrip_app. destruct (lstrip s) as [|c r] eqn:Hs.
  - rewrite lstrip_ws by exact Hb. reflexivity.
  - apply rstrip_app_ws. exact Hb.
Qed.

(** X7. White space around the answer of the backend never changes the
    analysis: the answer is trimmed before the fence test and before
    parsing, and an answer made of white space only is treated like an
    empty one. *)
Theorem surrounding_space_is_ignored (a s b : pystr) :
  Forall (fun c => isspace c = true) a ->
  Forall (fun c => isspace c = true) b ->
  interpret_response (VStr (a ++ s ++ b)) = interpret_response (VStr s).
Proof.
  intros Ha Hb.
  assert (Hclean : clean_response (a ++ s ++ b) = clean_response s).
  { unfold clean_response. rewrite strip_ws_around by assumption.
    reflexivity. }
  destruct s as [|c s].
  - destruct (a ++ [] ++ b) as [|x r] eqn:Hab; [reflexivity|].
    rewrite interpret_response_str by discriminate.
    rewrite Hclean. reflexivity.
  - rewrite !interpret_response_str.
    + rewrite Hclean. reflexivity.
    + discriminate.
    + destruct a; discriminate.
Qed.

Lemma surrounding_space_is_ignored_witness :
  interpret_response (VStr ([nl] ++ qstr "{'confidence': 0.9}" ++ str "  "))
  = interpret_response (VStr (qstr "{'confidence': 0.9}")).
Proof.
  apply surrounding_space_is_ignored; repeat constructor.
Defined.










(** ** Rows *)

Lemma bind_ok_inv {A B} (m : M A) (k : A -> M B) (w : world) (b : B)
    (w' : world) :
  bind m k w = (Ok b, w') ->
  exists a w1, m w = (Ok a, w1) /\ k a w1 = (Ok b, w').
Proof.
  unfold bind. destruct (m w) as [[a|e] w1]; [|discriminate].
  intros H. exists a, w1. split; [reflexivity | exact H].
Qed.

Lemma cell_truthy_or (a b : cell) :
  cell_truthy (cell_or a b) = cell_truthy a || cell_truthy b.
Proof.
  unfold cell_or. destruct (cell_truthy a) eqn:Ha; cbn; [exact Ha | reflexivity].
Qed.

(** The test that skips a row, in terms of its four columns. *)
Lemma skip_test_blank (row : gmap pystr cell) :
  negb (cell_truthy (cell_or (row_get row "Headlines") (row_get row "Headline")))
  && negb (cell_truthy (cell_or (row_get row "Description")
                                (row_get row "Content"))) = true
  <-> blank_row row.
Proof.
  rewrite !cell_truthy_or. unfold blank_row.
  destruct (cell_truthy (row_get row "Headlines")),
    (cell_truthy (row_get row "Headline")),
    (cell_truthy (row_get row "Description")),
    (cell_truthy (row_get row "Content")); cbn; intuition discriminate.
Qed.

Lemma fan_out_counts (env : Env) (self : LLMNewsParser) (analysis : value)
    (headline time_str description : cell) (n n' : nat) (w w' : world) :
  fan_out env self analysis headline time_str description n w = (Ok n', w') ->
  n' = n \/ n' = S n.
Proof.
  unfold fan_out. intros H.
  apply bind_ok_inv in H as (ok & w1 & _ & H).
  destruct ok.
  - apply bind_ok_inv in H as (x1 & w2 & _ & H).
    apply bind_ok_inv in H as (x2 & w3 & _ & H).
    apply bind_ok_inv in H as (x3 & w4 & _ & H).
    injection H as <- _. right. reflexivity.
  - injection H as <- _. left. reflexivity.
Qed.

(** A row that is not skipped and does not raise is counted. *)
Lemma process_row_counts (env : Env) (self : LLMNewsParser)
    (row : gmap pystr cell) (c c' : counters) (w w' : world) :
  process_row env self row c w = (Ok c', w') ->
  (blank_row row /\ c' = c /\ w' = w)
  \/ (~ blank_row row
      /\ processed_count c' = S (processed_count c)
      /\ (successful_analyses c' = successful_analyses c
          \/ successful_analyses c' = S (successful_analyses c))).
Proof.
  unfold process_row.
  destruct (negb _ && negb _) eqn:Hskip.
  - intros [= <- <-]. left. split; [|split; reflexivity].
    apply skip_test_blank. exact Hskip.
  - intros H. right. split.
    { intros Hblank. apply skip_test_blank in Hblank. congruence. }
    apply bind_ok_inv in H as (x1 & w1 & _ & H).
    apply bind_ok_inv in H as (a & w2 & _ & H).
    apply bind_ok_inv in H as (n' & w3 & Hfan & H).
    apply bind_ok_inv in H as (x2 & w4 & _ & H).
    injection H as <- _. cbn. split; [reflexivity|].
    exact (fan_out_counts _ _ _ _ _ _ _ _ _ _ Hfan).
Qed.

(** X9. A row is skipped, leaving the counters and the world exactly as
    they were (no request, no pause), if and only if its columns
    Headlines, Headline, Description and Content are all empty or
    missing. *)
Theorem row_is_skipped_iff_blank (env : Env) (self : LLMNewsParser)
    (row : gmap pystr cell) (c : counters) (w : world) :
  process_row env self row c w = (Ok c, w) <-> blank_row row.
Proof.
  split.
  - intros H. apply process_row_counts in H as [[Hb _] | (_ & Hp & _)].
    + exact Hb.
    + lia.
  - intros Hblank. apply skip_test_blank in Hblank.
    unfold process_row. rewrite Hblank. reflexivity.
Qed.

(** X10. A row whose headline is missing (a short row under a Headline
    column, no Headlines value) while it has a description is not
    skipped: taking the first characters of the headline raises
    [TypeError] before any request is sent, and the exception ends the
    run at that row, the world being unchanged. *)
Theorem missing_headline_aborts_run (env : Env) (self : LLMNewsParser)
    (row : gmap pystr cell) (rest : list (gmap pystr cell))
    (c : counters) (w : world) :
  cell_truthy (row_get row "Headlines") = false ->
  row_get row "Headline" = None ->
  cell_truthy (cell_or (row_get row "Description") (row_get row "Content"))
    = true ->
  process_row env self row c w = (Raise TypeError, w)
  /\ process_rows env self (row :: rest) c w = (Raise TypeError, w).
Proof.
  intros Hh1 Hh2 Hd.
  assert (Hrow : process_row env self row c w = (Raise TypeError, w)).
  { unfold process_row.
    assert (Hhead : cell_or (row_get row "Headlines") (row_get row "Headline")
                    = None).
    { unfold cell_or. rewrite Hh1. exact Hh2. }
    rewrite Hhead, Hd. reflexivity. }
  split; [exact Hrow|].
  cbn [process_rows]. unfold bind. rewrite Hrow. reflexivity.
Qed.

Lemma missing_headline_aborts_run_witness :
  parse_csv_file dead_backend openai_parser [headless_row; apple_row]
                 empty_world
  = (Raise TypeError, empty_world).
Proof.
  destruct (missing_headline_aborts_run dead_backend openai_parser
              headless_row [apple_row] (mkCounters 0 0) empty_world)
    as [_ H].
  - vm_compute. reflexivity.
  - vm_compute. reflexivity.
  - vm_compute. reflexivity.
  - exact H.
Defined.

(** ** What a run costs *)

Section Moves.

Variable R : world -> world -> Prop.
Hypothesis R_refl : forall w, R w w.
Hypothesis R_trans : forall a b c, R a b -> R b c -> R a c.

Lemma moves_ret {A} (a : A) : moves R (ret a).
Proof. intros w r w' [= _ <-]. apply R_refl. Qed.

Lemma moves_lift {A} (r : result A) : moves R (lift r).
Proof. intros w r' w' [= _ <-]. apply R_refl. Qed.

Lemma moves_bind {A B} (m : M A) (k : A -> M B) :
  moves R m -> (forall a, moves R (k a)) -> moves R (bind m k).
Proof.
  intros Hm Hk w r w' Hrun. unfold bind in Hrun.
  destruct (m w) as [[a|e] w1] eqn:Hmw.
  - eapply R_trans; [exact (Hm _ _ _ Hmw) | exact (Hk a _ _ _ Hrun)].
  - injection Hrun as <- <-. exact (Hm _ _ _ Hmw).
Qed.

Hypothesis R_clock :
  forall w, R w (mkWorld (files w) (trace w) (requests_sent w)
                         (S (clock_reads w))).
Hypothesis R_write : forall w path f, R w (set_file w path f).

Variable env : Env.
Variable self : LLMNewsParser.

Lemma moves_append_if_new (ticker e : value) (h t : cell) :
  moves R (append_if_new env self ticker e h t).
Proof.
  intros w r w' Hrun.
  apply append_if_new_cases in Hrun as [[-> _] | (loc & _ & _ & Hw)].
  - apply R_refl.
  - destruct (encodable _); destruct Hw as [_ ->]; apply R_write.
Qed.

Lemma moves_make_news_entry (analysis company ticker : value)
    (h t d : cell) :
  moves R (make_news_entry env analysis h t d company ticker).
Proof.
  unfold make_news_entry.
  repeat (apply moves_bind; [apply moves_lift | intros ?]).
  apply moves_bind; [|intros ?; apply moves_ret].
  intros w r w' [= _ <-]. apply R_clock.
Qed.

Lemma moves_process_tickers (analysis : value) (h t d : cell)
    (tickers : list value) :
  forall i, moves R (process_tickers env self analysis h t d i tickers).
Proof.
  induction tickers as [|ticker rest IH]; intros i; cbn [process_tickers].
  - apply moves_ret.
  - apply moves_bind; [|intros _; apply IH].
    unfold process_ticker.
    destruct (eq_str ticker (str "UNKNOWN") || eq_str ticker []);
      [apply moves_ret|].
    apply moves_bind; [apply moves_lift | intros companies].
    apply moves_bind; [apply moves_lift | intros n].
    apply moves_bind.
    { destruct (i <? n)%nat; [apply moves_lift | apply moves_ret]. }
    intros company.
    apply moves_bind; [apply moves_make_news_entry | intros e].
    apply moves_bind; [apply moves_append_if_new | intros _].
    apply moves_ret.
Qed.

Lemma moves_fan_out (analysis : value) (h t d : cell) (n : nat) :
  moves R (fan_out env self analysis h t d n).
Proof.
  unfold fan_out.
  apply moves_bind; [apply moves_lift | intros ok].
  destruct ok; [|apply moves_ret].
  apply moves_bind; [apply moves_lift | intros field].
  apply moves_bind; [apply moves_lift | intros tickers].
  apply moves_bind; [apply moves_process_tickers | intros _].
  apply moves_ret.
Qed.

End Moves.

(** The fan-out of a row sends nothing and adds nothing to the trace. *)
Lemma fan_out_same_trace (env : Env) (self : LLMNewsParser)
    (analysis : value) (h t d : cell) (n : nat) :
  moves same_trace (fan_out env self analysis h t d n).
Proof.
  apply moves_fan_out.
  - intros w. split; reflexivity.
  - intros a b c [H1 H2] [H3 H4]. split; congruence.
  - intros w. split; reflexivity.
  - intros w path f. split; reflexivity.
Qed.

(** What the analysis of a row costs: at most three requests, no pause. *)
Lemma analyze_cost (env : Env) (self : LLMNewsParser)
    (headline description : cell) (w : world) (r : result value) (w' : world) :
  analyze_news_with_llm env self headline description w = (r, w') ->
  exists t sent,
    w' = add_events w t sent /\ (sent <= 3)%nat /\ pauses t = 0%nat.
Proof.
  unfold analyze_news_with_llm, call_llm, bind, lift.
  destruct (call_llm_from_contained env self
              (build_prompt headline description) 3 (Z.to_nat 3) 0 w)
    as (v & t & sent & Hrun & Hsent & Ht).
  rewrite Hrun. intros [= _ <-].
  exists t, sent. split; [reflexivity|]. split; [exact Hsent | exact Ht].
Qed.

Lemma process_row_cost (env : Env) (self : LLMNewsParser)
    (row : gmap pystr cell) (c c' : counters) (w w' : world) :
  process_row env self row c w = (Ok c', w') ->
  ~ blank_row row ->
  (requests_sent w <= requests_sent w' <= requests_sent w + 3)%nat
  /\ pauses (trace w') = S (pauses (trace w)).
Proof.
  unfold process_row.
  destruct (negb _ && negb _) eqn:Hskip.
  { intros _ Hnb. exfalso. apply Hnb. apply skip_test_blank. exact Hskip. }
  intros H _.
  apply bind_ok_inv in H as (x1 & w1 & Hpre & H).
  apply bind_ok_inv in H as (a & w2 & Han & H).
  apply bind_ok_inv in H as (n' & w3 & Hfan & H).
  apply bind_ok_inv in H as (x2 & w4 & Hsleep & H).
  injection H as _ <-.
  unfold lift in Hpre. injection Hpre as _ <-.
  apply analyze_cost in Han as (t & sent & -> & Hsent & Ht).
  apply fan_out_same_trace in Hfan as [Htr Hreq].
  unfold sleep, log_event in Hsleep. injection Hsleep as _ <-.
  cbn [trace requests_sent]. rewrite Htr, Hreq.
  unfold add_events. cbn [trace requests_sent].
  rewrite !pauses_app, Ht. cbn. split; lia.
Qed.

Lemma process_rows_accounting (env : Env) (self : LLMNewsParser)
    (rows : list (gmap pystr cell)) :
  forall (c c' : counters) (w w' : world),
    process_rows env self rows c w = (Ok c', w') ->
    (processed_count c <= processed_count c'
     <= processed_count c + length rows)%nat
    /\ (successful_analyses c <= successful_analyses c')%nat
    /\ (successful_analyses c' + processed_count c
        <= successful_analyses c + processed_count c')%nat
    /\ (requests_sent w' + 3 * processed_count c
        <= requests_sent w + 3 * processed_count c')%nat
    /\ (pauses (trace w') + processed_count c
        = pauses (trace w) + processed_count c')%nat.
Proof.
  induction rows as [|row rest IH]; intros c c' w w' H; cbn [process_rows] in H.
  - injection H as <- <-. cbn. lia.
  - apply bind_ok_inv in H as (c1 & w1 & Hrow & Hrest).
    specialize (IH _ _ _ _ Hrest). cbn [length].
    pose proof (process_row_counts _ _ _ _ _ _ _ Hrow)
      as [(_ & -> & ->) | (Hnb & Hp & Hs)].
    + lia.
    + pose proof (process_row_cost _ _ _ _ _ _ _ Hrow Hnb) as [Hreq Hpause].
      lia.
Qed.

(** X11. The counters of a finished run: the rows counted as processed
    are at most the rows read, and the successful analyses are at most
    the processed rows. *)
Theorem run_counters_are_ordered (env : Env) (self : LLMNewsParser)
    (rows : list (gmap pystr cell)) (w : world) (c : counters) (w' : world) :
  parse_csv_file env self rows w = (Ok c, w') ->
  (successful_analyses c <= processed_count c <= length rows)%nat.
Proof.
  intros H. apply process_rows_accounting in H. cbn in H. lia.
Qed.

Lemma run_counters_are_ordered_witness :
  exists c,
    fst (parse_csv_file (constant_backend fenced_response) openai_parser
           [apple_row; ∅] empty_world) = Ok c
    /\ (successful_analyses c <= processed_count c <= 2)%nat.
Proof.
  assert (H : parse_csv_file (constant_backend fenced_response) openai_parser
                [apple_row; ∅] empty_world
              = (Ok (mkCounters 1 1),
                 snd (parse_csv_file (constant_backend fenced_response)
                        openai_parser [apple_row; ∅] empty_world))).
  { vm_compute. reflexivity. }
  exists (mkCounters 1 1). split; [rewrite H; reflexivity|].
  exact (run_counters_are_ordered _ _ _ _ _ _ H).
Defined.



(** ** What a run does to the collections *)

Lemma only_appends_refl (fs : gmap location file) : only_appends fs fs.
Proof.
  intros loc. split; [exists []; rewrite app_nil_r; reflexivity | auto].
Qed.

Lemma only_appends_trans (a b c : gmap location file) :
  only_appends a b -> only_appends b c -> only_appends a c.
Proof.
  intros Hab Hbc loc.
  destruct (Hab loc) as [[x Hx] Hs1]. destruct (Hbc loc) as [[y Hy] Hs2].
  split; [|auto].
  exists (x ++ y). rewrite Hy, Hx, app_assoc. reflexivity.
Qed.

Lemma aborted_appends_refl (e : exn) (fs : gmap location file) :
  aborted_appends e fs fs.
Proof. left. apply only_appends_refl. Qed.

Lemma aborted_appends_after (e : exn) (a b c : gmap location file) :
  only_appends a b -> aborted_appends e b c -> aborted_appends e a c.
Proof.
  intros Hab [Hbc | (-> & loc & mid & Hmid & ->)].
  - left. exact (only_appends_trans a b c Hab Hbc).
  - right. split; [reflexivity|]. exists loc, mid.
    split; [exact (only_appends_trans a b mid Hab Hmid) | reflexivity].
Qed.

Lemma append_only_appends (env : Env) (self : LLMNewsParser)
    (ticker e : value) (h t : cell) :
  respects only_appends aborted_appends (append_if_new env self ticker e h t).
Proof.
  intros w r w' Hrun.
  apply append_if_new_cases in Hrun as [[-> _] | (loc & _ & _ & Hw)].
  - destruct r; [apply only_appends_refl | apply aborted_appends_refl].
  - destruct (encodable _); destruct Hw as [-> ->]; cbn [files set_file].
    + intros loc'. rewrite entries_at_insert, lookup_insert.
      destruct (decide (loc = loc')) as [<-|_].
      * split; [exists [e]; reflexivity | intros _; eexists; reflexivity].
      * split; [exists []; rewrite app_nil_r; reflexivity | auto].
    + right. split; [reflexivity|]. exists loc, (files w).
      split; [apply only_appends_refl | reflexivity].
Qed.

(** X13. A run that finishes only appends: every collection keeps the
    entries it had, in their order, at the beginning of what it holds
    afterwards, and no file disappears. An aborted run has done the
    same, with one exception: when it was aborted by a write that could
    not encode its collection ([UnicodeEncodeError]), the file of that
    write is left unreadable, so that the entries it held are lost. *)
Theorem run_only_appends (env : Env) (self : LLMNewsParser)
    (rows : list (gmap pystr cell)) (w : world) (r : result counters)
    (w' : world) :
  parse_csv_file env self rows w = (r, w') ->
  match r with
  | Ok _ => only_appends (files w) (files w')
  | Raise e =>
      only_appends (files w) (files w')
      \/ (e = UnicodeEncodeError
          /\ exists loc mid,
               only_appends (files w) mid
               /\ files w' = <[loc := Unreadable]> mid)
  end.
Proof.
  intros Hrun.
  refine (respects_process_rows only_appends aborted_appends
            only_appends_refl only_appends_trans aborted_appends_refl
            aborted_appends_after env self rows _ _ w r w' Hrun).
  intros h t d ticker e _. apply append_only_appends.
Qed.

(** A row answered with a company name that cannot be encoded: the run
    is aborted and the collection of AAPL, which held an entry, is left
    unreadable. *)
Lemma run_only_appends_witness :
  exists w',
    parse_csv_file (constant_backend surrogate_response) openai_parser
      [apple_row]
      (set_file empty_world aapl_file (Document 2 false (VList [old_entry])))
    = (Raise UnicodeEncodeError, w')
    /\ files w' !! aapl_file = Some Unreadable
    /\ exists loc mid,
         only_appends (<[aapl_file := Document 2 false (VList [old_entry])]> ∅) mid
         /\ files w' = <[loc := Unreadable]> mid.
Proof.
  pose (w0 := set_file empty_world aapl_file (Document 2 false (VList [old_entry]))).
  pose (p := parse_csv_file (constant_backend surrogate_response)
               openai_parser [apple_row] w0).
  assert (Hr : fst p = Raise UnicodeEncodeError) by (vm_compute; reflexivity).
  assert (Hrun : p = (Raise UnicodeEncodeError, snd p)).
  { rewrite <- Hr. apply surjective_pairing. }
  exists (snd p). split; [exact Hrun|].
  split; [vm_compute; reflexivity|].
  destruct (run_only_appends _ _ _ _ _ _ Hrun) as [Happ | [_ Hbreak]].
  - exfalso. destruct (Happ aapl_file) as [[added Hadd] _].
    vm_compute in Hadd. discriminate Hadd.
  - exact Hbreak.
Defined.

Lemma adds_one_at_most_refl (h t : cell) (fs : gmap location file) :
  adds_one_at_most h t fs fs.
Proof. intros loc. left. reflexivity. Qed.

Lemma adds_one_at_most_trans (h t : cell) (a b c : gmap location file) :
  adds_one_at_most h t a b -> adds_one_at_most h t b c ->
  adds_one_at_most h t a c.
Proof.
  intros Hab Hbc loc.
  destruct (Hab loc) as [Hb | (e1 & Hb & He1 & Hz1)];
    destruct (Hbc loc) as [Hc | (e2 & Hc & He2 & Hz2)].
  - left. congruence.
  - right. exists e2. rewrite <- Hb. auto.
  - right. exists e1. rewrite Hc. auto.
  - exfalso. rewrite Hb, occurrences_app in Hz2.
    replace (has_key e1 h t) with true in Hz2
      by (symmetry; apply has_key_true; exact He1).
    lia.
Qed.

Lemma adds_one_or_breaks_refl (h t : cell) (e : exn)
    (fs : gmap location file) :
  adds_one_or_breaks h t e fs fs.
Proof. intros loc. left. left. reflexivity. Qed.

Lemma adds_one_or_breaks_after (h t : cell) (e : exn)
    (a b c : gmap location file) :
  adds_one_at_most h t a b -> adds_one_or_breaks h t e b c ->
  adds_one_or_breaks h t e a c.
Proof.
  intros Hab Hbc loc. destruct (Hbc loc) as [Hstep | Hbroken];
    [|right; exact Hbroken].
  left.
  destruct (Hab loc) as [Hb | (e1 & Hb & He1 & Hz1)];
    destruct Hstep as [Hc | (e2 & Hc & He2 & Hz2)].
  - left. congruence.
  - right. exists e2. rewrite <- Hb. auto.
  - right. exists e1. rewrite Hc. auto.
  - exfalso. rewrite Hb, occurrences_app in Hz2.
    replace (has_key e1 h t) with true in Hz2
      by (symmetry; apply has_key_true; exact He1).
    lia.
Qed.

Lemma append_adds_one_at_most (env : Env) (self : LLMNewsParser)
    (ticker e : value) (h t : cell) :
  key_of e = Some (h, t) ->
  respects (adds_one_at_most h t) (adds_one_or_breaks h t)
           (append_if_new env self ticker e h t).
Proof.
  intros He w r w' Hrun.
  apply append_if_new_cases in Hrun as [[-> _] | (loc & _ & Hdup & Hw)].
  { destruct r; [apply adds_one_at_most_refl | apply adds_one_or_breaks_refl]. }
  apply is_duplicate_false in Hdup as [_ Hzero].
  destruct (encodable _); destruct Hw as [-> ->]; cbn [files set_file];
    intros loc'.
  - rewrite entries_at_insert.
    destruct (decide (loc = loc')) as [<-|_]; [|left; reflexivity].
    right. exists e. auto.
  - rewrite entries_at_unreadable, lookup_insert.
    destruct (decide (loc = loc')) as [_|_].
    + right. split; reflexivity.
    + left. left. reflexivity.
Qed.

(** X14. One row adds at most one entry to any file, at its end, however
    often its analysis names the ticker of that file; the entry has the
    headline and the timestamp of the row, and none is added to a file
    that already holds an entry with them. The one exception is a file
    left unreadable by a write that could not encode its collection,
    which ends the row with [UnicodeEncodeError]. *)
Theorem row_adds_one_entry_at_most (env : Env) (self : LLMNewsParser)
    (row : gmap pystr cell) (c : counters) (w : world)
    (r : result counters) (w' : world) :
  process_row env self row c w = (r, w') ->
  let headline := cell_or (row_get row "Headlines") (row_get row "Headline") in
  let time_str := cell_or (row_get row "Time") (row_get row "Date") in
  forall loc,
    (entries_at (files w') loc = entries_at (files w) loc
     \/ exists e,
          entries_at (files w') loc = entries_at (files w) loc ++ [e]
          /\ key_of e = Some (headline, time_str)
          /\ occurrences (entries_at (files w) loc) headline time_str
             = 0%nat)
    \/ (r = Raise UnicodeEncodeError /\ files w' !! loc = Some Unreadable).
Proof.
  intros Hrun headline time_str loc.
  pose proof (respects_process_row
                (adds_one_at_most headline time_str)
                (adds_one_or_breaks headline time_str)
                (adds_one_at_most_refl _ _) (adds_one_at_most_trans _ _)
                (adds_one_or_breaks_refl _ _)
                (adds_one_or_breaks_after _ _)
                env self row c) as Hrow.
  specialize (Hrow (fun ticker e He =>
                      append_adds_one_at_most env self ticker e _ _
                        (news_entry_key _ _ _ _ _ He))
                   w r w' Hrun).
  destruct r as [c'|x].
  - left. exact (Hrow loc).
  - destruct (Hrow loc) as [Hstep | [-> Hbroken]];
      [left; exact Hstep | right; split; [reflexivity | exact Hbroken]].
Qed.

Lemma row_adds_one_entry_at_most_witness :
  (length
     (entries_at
        (files (snd (process_row
                       (constant_backend
                          (qstr "{'tickers': ['AAPL', 'AAPL'], 'confidence': 0.9}"))
                       openai_parser apple_row (mkCounters 0 0) empty_world)))
        aapl_file) <= 1)%nat.
Proof.
  destruct (row_adds_one_entry_at_most
              (constant_backend
                 (qstr "{'tickers': ['AAPL', 'AAPL'], 'confidence': 0.9}"))
              openai_parser apple_row (mkCounters 0 0) empty_world _ _
              (surjective_pairing _) aapl_file)
    as [[H | (e & H & _)] | [_ H]].
  - rewrite H. change (entries_at (files empty_world) aapl_file)
      with (@nil value). cbn. lia.
  - rewrite H. change (entries_at (files empty_world) aapl_file)
      with (@nil value). cbn. lia.
  - unfold entries_at. rewrite H. cbn. lia.
Defined.

(** ** Tickers *)

Lemma process_tickers_all_skipped (env : Env) (self : LLMNewsParser)
    (analysis : value) (h t d : cell) (tickers : list value) :
  Forall (fun ticker => skipped_ticker ticker = true) tickers ->
  forall i w,
    process_tickers env self analysis h t d i tickers w = (Ok tt, w).
Proof.
  induction 1 as [|ticker rest Hskip _ IH]; intros i w; [reflexivity|].
  cbn [process_tickers]. unfold bind at 1. unfold process_ticker.
  unfold skipped_ticker in Hskip. rewrite Hskip. cbn [ret]. apply IH.
Qed.

(** X15. An analysis that is confident enough but names no usable ticker
    (no ticker at all, or only "UNKNOWN" and empty ones) is counted as a
    successful analysis although nothing is stored: the world stays as
    it is, no file is read or written and the clock is not read. *)
Theorem unknown_tickers_store_nothing (env : Env) (self : LLMNewsParser)
    (analysis : value) (tickers : list value)
    (headline time_str description : cell) (n : nat) (w : world) :
  confident analysis = Ok true ->
  subscript_key analysis (str "tickers") = Ok (VList tickers) ->
  Forall (fun ticker => skipped_ticker ticker = true) tickers ->
  fan_out env self analysis headline time_str description n w = (Ok (S n), w).
Proof.
  intros Hconf Htickers Hskip. unfold fan_out, bind, lift.
  rewrite Hconf, Htickers. cbn [py_iter].
  rewrite (process_tickers_all_skipped env self analysis _ _ _ tickers Hskip).
  reflexivity.
Qed.

Lemma unknown_tickers_store_nothing_witness :
  fan_out dead_backend openai_parser
    (VDict [(str "tickers", VList [VStr (str "UNKNOWN"); VStr []]);
            (str "confidence", VFloat one_half)])
    (Some (str "h")) (Some (str "t")) None 0 empty_world
  = (Ok 1%nat, empty_world).
Proof.
  apply (unknown_tickers_store_nothing dead_backend openai_parser _
           [VStr (str "UNKNOWN"); VStr []]).
  - reflexivity.
  - reflexivity.
  - repeat constructor.
Defined.

Lemma list_lookup_ltb (cs : list value) (i : nat) :
  (if (i <? length cs)%nat
   then match cs !! i with
        | Some x => Ok x
        | None => Raise IndexError
        end
   else Ok (VStr (str "Unknown")))
  = Ok (company_for cs i).
Proof.
  unfold company_for. destruct (cs !! i) as [x|] eqn:Hx.
  - apply lookup_lt_Some in Hx.
    replace (i <? length cs)%nat with true
      by (symmetry; apply Nat.ltb_lt; exact Hx).
    reflexivity.
  - apply lookup_ge_None in Hx.
    replace (i <? length cs)%nat with false
      by (symmetry; apply Nat.ltb_ge; exact Hx).
    reflexivity.
Qed.

(** X16. What is stored for the [i]-th ticker of a row, when the ticker
    is not passed over, its path names a file, and its collection (in a
    store without duplicates) has no entry with the row's headline and
    timestamp: one entry is added at the end of the collection, whose
    company name is the [i]-th company of the analysis, or "Unknown"
    when the analysis names fewer companies (the ticker is not
    dropped); sentiment, score, themes and confidence are those of the
    analysis, and the processing date is the one reading of the clock
    this step makes. When the collection with the new entry cannot be
    encoded, the step raises instead and leaves the file unreadable. *)
Theorem ticker_entry_is_stored (env : Env) (self : LLMNewsParser)
    (d : dict) (companies : list value)
    (sentiment score themes conf ticker : value)
    (headline time_str description : cell) (i : nat) (w : world)
    (loc : location) :
  dict_get d (str "companies") = Some (VList companies) ->
  dict_get d (str "sentiment") = Some sentiment ->
  dict_get d (str "sentiment_score") = Some score ->
  dict_get d (str "key_themes") = Some themes ->
  dict_get d (str "confidence") = Some conf ->
  skipped_ticker ticker = false ->
  deduplicated (files w) ->
  ticker_location env self ticker = Some loc ->
  occurrences (entries_at (files w) loc) headline time_str = 0%nat ->
  let stored :=
    VList
      (entries_at (files w) loc
       ++ [VDict
             [(str "timestamp", cell_value time_str);
              (str "headline", cell_value headline);
              (str "description", cell_value description);
              (str "company_name", company_for companies i);
              (str "ticker", ticker);
              (str "sentiment", sentiment);
              (str "sentiment_score", score);
              (str "key_themes", themes);
              (str "confidence", conf);
              (str "full_text",
               VStr (strip (format_cell headline ++ str " "
                            ++ format_cell description)));
              (str "processed_date",
               VStr (clock env (clock_reads w)))]]) in
  process_ticker env self (VDict d) headline time_str description i ticker w
  = if encodable stored
    then (Ok tt,
          mkWorld (<[loc := Document 2 false stored]> (files w))
                  (trace w) (requests_sent w) (S (clock_reads w)))
    else (Raise UnicodeEncodeError,
          mkWorld (<[loc := Unreadable]> (files w))
                  (trace w) (requests_sent w) (S (clock_reads w))).
Proof.
  intros Hc Hs Hsc Hth Hcf Hskip Hfs Hloc Hcount stored.
  unfold process_ticker. unfold skipped_ticker in Hskip. rewrite Hskip.
  unfold bind at 1. unfold lift at 1. unfold subscript_key at 1. rewrite Hc.
  unfold bind at 1. unfold lift at 1. cbn [py_len].
  unfold bind at 1.
  assert (Hcompany :
            (if (i <? length companies)%nat
             then lift (subscript_index (VList companies) i)
             else ret (VStr (str "Unknown"))) w
            = (Ok (company_for companies i), w)).
  { pose proof (list_lookup_ltb companies i) as Hl.
    destruct (i <? length companies)%nat; unfold lift, ret;
      cbn [subscript_index]; rewrite Hl; reflexivity. }
  rewrite Hcompany.
  unfold bind at 1. unfold make_news_entry, bind, lift, subscript_key.
  rewrite Hs, Hsc, Hth, Hcf. unfold now_isoformat, ret.
  set (w1 := mkWorld (files w) (trace w) (requests_sent w) (S (clock_reads w))).
  match goal with
  | |- context [append_if_new env self ticker ?e headline time_str w1] =>
      rewrite (append_if_new_deduplicated env self ticker e headline time_str
                 w1 loc Hfs Hloc)
  end.
  cbv zeta. cbn [files w1]. rewrite Hcount. cbn [Nat.eqb].
  fold stored. destruct (encodable stored); reflexivity.
Qed.

Lemma ticker_entry_is_stored_witness :
  exists e,
    entries_at
      (files (snd (process_ticker dead_backend openai_parser
                     (VDict [(str "companies", VList []);
                             (str "sentiment", VStr (str "positive"));
                             (str "sentiment_score", VFloat one_half);
                             (str "key_themes", VList []);
                             (str "confidence", VFloat one_half)])
                     (Some (str "h")) (Some (str "t")) None 0
                     (VStr (str "AAPL")) empty_world)))
      aapl_file = [VDict e]
    /\ dict_get e (str "company_name") = Some (VStr (str "Unknown")).
Proof.
  rewrite (ticker_entry_is_stored dead_backend openai_parser _ []
             (VStr (str "positive")) (VFloat one_half) (VList [])
             (VFloat one_half) (VStr (str "AAPL"))
             (Some (str "h")) (Some (str "t")) None 0 empty_world aapl_file);
    try reflexivity.
  - eexists. split; [vm_compute; reflexivity | reflexivity].
  - intros loc f Hf. cbn in Hf. rewrite lookup_empty in Hf. discriminate Hf.
Defined.

(** ** A row whose calls all fail *)

(** X17. When every attempt for a row fails, the failure costs the row
    and nothing else: the three attempts are reported, with sleeps of 1
    and 2 between them, the analysis is the zero analysis, no file is
    touched and the clock is not read; after its pause the row is
    counted as processed, not as successful, and the run goes on. *)
Theorem failed_calls_cost_only_the_row (env : Env) (self : LLMNewsParser)
    (row : gmap pystr cell) (c : counters) (w : world) (h : pystr) :
  let headline := cell_or (row_get row "Headlines") (row_get row "Headline") in
  let description :=
    cell_or (row_get row "Description") (row_get row "Content") in
  headline = Some h ->
  ~ blank_row row ->
  (forall w0, exists e,
     fst (attempt_llm env self (build_prompt headline description) w0)
     = Raise e) ->
  exists w',
    process_row env self row c w
    = (Ok (mkCounters (S (processed_count c)) (successful_analyses c)), w')
    /\ files w' = files w
    /\ clock_reads w' = clock_reads w
    /\ failures_of (trace w') = failures_of (trace w) ++ [1; 2; 3]
    /\ sleeps_of (trace w')
       = sleeps_of (trace w) ++ [VInt 1; VInt 2; VFloat one_half].
Proof.
  intros headline description Hh Hnb Hfail.
  pose proof (call_llm_from_all_fail env self
                (build_prompt headline description) 3 Hfail 3 0 w eq_refl)
    as Hcall.
  change (Z.of_nat 0) with 0 in Hcall.
  set (evs := request_events self (build_prompt headline description)) in *.
  set (t := flat_map (failed_attempt evs (0 + 3)) (seq 0 3)) in *.
  assert (Hf : failures_of t = [1; 2; 3]).
  { subst t evs. rewrite failures_of_failed_attempts. reflexivity. }
  assert (Hs : sleeps_of t = [VInt 1; VInt 2]).
  { subst t evs.
    rewrite (sleeps_of_failed_attempts self
               (build_prompt headline description) 3 0).
    reflexivity. }
  eexists. split.
  - unfold process_row. fold headline description.
    replace (negb (cell_truthy headline) && negb (cell_truthy description))
      with false.
    2:{ symmetry. apply not_true_is_false. intros Hskip.
        apply Hnb. apply skip_test_blank. exact Hskip. }
    unfold bind at 1. unfold lift at 1. rewrite Hh at 1. cbn [cell_prefix].
    unfold bind at 1. unfold analyze_news_with_llm, call_llm.
    unfold bind at 1. change (Z.to_nat 3) with 3%nat. rewrite Hcall.
    unfold lift at 1.
    change (interpret_response VNone) with (Ok zero_analysis).
    unfold bind at 1. unfold fan_out. unfold bind at 1. unfold lift at 1.
    change (confident zero_analysis) with (@Ok bool false).
    unfold ret at 1. unfold bind at 1. unfold sleep, log_event, ret.
    reflexivity.
  - cbn [files trace clock_reads add_events].
    split; [reflexivity|]. split; [reflexivity|].
    rewrite !failures_of_app, !sleeps_of_app, Hf, Hs.
    split; [rewrite app_nil_r; reflexivity|].
    rewrite <- app_assoc. reflexivity.
Qed.

Lemma failed_calls_cost_only_the_row_witness :
  exists w',
    process_row dead_backend openai_parser apple_row (mkCounters 0 0)
                empty_world
    = (Ok (mkCounters 1 0), w')
    /\ files w' = files empty_world
    /\ sleeps_of (trace w') = [VInt 1; VInt 2; VFloat one_half].
Proof.
  destruct (failed_calls_cost_only_the_row dead_backend openai_parser
              apple_row (mkCounters 0 0) empty_world
              (str "Apple beats estimates"))
    as (w' & Hrun & Hfiles & _ & _ & Hsleeps).
  - reflexivity.
  - intros (_ & H & _). vm_compute in H. discriminate H.
  - intros w0. exists ConnectionError. reflexivity.
  - exists w'. split; [exact Hrun|]. split; [exact Hfiles | exact Hsleeps].
Defined.

(** ** Files that are not collections *)

(** X18. A ticker file that is missing or cannot be read is treated as
    an empty collection: the next append for that ticker, for whatever
    entry that can be encoded, does not raise, and rewrites the file as
    a collection of that one entry, so that whatever the file held is
    lost. (An entry that cannot be encoded leaves the file unreadable
    and raises.) *)
Theorem unreadable_file_is_replaced (env : Env) (self : LLMNewsParser)
    (ticker e : value) (headline time_str : cell) (w : world)
    (loc : location) :
  ticker_location env self ticker = Some loc ->
  files w !! loc = None \/ files w !! loc = Some Unreadable ->
  fst (load_existing_data env self ticker w) = Ok (VList [])
  /\ append_if_new env self ticker e headline time_str w
     = if encodable (VList [e])
       then (Ok true, set_file w loc (Document 2 false (VList [e])))
       else (Raise UnicodeEncodeError, set_file w loc Unreadable).
Proof.
  intros Hloc Hfile.
  assert (Hload : fst (load_existing_data env self ticker w) = Ok (VList [])).
  { rewrite (load_existing_data_located env self ticker w loc Hloc).
    destruct Hfile as [-> | ->]; reflexivity. }
  split; [exact Hload|].
  rewrite (append_if_new_list env self ticker e headline time_str w [] Hload).
  cbn [is_duplicate app].
  apply (resolve_file_location env (files w)) in Hloc. rewrite Hloc.
  reflexivity.
Qed.

Lemma unreadable_file_is_replaced_witness :
  append_if_new dead_backend openai_parser (VStr (str "AAPL")) VNone
    None None (set_file empty_world aapl_file Unreadable)
  = (Ok true,
     set_file (set_file empty_world aapl_file Unreadable) aapl_file
              (Document 2 false (VList [VNone]))).
Proof.
  destruct (unreadable_file_is_replaced dead_backend openai_parser
              (VStr (str "AAPL")) VNone None None
              (set_file empty_world aapl_file Unreadable) aapl_file)
    as [_ H].
  - reflexivity.
  - right. vm_compute. reflexivity.
  - exact H.
Defined.

(** X19. A ticker file that holds JSON other than a list is not treated
    as empty: every append for that ticker raises ([TypeError] or
    [AttributeError]) and leaves the world as it is, the file included. *)
Theorem non_list_file_blocks_appends (env : Env) (self : LLMNewsParser)
    (ticker e : value) (headline time_str : cell) (w : world)
    (indent : nat) (ascii : bool) (data : value) :
  ticker_file env self (files w) ticker
    = Some (Document indent ascii data) ->
  is_list data = false ->
  exists x,
    append_if_new env self ticker e headline time_str w = (Raise x, w)
    /\ (x = TypeError \/ x = AttributeError).
Proof.
  intros Hfile Hdata. unfold ticker_file in Hfile.
  destruct (ticker_location env self ticker) as [loc|] eqn:Hloc;
    [|discriminate Hfile].
  apply (append_if_new_not_list env self ticker e headline time_str w data);
    [|exact Hdata].
  rewrite (load_existing_data_located env self ticker w loc Hloc), Hfile.
  reflexivity.
Qed.

Lemma non_list_file_blocks_appends_witness :
  exists x,
    append_if_new dead_backend openai_parser (VStr (str "AAPL")) VNone
      None None
      (set_file empty_world aapl_file (Document 2 false (VDict [])))
    = (Raise x,
       set_file empty_world aapl_file (Document 2 false (VDict []))).
Proof.
  destruct (non_list_file_blocks_appends dead_backend openai_parser
              (VStr (str "AAPL")) VNone None None
              (set_file empty_world aapl_file (Document 2 false (VDict [])))
              2%nat false (VDict [])) as (x & H & _).
  - vm_compute. reflexivity.
  - reflexivity.
  - exists x. exact H.
Defined.

Lemma load_after_save_elsewhere (env : Env) (self : LLMNewsParser)
    (ticker1 ticker2 data : value) (w : world) :
  ticker_location env self ticker1 <> ticker_location env self ticker2
  \/ ticker_location env self ticker1 = None ->
  fst (load_existing_data env self ticker2
         (snd (save_ticker_data env self ticker1 data w)))
  = fst (load_existing_data env self ticker2 w).
Proof.
  intros Hne.
  destruct (ticker_location env self ticker1) as [loc1|] eqn:H1.
  2:{ rewrite save_ticker_data_eq.
      destruct (resolve_no_location env (files w) _ H1) as [x ->].
      reflexivity. }
  destruct Hne as [Hne | Hne]; [|discriminate Hne].
  rewrite (save_ticker_data_located env self ticker1 data w loc1 H1).
  destruct (ticker_location env self ticker2) as [loc2|] eqn:H2.
  2:{ rewrite !(load_existing_data_nowhere env self ticker2 _ H2).
      reflexivity. }
  rewrite !(load_existing_data_located env self ticker2 _ loc2 H2).
  assert (Hloc : loc1 <> loc2) by congruence.
  destruct (encodable data); cbn [snd fst files set_file];
    rewrite lookup_insert_ne by exact Hloc; reflexivity.
Qed.

(** X20. What a save that returns has written for a ticker is what is
    loaded for it next. Saving for one ticker leaves what is loaded for
    another as it was whenever the two have different files; this is
    so for two different plain tickers in the output directory of the
    constructor. (Two tickers with one file, as AAPL and ./AAPL, do
    interfere.) *)
Theorem saved_data_is_loaded_back (env : Env) (self : LLMNewsParser)
    (ticker data : value) (t1 t2 : pystr) (w : world) :
  (forall w',
     save_ticker_data env self ticker data w = (Ok tt, w') ->
     fst (load_existing_data env self ticker w') = Ok data)
  /\ (ticker_location env self (VStr t1) <> ticker_location env self (VStr t2)
      ->
      fst (load_existing_data env self (VStr t2)
             (snd (save_ticker_data env self (VStr t1) data w)))
      = fst (load_existing_data env self (VStr t2) w))
  /\ (output_dir self = str "company_news" ->
      is_dir env (cwd env ++ [str "company_news"]) = true ->
      plain_ticker t1 = true -> plain_ticker t2 = true ->
      t1 <> t2 ->
      fst (load_existing_data env self (VStr t2)
             (snd (save_ticker_data env self (VStr t1) data w)))
      = fst (load_existing_data env self (VStr t2) w)).
Proof.
  split; [|split].
  - intros w' Hsave. rewrite save_ticker_data_eq in Hsave.
    destruct (resolve env (files w) (ticker_filename env self ticker))
      as [loc|x] eqn:Hres; [|discriminate Hsave].
    apply resolve_file_location in Hres.
    destruct (encodable data); [|discriminate Hsave].
    injection Hsave as <-.
    rewrite (load_existing_data_located env self ticker _ loc Hres).
    cbn [files set_file fst]. rewrite lookup_insert_eq. reflexivity.
  - intros Hne. apply load_after_save_elsewhere. left. exact Hne.
  - intros Hout Hdir H1 H2 Hne. apply load_after_save_elsewhere.
    destruct (ticker_location env self (VStr t1)) as [loc|] eqn:Hloc;
      [|right; reflexivity].
    left. intros Heq. apply Hne.
    apply (plain_ticker_location_inj env self t1 t2 Hout Hdir H1 H2).
    + rewrite Hloc. eauto.
    + rewrite Hloc. exact Heq.
Qed.

Lemma saved_data_is_loaded_back_witness :
  fst (load_existing_data dead_backend openai_parser (VStr (str "AAPL"))
         (snd (save_ticker_data dead_backend openai_parser (VStr (str "AAPL"))
                 (VList [VNone]) empty_world)))
  = Ok (VList [VNone])
  /\ fst (load_existing_data dead_backend openai_parser (VStr (str "MSFT"))
            (snd (save_ticker_data dead_backend openai_parser
                    (VStr (str "AAPL")) (VList [VNone]) empty_world)))
     = Ok (VList []).
Proof.
  destruct (saved_data_is_loaded_back dead_backend openai_parser
              (VStr (str "AAPL")) (VList [VNone]) (str "AAPL") (str "MSFT")
              empty_world) as (Hback & _ & Hother).
  split.
  - apply Hback.
    assert (Hr : fst (save_ticker_data dead_backend openai_parser
                        (VStr (str "AAPL")) (VList [VNone]) empty_world)
                 = Ok tt) by (vm_compute; reflexivity).
    rewrite <- Hr. apply surjective_pairing.
  - rewrite Hother; [reflexivity | reflexivity | reflexivity | reflexivity
                     | reflexivity | discriminate].
Defined.

(** Two tickers with one file: what is saved for ./AAPL is loaded for
    AAPL. *)
Example aliased_tickers_share_a_file :
  fst (load_existing_data dead_backend openai_parser (VStr (str "AAPL"))
         (snd (save_ticker_data dead_backend openai_parser
                 (VStr (str "./AAPL")) (VList [VNone]) empty_world)))
  = Ok (VList [VNone]).
Proof. vm_compute. reflexivity. Qed.

(** ** The summary *)

Example print_summary_sample :
  print_summary openai_parser sample_directory
  = ([[nl] ++ str "Summary of created files in 'company_news' directory:";
      str "AAPL: 2 items (P:1, N:0, Neu:0)";
      str "MSFT: 1 items (P:0, N:1, Neu:0)";
      [nl] ++ str "Total news items processed: 3"],
     Ok tt).
Proof. vm_compute. reflexivity. Qed.


Lemma pystr_leb_total (a b : pystr) :
  pystr_leb a b = false -> pystr_leb b a = true.
Proof.
  revert b. induction a as [|x a IH]; intros [|y b]; cbn;
    try discriminate; try reflexivity.
  destruct (N.ltb_spec x y); [discriminate|].
  destruct (N.ltb_spec y x); [reflexivity|].
  apply IH.
Qed.

Lemma pystr_leb_trans (a b c : pystr) :
  pystr_leb a b = true -> pystr_leb b c = true -> pystr_leb a c = true.
Proof.
  revert b c. induction a as [|x a IH]; intros [|y b] [|z c]; cbn;
    try discriminate; try reflexivity.
  destruct (N.ltb_spec x y), (N.ltb_spec y z), (N.ltb_spec x z);
    try reflexivity; try discriminate; try lia;
    destruct (N.ltb_spec y x), (N.ltb_spec z y), (N.ltb_spec z x);
    try reflexivity; try discriminate; try lia.
  apply IH.
Qed.

Lemma insert_by_name_perm (x : pystr * file) (l : list (pystr * file)) :
  Permutation (insert_by_name x l) (x :: l).
Proof.
  induction l as [|y l IH]; cbn; [reflexivity|].
  destruct (pystr_leb (fst x) (fst y)); [reflexivity|].
  rewrite IH. apply perm_swap.
Qed.

Lemma sort_by_name_perm (l : list (pystr * file)) :
  Permutation (sort_by_name l) l.
Proof.
  induction l as [|x l IH]; cbn; [reflexivity|].
  rewrite insert_by_name_perm, IH. reflexivity.
Qed.

Lemma insert_by_name_sorted (x : pystr * file) (l : list (pystr * file)) :
  StronglySorted name_leb l -> StronglySorted name_leb (insert_by_name x l).
Proof.
  induction 1 as [|y l Hs IH Hy]; cbn.
  - repeat constructor.
  - destruct (pystr_leb (fst x) (fst y)) eqn:E.
    + constructor; [constructor; assumption|].
      constructor; [exact E|].
      eapply Forall_impl; [exact Hy|].
      intros z Hz. unfold name_leb in *. eapply pystr_leb_trans; eassumption.
    + constructor; [exact IH|].
      rewrite insert_by_name_perm. constructor; [|exact Hy].
      apply pystr_leb_total. exact E.
Qed.

Lemma sort_by_name_sorted (l : list (pystr * file)) :
  StronglySorted name_leb (sort_by_name l).
Proof.
  induction l as [|x l IH]; cbn; [constructor|].
  apply insert_by_name_sorted. exact IH.
Qed.

Lemma filter_strongly_sorted {A} (R : A -> A -> Prop) (p : A -> bool)
    (l : list A) :
  StronglySorted R l -> StronglySorted R (List.filter p l).
Proof.
  induction 1 as [|y l Hs IH Hy]; cbn; [constructor|].
  destruct (p y); [|exact IH].
  constructor; [exact IH|].
  apply List.Forall_forall. intros z Hz. apply List.filter_In in Hz as [Hz _].
  revert z Hz. apply List.Forall_forall. exact Hy.
Qed.

Lemma sentiments_of_collection (l : list value) :
  Forall has_sentiment l ->
  exists ss, sentiments_of l = Ok ss /\ length ss = length l.
Proof.
  induction 1 as [|e l (d & s & -> & Hs) Hl (ss & IH & Hlen)].
  - exists []. split; reflexivity.
  - exists (s :: ss). cbn [sentiments_of subscript_key]. rewrite Hs.
    cbn [rbind]. rewrite IH. cbn [rbind length]. split; [reflexivity | lia].
Qed.

Lemma eq_str_inj (s : value) (a b : pystr) :
  eq_str s a = true -> eq_str s b = true -> a = b.
Proof.
  destruct s; cbn; try discriminate.
  intros Ha Hb. apply pystr_eqb_eq in Ha, Hb. congruence.
Qed.

Lemma count_word_le (ss : list value) :
  (count_word "positive" ss + count_word "negative" ss
   + count_word "neutral" ss <= length ss)%nat.
Proof.
  unfold count_word. induction ss as [|s ss IH]; [cbn; lia|].
  cbn [List.filter].
  destruct (eq_str s (str "positive")) eqn:E1,
           (eq_str s (str "negative")) eqn:E2,
           (eq_str s (str "neutral")) eqn:E3;
    cbn [length]; try lia; exfalso.
  - pose proof (eq_str_inj _ _ _ E1 E2) as H. vm_compute in H. discriminate H.
  - pose proof (eq_str_inj _ _ _ E1 E2) as H. vm_compute in H. discriminate H.
  - pose proof (eq_str_inj _ _ _ E1 E3) as H. vm_compute in H. discriminate H.
  - pose proof (eq_str_inj _ _ _ E2 E3) as H. vm_compute in H. discriminate H.
Qed.

Lemma summarize_collection (name : pystr) (f : file) :
  is_collection f ->
  exists s,
    summarize_file name f = Ok s
    /\ sum_ticker s = slice name 0 (-5)
    /\ sum_count s = entries_count f
    /\ (sum_pos s + sum_neg s + sum_neu s <= sum_count s)%nat.
Proof.
  intros (indent & ascii & l & -> & Hl).
  destruct (sentiments_of_collection l Hl) as (ss & Hss & Hlen).
  eexists. unfold summarize_file.
  cbn [json_load rbind py_len py_iter]. rewrite Hss. cbn [rbind].
  split; [reflexivity|].
  cbn [sum_ticker sum_count sum_pos sum_neg sum_neu entries_count].
  repeat split. rewrite <- Hlen. apply count_word_le.
Qed.

Lemma summarize_files_collections (entries : list (pystr * file))
    (total_items : nat) (printed : list pystr) :
  Forall (fun nf => is_json_name nf = true -> is_collection (snd nf)) entries ->
  exists summaries,
    Forall2 (fun nf s =>
               summarize_file (fst nf) (snd nf) = Ok s
               /\ sum_ticker s = slice (fst nf) 0 (-5)
               /\ sum_count s = entries_count (snd nf)
               /\ (sum_pos s + sum_neg s + sum_neu s <= sum_count s)%nat)
            (List.filter is_json_name entries) summaries
    /\ summarize_files entries total_items printed
       = (printed ++ List.map summary_line summaries,
          Ok (total_items
              + list_sum (List.map (fun nf => entries_count (snd nf))
                                   (List.filter is_json_name entries)))%nat).
Proof.
  intros H. revert total_items printed.
  induction H as [|[name f] entries Hf _ IH]; intros total_items printed.
  - exists []. split; [constructor|]. cbn. rewrite app_nil_r.
    f_equal. f_equal. lia.
  - cbn [summarize_files List.filter].
    change (is_json_name (name, f)) with (endswith (str ".json") name) in *.
    cbn [snd] in Hf.
    destruct (endswith (str ".json") name) eqn:E.
    + destruct (summarize_collection name f (Hf eq_refl))
        as (s & Hs & Ht & Hc & Hle).
      rewrite Hs.
      destruct (IH (total_items + sum_count s)%nat
                   (printed ++ [summary_line s])) as (summaries & HF & Hrun).
      exists (s :: summaries). split.
      * constructor; [|exact HF]. cbn [fst snd]. repeat split; assumption.
      * rewrite Hrun. cbn [List.map snd]. rewrite <- app_assoc.
        cbn [app]. rewrite Hc. f_equal. f_equal.
        change (list_sum (entries_count f :: ?l))
          with (entries_count f + list_sum l)%nat.
        lia.
    + exact (IH total_items printed).
Qed.


Lemma json_files_spec (directory : gmap pystr file) (name : pystr) (f : file) :
  In (name, f) (json_files directory)
  <-> directory !! name = Some f /\ endswith (str ".json") name = true.
Proof.
  unfold json_files. rewrite List.filter_In. unfold is_json_name. cbn [fst].
  rewrite <- elem_of_map_to_list, <- list_elem_of_In.
  rewrite (sort_by_name_perm (map_to_list directory)).
  rewrite list_elem_of_In. reflexivity.
Qed.

(** X21. When every [.json] file of the output directory is a list of
    dicts with a sentiment, as the program writes them, [print_summary]
    does not raise: after the header it prints one line for each such
    file and no line for any other file, in increasing order of the file
    names, each under the file name without its last five characters and
    with the number of entries of the file, and it ends with the sum of
    these numbers as the total. *)
Theorem summary_counts_every_collection (self : LLMNewsParser)
    (directory : gmap pystr file) :
  (forall name f, directory !! name = Some f ->
                  endswith (str ".json") name = true -> is_collection f) ->
  exists summaries,
    Forall2 (fun nf s =>
               summarize_file (fst nf) (snd nf) = Ok s
               /\ sum_ticker s = slice (fst nf) 0 (-5)
               /\ sum_count s = entries_count (snd nf)
               /\ (sum_pos s + sum_neg s + sum_neu s <= sum_count s)%nat)
            (json_files directory) summaries
    /\ print_summary self directory
       = ([summary_header self] ++ List.map summary_line summaries
            ++ [total_line
                  (list_sum (List.map (fun nf => entries_count (snd nf))
                                      (json_files directory)))],
          Ok tt)
    /\ StronglySorted name_leb (json_files directory)
    /\ (forall name f,
          In (name, f) (json_files directory)
          <-> directory !! name = Some f
              /\ endswith (str ".json") name = true).
Proof.
  intros Hdir.
  assert (HF : Forall (fun nf => is_json_name nf = true ->
                                 is_collection (snd nf))
                      (sort_by_name (map_to_list directory))).
  { apply List.Forall_forall. intros [name f] Hin Hj.
    apply (Hdir name f); [|exact Hj].
    apply elem_of_map_to_list. rewrite <- (sort_by_name_perm (map_to_list directory)).
    apply list_elem_of_In. exact Hin. }
  destruct (summarize_files_collections _ 0%nat [summary_header self] HF)
    as (summaries & HF2 & Hrun).
  exists summaries. split; [exact HF2|]. split.
  - unfold print_summary. rewrite Hrun. cbn [Nat.add].
    rewrite <- app_assoc. reflexivity.
  - split; [apply filter_strongly_sorted, sort_by_name_sorted|].
    apply json_files_spec.
Qed.

Lemma summary_counts_every_collection_witness :
  exists summaries,
    print_summary openai_parser sample_directory
    = ([summary_header openai_parser] ++ List.map summary_line summaries
         ++ [total_line 3], Ok tt).
Proof.
  destruct (summary_counts_every_collection openai_parser sample_directory)
    as (summaries & _ & Hrun & _).
  - intros name f Hf Hname.
    assert (Hin : In (name, f) (json_files sample_directory)).
    { apply json_files_spec. split; assumption. }
    vm_compute in Hin.
    destruct Hin as [Heq | [Heq | []]]; injection Heq as <- <-.
    + exists 2%nat, false. eexists. split; [reflexivity|].
      repeat constructor; eexists; eexists; split; reflexivity.
    + exists 2%nat, false. eexists. split; [reflexivity|].
      repeat constructor; eexists; eexists; split; reflexivity.
  - exists summaries. exact Hrun.
Defined.


